(** * linkcurt backend: short-code allocation, lookup and access guard

    A shallow embedding of the controllers, helpers, models and routes of
    the linkcurt URL shortener, and the properties its specification
    states about them.

    Conventions of the embedding:
    - JavaScript strings are [string]; a value that may be [undefined] or
      [null] is an [option];
    - [Math.random()] is a sequence of rationals [rnd : nat -> Q], read
      through a cursor that is part of the world state;
    - the relational store is three tables held as lists in insertion
      order, with the constraints the Sequelize models declare (unique
      index, foreign keys, cascades, auto-increment keys);
    - text columns are compared by exact equality, and the store is
      always reachable: a query or an insert fails only through a declared
      constraint; the declared lengths of the visit columns are part of
      the insert of a visit, while the length of a link's URL column
      ([STRING(2048)]) is not part of the model of the links: a statement
      that asserts an accepted write of a new URL assumes the bound;
    - the packages [validator] and [jsonwebtoken] are not part of the
      repository: [validator.isURL] and [jwt.verify] are section
      variables;
    - a controller is a computation in a small state monad over the world
      (store, random cursor, log of collaborator calls) that returns the
      HTTP response it sends. *)

From Stdlib Require Import Bool List String Ascii ZArith QArith Qround Lia.
From Stdlib Require Import DecimalString.
Import ListNotations.

Local Open Scope string_scope.
Local Open Scope Z_scope.

(* ================================================================== *)
(** * JavaScript string primitives *)

Module JsString.

(** [s.charAt(i)]: the one-character string at index [i], or the empty
    string when [i] is out of range. *)
Definition charAt (s : string) (i : Z) : string :=
  if i <? 0 then ""
  else match String.get (Z.to_nat i) s with
       | Some c => String c ""
       | None => ""
       end.

(** [s.substring(n)] for a non-negative constant [n]. *)
Fixpoint substring_from (n : nat) (s : string) : string :=
  match n, s with
  | O, _ => s
  | S _, EmptyString => EmptyString
  | S n', String _ s' => substring_from n' s'
  end.

(** White space and line terminators of the ASCII range, the ones
    [String.prototype.trim] removes. The white space beyond that range
    that it also removes (no-break space, the Unicode space separators,
    the byte order mark) is left in place here. *)
Definition is_space (c : ascii) : bool :=
  let n := nat_of_ascii c in
  ((9 <=? n) && (n <=? 13) || (n =? 32))%nat.

Fixpoint trim_start (s : string) : string :=
  match s with
  | EmptyString => EmptyString
  | String c s' => if is_space c then trim_start s' else s
  end.

(** Drop the trailing white space: a character is kept when it is not a
    space or something is kept after it. *)
Fixpoint trim_end (s : string) : string :=
  match s with
  | EmptyString => EmptyString
  | String c s' =>
      match trim_end s' with
      | EmptyString => if is_space c then EmptyString else String c EmptyString
      | rest => String c rest
      end
  end.

Definition trim (s : string) : string := trim_end (trim_start s).

(** Truthiness of a string: [""] is falsy. *)
Definition truthy (s : string) : bool :=
  match s with EmptyString => false | _ => true end.

(** Membership of a character in a string. *)
Fixpoint mem (c : ascii) (s : string) : bool :=
  match s with
  | EmptyString => false
  | String d s' => Ascii.eqb c d || mem c s'
  end.

End JsString.

(* ================================================================== *)
(** * Regular expressions

    The two regular expressions of the source use literals, character
    ranges, sequence, alternation, [?] and bounded repetition [{n}].
    [rmatch r s] lists, in the priority order of a backtracking matcher
    (greedy [?], left alternative first), the remainders of [s] after a
    prefix matched by [r]. *)

Module Regex.

Inductive regex : Type :=
| Eps
| Lit (c : ascii)
| Range (lo hi : ascii)
| Seq (r1 r2 : regex)
| Alt (r1 r2 : regex)
| Opt (r : regex)
| Rep (n : nat) (r : regex).

Definition in_range (lo hi c : ascii) : bool :=
  ((nat_of_ascii lo <=? nat_of_ascii c) && (nat_of_ascii c <=? nat_of_ascii hi))%nat.

Fixpoint rmatch (r : regex) (s : string) : list string :=
  match r with
  | Eps => [s]
  | Lit c =>
      match s with
      | String d s' => if Ascii.eqb c d then [s'] else []
      | EmptyString => []
      end
  | Range lo hi =>
      match s with
      | String d s' => if in_range lo hi d then [s'] else []
      | EmptyString => []
      end
  | Seq r1 r2 => flat_map (rmatch r2) (rmatch r1 s)
  | Alt r1 r2 => rmatch r1 s ++ rmatch r2 s
  | Opt r1 => rmatch r1 s ++ [s]
  | Rep n r1 =>
      (fix rep (k : nat) (t : string) : list string :=
         match k with
         | O => [t]
         | S k' => flat_map (rep k') (rmatch r1 t)
         end) n s
  end.

(** The literal sequence of a string. *)
Fixpoint lits (s : string) : regex :=
  match s with
  | EmptyString => Eps
  | String c s' => Seq (Lit c) (lits s')
  end.

Definition is_empty (s : string) : bool :=
  match s with EmptyString => true | _ => false end.

(** [/^r$/.test(s)] *)
Definition test_anchored (r : regex) (s : string) : bool :=
  existsb is_empty (rmatch r s).

(** [s.replace(/^r/, '')]: the first match in priority order is removed;
    without a match the string is returned as it is. *)
Definition replace_prefix (r : regex) (s : string) : string :=
  match rmatch r s with
  | rest :: _ => rest
  | [] => s
  end.

(** The least number of characters a match of [r] consumes. *)
Fixpoint minlen (r : regex) : nat :=
  match r with
  | Eps => 0
  | Lit _ => 1
  | Range _ _ => 1
  | Seq r1 r2 => minlen r1 + minlen r2
  | Alt r1 r2 => Nat.min (minlen r1) (minlen r2)
  | Opt _ => 0
  | Rep n r1 => n * minlen r1
  end.

End Regex.

(* ================================================================== *)
(** * The world: store, random source, call log *)

(** ** Rows of the three tables *)

(** [UsersModel]: the columns the modelled code reads. *)
Record User : Type := mkUser {
  id_user : Z;
  email : string;
  role : string
}.

(** [user.role], under a name that a parameter called [role] does not
    hide. *)
Definition role_of (u : User) : string := role u.

(** [LinksModel] *)
Record Link : Type := mkLink {
  id_links : Z;
  original_link : string;
  short_link : string;
  link_id_user : Z
}.

(** [LinksVisitedModel]; the nullable columns are options. *)
Record Visit : Type := mkVisit {
  id_links_visited : Z;
  so : option string;
  web_navigator : option string;
  ip : option string;
  country : option string;
  city : option string;
  visit_id_user : Z;
  visit_id_links : Z
}.

Record DB : Type := mkDB {
  users : list User;
  links : list Link;
  visits : list Visit;
  next_id_links : Z;
  next_id_links_visited : Z
}.

Definition empty_db : DB := mkDB [] [] [] 1 1.

(** ** Where clauses of the [LinksModel] queries the controllers issue *)

Inductive LinkWhere : Type :=
| ByOriginalAndUser (original : string) (user : option Z)
| ByShortLink (short : string)
| ByIdLinks (id : Z).

(** A [null] user never matches: the column is [allowNull: false]. *)
Definition link_matches (w : LinkWhere) (l : Link) : bool :=
  match w with
  | ByOriginalAndUser o u =>
      String.eqb (original_link l) o &&
      match u with Some n => link_id_user l =? n | None => false end
  | ByShortLink s => String.eqb (short_link l) s
  | ByIdLinks i => id_links l =? i
  end.

(** ** Calls a controller makes to its collaborators, in order *)

Inductive Event : Type :=
| EvLinksFindOne (w : LinkWhere)
| EvUsersFindOne (id : Z)
| EvGenerateShortLink (code : string)
| EvLinksCreate (original short : string) (user : Z)
| EvLinksVisitedCreate (ip : option string) (user link : Z).

Record World : Type := mkWorld {
  db : DB;
  drawn : nat;
  log : list Event
}.

(** ** The state monad of the controllers *)

Definition M (A : Type) : Type := World -> A * World.

Definition ret {A : Type} (a : A) : M A := fun w => (a, w).

Definition bind {A B : Type} (m : M A) (k : A -> M B) : M B :=
  fun w => let (a, w') := m w in k a w'.

Declare Scope ctl_scope.
Delimit Scope ctl_scope with ctl.
Notation "x <- m ;; k" := (bind m (fun x => k))
  (at level 61, m at next level, right associativity) : ctl_scope.
Notation "m ;;; k" := (bind m (fun _ => k))
  (at level 61, right associativity) : ctl_scope.

Definition emit (e : Event) : M unit :=
  fun w => (tt, mkWorld (db w) (drawn w) (log w ++ [e])).

Definition get_db : M DB := fun w => (db w, w).

Definition put_db (d : DB) : M unit :=
  fun w => (tt, mkWorld d (drawn w) (log w)).

(* ================================================================== *)
(** * Helpers *)

Section Helpers.

(** The values successive calls of [Math.random()] return. *)
Variable rnd : nat -> Q.

Definition Math_random : M Q :=
  fun w => (rnd (drawn w), mkWorld (db w) (S (drawn w)) (log w)).

(** The alphabet of [generateShortLink], as written in the source. *)
Definition char : string :=
  "abcdefghijklmnopqrstuvwxyzABCDEFGHIJKLMNOPQRSTUWXYZ0123456789".

(** The body of the [for] loop, [n] iterations left. The product is
    taken exactly, where the source rounds it to a double; the index is
    one of 0..60 either way. *)
Fixpoint generateShortLink_loop (n : nat) (code : string) : M string :=
  match n with
  | O => ret code
  | S n' =>
      (r <- Math_random ;;
       let index := Qfloor (r * inject_Z (Z.of_nat (String.length char))) in
       generateShortLink_loop n' (code ++ JsString.charAt char index))%ctl
  end.

Definition generateShortLink : M string := generateShortLink_loop 4 "".

End Helpers.

(** [isValidIp]: the regular expression of the source. *)
Module IpVerification.
Import Regex.

(** [25[0-5]|2[0-4][0-9]|1[0-9]{2}|[1-9]?[0-9]] *)
Definition octet : regex :=
  Alt (Seq (Lit "2") (Seq (Lit "5") (Range "0" "5")))
 (Alt (Seq (Lit "2") (Seq (Range "0" "4") (Range "0" "9")))
 (Alt (Seq (Lit "1") (Rep 2 (Range "0" "9")))
      (Seq (Opt (Range "1" "9")) (Range "0" "9")))).

(** [^octet(\.octet){3}$] *)
Definition regex_ip : regex := Seq octet (Rep 3 (Seq (Lit ".") octet)).

(** [regex.test(ip)] converts its argument to a string first: a missing
    field is tested as the text [undefined]. *)
Definition to_text (v : option string) : string :=
  match v with Some s => s | None => "undefined" end.

Definition isValidIp (ip : option string) : bool :=
  test_anchored regex_ip (to_text ip).

End IpVerification.

(* ================================================================== *)
(** * The store and its declared constraints *)

Inductive StoreError : Type :=
| UniqueViolation       (* the unique index [idx_short_link] *)
| ForeignKeyViolation   (* a [references] clause *)
| DataTooLong.          (* a text longer than its [STRING(n)] column *)

Definition user_exists (u : Z) (d : DB) : bool :=
  existsb (fun r => id_user r =? u) (users d).

Definition link_exists (i : Z) (d : DB) : bool :=
  existsb (fun l => id_links l =? i) (links d).

Definition short_link_taken (s : string) (d : DB) : bool :=
  existsb (fun l => String.eqb (short_link l) s) (links d).

(** [LinksModel.findOne({where})]: the first matching row. *)
Definition LinksModel_findOne (w : LinkWhere) : M (option Link) :=
  (emit (EvLinksFindOne w) ;;;
   d <- get_db ;;
   ret (find (link_matches w) (links d)))%ctl.

(** [UsersModel.findOne({where: {id_user}})] *)
Definition UsersModel_findOne_id (u : Z) : M (option User) :=
  (emit (EvUsersFindOne u) ;;;
   d <- get_db ;;
   ret (find (fun r => id_user r =? u) (users d)))%ctl.

(** [LinksModel.create({original_link, short_link, id_user})]: the insert
    is refused when [short_link] is already in the unique index or when
    [id_user] references no user; otherwise the row gets the next
    auto-increment key and is appended. *)
Definition LinksModel_create (o s : string) (u : Z) : M (StoreError + Link) :=
  (emit (EvLinksCreate o s u) ;;;
   d <- get_db ;;
   if short_link_taken s d then ret (inl UniqueViolation)
   else if negb (user_exists u d) then ret (inl ForeignKeyViolation)
   else
     let l := mkLink (next_id_links d) o s u in
     put_db (mkDB (users d) (links d ++ [l]) (visits d)
                  (next_id_links d + 1) (next_id_links_visited d)) ;;;
     ret (inr l))%ctl.

(** A nullable text fits a [STRING(n)] column when it is absent or has at
    most [n] characters. (The length is counted in bytes here, which is
    never less than the number of characters.) *)
Definition fits (n : nat) (v : option string) : bool :=
  match v with
  | Some s => (String.length s <=? n)%nat
  | None => true
  end.

(** The lengths [LinksVisitedModel] declares: [so], [web_navigator] and
    [city] are [STRING(100)], [ip] is [STRING(45)], [country] is
    [STRING(50)]. *)
Definition visit_texts_fit (vso vnav vip vcountry vcity : option string)
    : bool :=
  fits 100 vso && fits 100 vnav && fits 45 vip &&
  fits 50 vcountry && fits 100 vcity.

(** [LinksVisitedModel.create({...})]: the insert is refused when a text
    is longer than its column (the store does not keep it as it came: in
    its strict mode, the default, it refuses the row) or when a foreign
    key names no row. *)
Definition LinksVisitedModel_create
    (vso vnav vip vcountry vcity : option string) (u i : Z)
    : M (StoreError + Visit) :=
  (emit (EvLinksVisitedCreate vip u i) ;;;
   d <- get_db ;;
   if negb (visit_texts_fit vso vnav vip vcountry vcity)
   then ret (inl DataTooLong)
   else if negb (user_exists u d) || negb (link_exists i d)
   then ret (inl ForeignKeyViolation)
   else
     let v := mkVisit (next_id_links_visited d) vso vnav vip vcountry vcity u i in
     put_db (mkDB (users d) (links d) (visits d ++ [v])
                  (next_id_links d) (next_id_links_visited d + 1)) ;;;
     ret (inr v))%ctl.

(** [link.update({original_link})] on the row with key [i]. *)
Definition link_update (i : Z) (o : string) (d : DB) : DB :=
  mkDB (users d)
       (map (fun l => if id_links l =? i
                      then mkLink (id_links l) o (short_link l) (link_id_user l)
                      else l) (links d))
       (visits d) (next_id_links d) (next_id_links_visited d).

(** [link.destroy()]: the row goes, and its visits with it
    ([onDelete: CASCADE]). *)
Definition link_destroy (i : Z) (d : DB) : DB :=
  mkDB (users d)
       (filter (fun l => negb (id_links l =? i)) (links d))
       (filter (fun v => negb (visit_id_links v =? i)) (visits d))
       (next_id_links d) (next_id_links_visited d).

(** [user.destroy()]: the row goes, with the links the user owns, the
    visits of those links and the visits the user made. *)
Definition user_destroy (u : Z) (d : DB) : DB :=
  let kept := filter (fun l => negb (link_id_user l =? u)) (links d) in
  mkDB (filter (fun r => negb (id_user r =? u)) (users d))
       kept
       (filter (fun v => negb (visit_id_user v =? u) &&
                         existsb (fun l => id_links l =? visit_id_links v) kept)
               (visits d))
       (next_id_links d) (next_id_links_visited d).

(** [UsersModel.create]: a new row of the users table. *)
Definition user_insert (r : User) (d : DB) : DB :=
  mkDB (users d ++ [r]) (links d) (visits d)
       (next_id_links d) (next_id_links_visited d).

(** [linkVisited.destroy()] *)
Definition visit_destroy (i : Z) (d : DB) : DB :=
  mkDB (users d) (links d)
       (filter (fun v => negb (id_links_visited v =? i)) (visits d))
       (next_id_links d) (next_id_links_visited d).

(* ================================================================== *)
(** * HTTP responses *)

Inductive Body : Type :=
| BError (error : string)                 (* [{ok, error}] *)
| BMessage (message : string)             (* [{ok, message}] *)
| BRaw (e : StoreError)                   (* [{ok, error: error.message}] *)
| BLink (link : Link) (message : string)  (* [{ok, link, message}] *)
| BOriginal (original : string)           (* [{ok, original_link}] *)
| BVisit (linkVisited : Visit) (message : string).

Record Response : Type := mkResponse {
  status : Z;
  ok : bool;
  body : Body
}.

(* ================================================================== *)
(** * Controllers *)

Section LinkControllers.

Variable rnd : nat -> Q.

(** [validator.isURL] *)
Variable isURL : string -> bool.

(** The body of [POST /api/v1/createLinks]. [original_link] is [None]
    when the field is missing or is not a string; [id_user] is [None]
    when it is [null]. *)
Record CreateBody : Type := mkCreateBody {
  req_original_link : option string;
  req_id_user : option Z
}.

(** [!original_link || typeof original_link !== 'string' ||
    !validator.isURL(original_link.trim())] *)
Definition invalid_url (o : option string) : bool :=
  match o with
  | None => true
  | Some s => negb (JsString.truthy s) || negb (isURL (JsString.trim s))
  end.

Definition linkControllerCreate (req : CreateBody) : M Response :=
  match req_original_link req with
  | None => ret (mkResponse 400 false (BError "Invalid URL"))
  | Some original =>
    if invalid_url (Some original)
    then ret (mkResponse 400 false (BError "Invalid URL"))
    else
      (existsLink <- LinksModel_findOne
                       (ByOriginalAndUser original (req_id_user req)) ;;
       match existsLink with
       | Some _ =>
           ret (mkResponse 400 false
                  (BError "Link already exists for this user"))
       | None =>
         match req_id_user req with
         | None => ret (mkResponse 400 false (BError "User ID is required"))
         | Some user =>
             short0 <- generateShortLink rnd ;;
             emit (EvGenerateShortLink short0) ;;;
             existsShortLink <- LinksModel_findOne (ByShortLink short0) ;;
             short <- match existsShortLink with
                      | Some _ =>
                          s <- generateShortLink rnd ;;
                          emit (EvGenerateShortLink s) ;;;
                          ret s
                      | None => ret short0
                      end ;;
             created <- LinksModel_create original short user ;;
             match created with
             | inr newLink =>
                 ret (mkResponse 201 true
                        (BLink newLink "New short link created"))
             | inl _ =>
                 ret (mkResponse 500 false (BError "Internal server error"))
             end
         end
       end)%ctl
  end.

End LinkControllers.

Module LinksControllerGet.
Import Regex.

(** [/^https?:\/\/linkcurter\.com\//] without its anchor. *)
Definition regex_domain : regex :=
  Seq (lits "http") (Seq (Opt (Lit "s")) (lits "://linkcurter.com/")).

(** [GET /api/v1/links/original/:shortLink] *)
Definition linksControllerOriginalLinkGet (param : string) : M Response :=
  let shortLink := replace_prefix regex_domain param in
  (found <- LinksModel_findOne (ByShortLink shortLink) ;;
   match found with
   | None => ret (mkResponse 404 false (BError "Short link not found"))
   | Some l => ret (mkResponse 200 true (BOriginal (original_link l)))
   end)%ctl.

End LinksControllerGet.

Module LinkVisitedControllerPost.
Import IpVerification.

(** The body of [POST /api/v1/linksVisited]. *)
Record VisitBody : Type := mkVisitBody {
  req_so : option string;
  req_web_navigator : option string;
  req_ip : option string;
  req_country : option string;
  req_city : option string;
  req_id_user : option Z;
  req_id_links : option Z
}.

(** [!id] on a number that may be missing: [undefined], [null] and [0]
    are falsy. *)
Definition truthy_id (i : option Z) : option Z :=
  match i with
  | Some n => if n =? 0 then None else Some n
  | None => None
  end.

Definition linkVisitedControllerCreate (req : VisitBody) : M Response :=
  let ipValidation := if isValidIp (req_ip req) then req_ip req else None in
  match truthy_id (req_id_user req) with
  | None => ret (mkResponse 400 false (BError "id_user is required"))
  | Some user_id =>
    (user <- UsersModel_findOne_id user_id ;;
     match user with
     | None => ret (mkResponse 400 false (BError "User does not exist"))
     | Some _ =>
       match truthy_id (req_id_links req) with
       | None => ret (mkResponse 400 false (BError "id_links is required"))
       | Some link_id =>
           links <- LinksModel_findOne (ByIdLinks link_id) ;;
           match links with
           | None =>
               ret (mkResponse 400 false (BError "Link does not exist"))
           | Some _ =>
               created <- LinksVisitedModel_create
                            (req_so req) (req_web_navigator req) ipValidation
                            (req_country req) (req_city req) user_id link_id ;;
               match created with
               | inr linkVisited =>
                   ret (mkResponse 201 true
                          (BVisit linkVisited "New visited link created"))
               | inl e => ret (mkResponse 500 false (BRaw e))
               end
           end
       end
     end)%ctl
  end.

End LinkVisitedControllerPost.

(* ================================================================== *)
(** * The access guard *)

Inductive GuardResult : Type :=
| Next                     (* [next()] *)
| Reply (r : Response).    (* a response is sent, the chain stops *)

Section UsersAuthorizationJWT.

(** [jwt.verify(token, process.env.TOKEN_SECRET)]: the [email] claim of
    a token that verifies, or the message of the error thrown. *)
Variable jwt_verify : string -> string + string.

Definition unauthorized : GuardResult :=
  Reply (mkResponse 401 false (BError "Unauthorized user")).

(** [protectRoute(role)] applied to the [authorization] header of a
    request, against the users table. *)
Definition protectRoute (role : string) (authorization : option string)
    (d : DB) : GuardResult :=
  let no_token :=
    if String.eqb role "" then Next else unauthorized in
  match authorization with
  | None => no_token
  | Some header =>
    if JsString.truthy header then
      let token := JsString.substring_from 7 header in
      match jwt_verify token with
      | inr message => Reply (mkResponse 401 false (BMessage message))
      | inl claim =>
        match find (fun u => String.eqb (email u) claim) (users d) with
        | Some user =>
            if String.eqb role "user" &&
               (String.eqb (role_of user) "user" ||
                String.eqb (role_of user) "admin")
            then Next
            else if String.eqb role "admin" &&
                    String.eqb (role_of user) "admin"
            then Next
            else unauthorized
        | None => Reply (mkResponse 400 false (BError "User not found"))
        end
      end
    else no_token
  end.

End UsersAuthorizationJWT.

(* ================================================================== *)
(** * The GET routes of the links *)

Module LinksRouteGet.

(** The controllers [linksRouteGet] mounts. *)
Inductive Controller : Type :=
| linksControllerGet
| linksControllerAllGet
| linksControllerOriginalLinkGet
| linksControllerGetID
| linksControllerGetIDAll
| linksControllerGetParams
| linksControllerGetParamsAll
| linksSearchDateControllerGet
| linkControllerGetCount
| linkControllerGetCountAll.

(** A segment of a route path: a literal or a named parameter. *)
Inductive Segment : Type :=
| L (text : string)
| P (name : string).

Record Route : Type := mkRoute {
  path : list Segment;
  guard : option string;      (* [protectRoute(role)], when mounted *)
  controller : Controller
}.

Definition api (rest : list Segment) : list Segment :=
  L "api" :: L "v1" :: rest.

(** The table, in the order of the [linksRouteGet.get] calls. *)
Definition linksRouteGet : list Route :=
  [ mkRoute (api [L "links"]) (Some "admin") linksControllerGet;
    mkRoute (api [L "links"; L "all"]) (Some "admin") linksControllerAllGet;
    mkRoute (api [L "links"; L "original"; P "shortLink"]) None
            linksControllerOriginalLinkGet;
    mkRoute (api [L "links"; P "id"]) (Some "user") linksControllerGetID;
    mkRoute (api [L "links"; L "all"; P "id"]) (Some "user")
            linksControllerGetIDAll;
    mkRoute (api [L "links"; P "attribute"; P "data"]) None
            linksControllerGetParams;
    mkRoute (api [L "links"; L "all"; P "attribute"; P "data"]) (Some "user")
            linksControllerGetParamsAll;
    mkRoute (api [L "links"; L "date"; P "initialDate"; P "finalDate"])
            (Some "user") linksSearchDateControllerGet;
    mkRoute (api [L "count"; L "id_user"; P "id_user"; L "links"])
            (Some "user") linkControllerGetCount;
    mkRoute (api [L "count"; L "all"; L "links"]) (Some "admin")
            linkControllerGetCountAll ].

(** Express compares the literal parts of a path without regard to
    case. *)
Definition lower (c : ascii) : ascii :=
  let n := nat_of_ascii c in
  if ((65 <=? n) && (n <=? 90))%nat then ascii_of_nat (n + 32) else c.

Fixpoint lowercase (s : string) : string :=
  match s with
  | EmptyString => EmptyString
  | String c s' => String (lower c) (lowercase s')
  end.

(** Match a request path, segment by segment; the parameters bound on
    the way are returned. *)
Fixpoint match_path (pat : list Segment) (segs : list string)
    : option (list (string * string)) :=
  match pat, segs with
  | [], [] => Some []
  | L text :: pat', seg :: segs' =>
      if String.eqb (lowercase text) (lowercase seg)
      then match_path pat' segs' else None
  | P name :: pat', seg :: segs' =>
      if JsString.truthy seg
      then option_map (cons (name, seg)) (match_path pat' segs')
      else None
  | _, _ => None
  end.

Inductive Outcome : Type :=
| NoRoute
| Rejected (r : Response)
| Invoked (c : Controller) (params : list (string * string)).

Section Dispatch.

Variable jwt_verify : string -> string + string.

(** The first route whose path matches handles the request: its
    guard, when there is one, then its controller. *)
Fixpoint dispatch (table : list Route) (segs : list string)
    (authorization : option string) (d : DB) : Outcome :=
  match table with
  | [] => NoRoute
  | r :: table' =>
      match match_path (path r) segs with
      | None => dispatch table' segs authorization d
      | Some params =>
          match guard r with
          | None => Invoked (controller r) params
          | Some role =>
              match protectRoute jwt_verify role authorization d with
              | Next => Invoked (controller r) params
              | Reply resp => Rejected resp
              end
          end
      end
  end.

End Dispatch.

End LinksRouteGet.

(* ================================================================== *)
(** * Notions the properties are stated with *)

(** The world [w] after the calls [es] were logged. *)
Definition logged (w : World) (es : list Event) : World :=
  mkWorld (db w) (drawn w) (log w ++ es).

(** The code [generateShortLink] returns when the random cursor is at
    [k]. *)
Definition code_at (rnd : nat -> Q) (k : nat) : string :=
  fst (generateShortLink rnd (mkWorld empty_db k [])).

(** The code the allocator hands to [LinksModel.create] when the cursor is
    at [k] and the store is [d]: the first candidate, or the single
    replacement when the first one is taken. *)
Definition final_candidate (rnd : nat -> Q) (k : nat) (d : DB) : string :=
  if short_link_taken (code_at rnd k) d
  then code_at rnd (k + 4)
  else code_at rnd k.

(** The response of the allocator for the result of the insert. *)
Definition create_response (created : StoreError + Link) : Response :=
  match created with
  | inr newLink => mkResponse 201 true (BLink newLink "New short link created")
  | inl _ => mkResponse 500 false (BError "Internal server error")
  end.

(** No two links share their [short_link]. *)
Definition unique_short_links (d : DB) : Prop :=
  NoDup (map short_link (links d)).

(** One operation on the store: a whole run of a modelled controller from
    any random cursor, or one of the row operations the other controllers
    perform. The bare insert stands for an allocation whose steps are
    interleaved with other requests. *)
Inductive step (d : DB) : DB -> Prop :=
| step_linkControllerCreate rnd isURL req k lg :
    step d (db (snd (linkControllerCreate rnd isURL req (mkWorld d k lg))))
| step_LinksModel_create o s u k lg :
    step d (db (snd (LinksModel_create o s u (mkWorld d k lg))))
| step_link_update i o : step d (link_update i o d)
| step_link_destroy i : step d (link_destroy i d)
| step_user_insert r : step d (user_insert r d)
| step_user_destroy u : step d (user_destroy u d)
| step_linkVisitedControllerCreate req k lg :
    step d (db (snd (LinkVisitedControllerPost.linkVisitedControllerCreate
                       req (mkWorld d k lg))))
| step_visit_destroy i : step d (visit_destroy i d).

(** The states of the store that can arise from the empty tables. *)
Inductive reachable : DB -> Prop :=
| reach_empty : reachable empty_db
| reach_step d d' : reachable d -> step d d' -> reachable d'.

(** The rule of the access guard in the words of its specification:
    the required role is empty, or it is [user] and the user is a [user]
    or an [admin], or it is [admin] and the user is an [admin].
    [user_role] is the role of the authenticated user, if any. *)
Definition spec_permits (requiredRole : string) (user_role : option string)
    : bool :=
  String.eqb requiredRole "" ||
  (String.eqb requiredRole "user" &&
   match user_role with
   | Some r => String.eqb r "user" || String.eqb r "admin"
   | None => false
   end) ||
  (String.eqb requiredRole "admin" &&
   match user_role with
   | Some r => String.eqb r "admin"
   | None => false
   end).

(** The role of the user a request authenticates as: the header is
    present, its token verifies and its [email] claim names a user. *)
Definition authenticated_role (jwt_verify : string -> string + string)
    (authorization : option string) (d : DB) : option string :=
  match authorization with
  | None => None
  | Some header =>
      if JsString.truthy header then
        match jwt_verify (JsString.substring_from 7 header) with
        | inl claim =>
            option_map role
              (find (fun u => String.eqb (email u) claim) (users d))
        | inr _ => None
        end
      else None
  end.

(** ** Concrete collaborators and data for the examples *)

Module Sample.

(** A URL check that accepts the one URL the examples submit. *)
Definition isURL (s : string) : bool :=
  String.eqb s "https://example.com/page".

(** A token check that knows two tokens. *)
Definition jwt_verify (token : string) : string + string :=
  if String.eqb token "token-of-ana" then inl "ana@example.com"
  else if String.eqb token "token-of-nobody" then inl "nobody@example.com"
  else inr "invalid token".

(** [Math.random()] returning 0 at every call. *)
Definition zeros (_ : nat) : Q := 0%Q.

(** [Math.random()] returning 47/62 at every call. *)
Definition high (_ : nat) : Q := (47 # 62)%Q.

Definition ana : User := mkUser 1 "ana@example.com" "user".
Definition bob : User := mkUser 2 "bob@example.com" "admin".

Definition two_users : DB := mkDB [ana; bob] [] [] 1 1.

Definition start : World := mkWorld two_users 0 [].

(** Ana already owns the code [aaaa], for another URL. *)
Definition one_link : DB :=
  mkDB [ana; bob] [mkLink 1 "https://example.com/other" "aaaa" 1] [] 2 1.

Definition busy : World := mkWorld one_link 0 [].

Definition page : string := "https://example.com/page".

End Sample.

(* ================================================================== *)
(** * Further helpers, controllers and routes *)

(** ** [changeFormatDate] *)

Module ChangeFormatDate.

(** [date.split('-')]: the pieces between the dashes; there is always at
    least one. *)
Fixpoint split_dash (s : string) : list string :=
  match s with
  | EmptyString => [EmptyString]
  | String c s' =>
      if Ascii.eqb c "-" then EmptyString :: split_dash s'
      else match split_dash s' with
           | piece :: rest => String c piece :: rest
           | [] => [String c EmptyString]
           end
  end.

(** A piece inside a template literal; a missing one is [undefined]. *)
Definition interpolate (piece : option string) : string :=
  match piece with Some s => s | None => "undefined" end.

(** [const [day, month, year] = date.split('-');
     return `${year}-${month}-${day}`] *)
Definition changeFormatDate (date : string) : string :=
  let parts := split_dash date in
  let day := nth_error parts 0 in
  let month := nth_error parts 1 in
  let year := nth_error parts 2 in
  interpolate year ++ "-" ++ interpolate month ++ "-" ++ interpolate day.

(** No dash in the text. *)
Definition dashless (s : string) : Prop := JsString.mem "-" s = false.

End ChangeFormatDate.

(** ** Decimal texts, for the addresses [isValidIp] accepts *)

(** The plain decimal numeral of [n]. *)
Definition decimal (n : nat) : string :=
  NilEmpty.string_of_uint (Nat.to_uint n).

(** [a.b.c.d] *)
Definition dotted_quad (a b c d : nat) : string :=
  decimal a ++ "." ++ decimal b ++ "." ++ decimal c ++ "." ++ decimal d.

(** The numerals of 0 to 255. *)
Definition decimals : list string := map decimal (seq 0 256).

(** A digit or a dot. *)
Definition digit_or_dot (c : ascii) : bool :=
  Regex.in_range "0" "9" c || Ascii.eqb c ".".

(** Every character of the text satisfies [f]. *)
Fixpoint all_chars (f : ascii -> bool) (s : string) : bool :=
  match s with
  | EmptyString => true
  | String c s' => f c && all_chars f s'
  end.

(** The finitely many texts a regular expression matches. *)
Fixpoint lang (r : Regex.regex) : list string :=
  match r with
  | Regex.Eps => [EmptyString]
  | Regex.Lit c => [String c EmptyString]
  | Regex.Range lo hi =>
      map (fun k => String (ascii_of_nat k) EmptyString)
          (seq (nat_of_ascii lo) (S (nat_of_ascii hi) - nat_of_ascii lo))
  | Regex.Seq r1 r2 =>
      flat_map (fun p => map (String.append p) (lang r2)) (lang r1)
  | Regex.Alt r1 r2 => lang r1 ++ lang r2
  | Regex.Opt r1 => lang r1 ++ [EmptyString]
  | Regex.Rep n r1 =>
      (fix rep (k : nat) : list string :=
         match k with
         | O => [EmptyString]
         | S k' => flat_map (fun p => map (String.append p) (rep k')) (lang r1)
         end) n
  end.

(** ** The visit a request leads to *)

(** The texts of a visit request other than the address fit the columns
    [LinksVisitedModel] declares for them. *)
Definition metadata_fits (req : LinkVisitedControllerPost.VisitBody) : bool :=
  fits 100 (LinkVisitedControllerPost.req_so req) &&
  fits 100 (LinkVisitedControllerPost.req_web_navigator req) &&
  fits 50 (LinkVisitedControllerPost.req_country req) &&
  fits 100 (LinkVisitedControllerPost.req_city req).

(** The row [linkVisitedControllerCreate] inserts for a request naming the
    user [u] and the link [i]. *)
Definition visit_of (req : LinkVisitedControllerPost.VisitBody) (d : DB)
    (u i : Z) : Visit :=
  mkVisit (next_id_links_visited d)
    (LinkVisitedControllerPost.req_so req)
    (LinkVisitedControllerPost.req_web_navigator req)
    (if IpVerification.isValidIp (LinkVisitedControllerPost.req_ip req)
     then LinkVisitedControllerPost.req_ip req else None)
    (LinkVisitedControllerPost.req_country req)
    (LinkVisitedControllerPost.req_city req) u i.

(** ** The controllers that update and delete a link *)

Section LinkMutations.

(** [validator.isURL] *)
Variable isURL : string -> bool.

(** [isNaN(Number(id))] on the text of a route parameter. *)
Variable Number_isNaN : string -> bool.

(** The integer key the store takes the text of a route parameter for
    when it compares it with an integer column; [None] when the text
    equals no integer. *)
Variable key_of_text : string -> option Z.

(** [PUT /api/v1/links/:id]: the route parameter and the body
    [{id_links, original_link}]; [id_links] is a number. *)
Record PutRequest : Type := mkPutRequest {
  put_params_id : string;
  put_id_links : Z;
  put_original_link : option string
}.

(** The row after [link.update({original_link})]. *)
Definition with_original (o : string) (l : Link) : Link :=
  mkLink (id_links l) o (short_link l) (link_id_user l).

Definition linkControllerPutID (req : PutRequest) (d : DB) : Response * DB :=
  match put_original_link req with
  | None => (mkResponse 400 false (BError "Invalid URL"), d)
  | Some original =>
    if invalid_url isURL (Some original)
    then (mkResponse 400 false (BError "Invalid URL"), d)
    else
      match find (link_matches (ByIdLinks (put_id_links req))) (links d) with
      | Some link =>
          (mkResponse 200 true
             (BLink (with_original original link) "Link updated"),
           link_update (id_links link) original d)
      | None =>
          (mkResponse 404 false
             (BError ("Link not found with this id:" ++ put_params_id req)),
           d)
      end
  end.

(** The responses of the delete controller: [{ok, error}] or
    [{ok, links, message}]. *)
Inductive DeleteBody : Type :=
| DeleteError (error : string)
| Deleted (links : Link) (message : string).

Record DeleteResponse : Type := mkDeleteResponse {
  delete_status : Z;
  delete_ok : bool;
  delete_body : DeleteBody
}.

(** [DELETE /api/v1/links/:id] *)
Definition linkControllerDeleteID (id : string) (d : DB)
    : DeleteResponse * DB :=
  if Number_isNaN id
  then (mkDeleteResponse 400 false (DeleteError "ID has to be a number"), d)
  else
    let found :=
      match key_of_text id with
      | Some key => find (link_matches (ByIdLinks key)) (links d)
      | None => None
      end in
    match found with
    | Some link =>
        (mkDeleteResponse 200 true (Deleted link "Link deleted"),
         link_destroy (id_links link) d)
    | None =>
        (mkDeleteResponse 404 false
           (DeleteError ("Link not found with id " ++ id)),
         d)
    end.

End LinkMutations.

(** ** The guarded routes that change links *)

Section GuardedRoutes.

Variable jwt_verify : string -> string + string.
Variable rnd : nat -> Q.
Variable isURL : string -> bool.
Variable Number_isNaN : string -> bool.
Variable key_of_text : string -> option Z.

(** [linksRoutePost.post('/api/v1/createLinks', protectRoute("user"),
    linkControllerCreate)] *)
Definition post_createLinks (authorization : option string)
    (req : CreateBody) : M Response :=
  fun w =>
    match protectRoute jwt_verify "user" authorization (db w) with
    | Next => linkControllerCreate rnd isURL req w
    | Reply r => (r, w)
    end.

(** A response of the guard or of the delete controller. *)
Inductive DeleteOutcome : Type :=
| DeleteRejected (r : Response)
| DeleteHandled (r : DeleteResponse).

(** [linkRouteDelete.delete('/api/v1/links/:id', protectRoute("user"),
    linkControllerDeleteID)] *)
Definition delete_links (authorization : option string) (id : string)
    (d : DB) : DeleteOutcome * DB :=
  match protectRoute jwt_verify "user" authorization d with
  | Next =>
      let (r, d') := linkControllerDeleteID Number_isNaN key_of_text id d in
      (DeleteHandled r, d')
  | Reply r => (DeleteRejected r, d)
  end.

(** [linksRoutePut.put('/api/v1/links/:id', protectRoute("user"),
    linkControllerPutID)] *)
Definition put_links (authorization : option string) (req : PutRequest)
    (d : DB) : Response * DB :=
  match protectRoute jwt_verify "user" authorization d with
  | Next => linkControllerPutID isURL req d
  | Reply r => (r, d)
  end.

End GuardedRoutes.

(** ** Integrity of the store *)

(** The routing half of [LinksRouteGet.dispatch]: the first route of
    the table whose path matches the request, with the parameters the
    path binds. *)
Fixpoint first_match (table : list LinksRouteGet.Route) (segs : list string)
    : option (LinksRouteGet.Route * list (string * string)) :=
  match table with
  | [] => None
  | r :: table' =>
      match LinksRouteGet.match_path (LinksRouteGet.path r) segs with
      | Some params => Some (r, params)
      | None => first_match table' segs
      end
  end.

(** Every link is owned by a stored user; every visit names a stored user
    and a stored link. *)
Definition references_hold (d : DB) : Prop :=
  (forall l, In l (links d) -> user_exists (link_id_user l) d = true) /\
  (forall v, In v (visits d) ->
     user_exists (visit_id_user v) d = true /\
     link_exists (visit_id_links v) d = true).

(** The keys of the links are distinct and below the next key. *)
Definition link_keys_fresh (d : DB) : Prop :=
  NoDup (map id_links (links d)) /\
  forall l, In l (links d) -> id_links l < next_id_links d.

(** The store after the insert of a link with the next key. *)
Definition with_new_link (d : DB) (o s : string) (u : Z) : DB :=
  mkDB (users d) (links d ++ [mkLink (next_id_links d) o s u]) (visits d)
       (next_id_links d + 1) (next_id_links_visited d).

(** The store after the insert of a visit. *)
Definition with_new_visit (d : DB) (v : Visit) : DB :=
  mkDB (users d) (links d) (visits d ++ [v])
       (next_id_links d) (next_id_links_visited d + 1).

(** ** More sample data *)

Module Scenario.

(** [isNaN(Number(id))] and the key of a text, on plain numerals of at
    most two digits, which is all the examples use. *)
Definition key_of_text (s : string) : option Z :=
  match s with
  | String a EmptyString =>
      if Regex.in_range "0" "9" a
      then Some (Z.of_nat (nat_of_ascii a) - 48) else None
  | String a (String b EmptyString) =>
      if Regex.in_range "0" "9" a && Regex.in_range "0" "9" b
      then Some (10 * (Z.of_nat (nat_of_ascii a) - 48)
                 + (Z.of_nat (nat_of_ascii b) - 48))
      else None
  | _ => None
  end.

Definition Number_isNaN (s : string) : bool :=
  match key_of_text s with Some _ => false | None => true end.


(** [Math.random()] returning 0.00, 0.01, ..., 0.99 and again. *)
Definition cycle (n : nat) : Q := (Z.of_nat (n mod 100) # 100)%Q.

(** Ana owns two links, Bob one; Bob has visited Ana's first link. *)
Definition three_links : DB :=
  mkDB [Sample.ana; Sample.bob]
       [mkLink 1 "https://example.com/other" "aaaa" 1;
        mkLink 2 "https://example.com/page" "bbbb" 1;
        mkLink 3 "https://example.com/page" "cccc" 2]
       [mkVisit 1 None None None None None 2 1]
       4 2.

(** A store built from the empty tables: Ana and Bob register, Ana
    allocates the page, Bob visits it. *)
Definition registered : DB :=
  user_insert Sample.bob (user_insert Sample.ana empty_db).

Definition allocated : DB :=
  db (snd (linkControllerCreate Sample.zeros Sample.isURL
             (mkCreateBody (Some Sample.page) (Some 1))
             (mkWorld registered 0 []))).

Definition visited : DB :=
  db (snd (LinkVisitedControllerPost.linkVisitedControllerCreate
             (LinkVisitedControllerPost.mkVisitBody
                None None (Some "10.0.0.7") None None (Some 2) (Some 1))
             (mkWorld allocated 0 []))).

End Scenario.

(* ================================================================== *)
(** * The code generator *)

Section GeneratorFacts.

Variable rnd : nat -> Q.

Lemma mem_append (c : ascii) (s t : string) :
  JsString.mem c (s ++ t) = JsString.mem c s || JsString.mem c t.
Proof.
  induction s as [|d s IH]; simpl; [reflexivity|].
  rewrite IH. now rewrite orb_assoc.
Qed.

Lemma mem_get (c : ascii) (s : string) (n : nat) :
  String.get n s = Some c -> JsString.mem c s = true.
Proof.
  revert n. induction s as [|d s IH]; intros [|n]; simpl; try discriminate.
  - intros [= ->]. now rewrite Ascii.eqb_refl.
  - intros H. rewrite (IH _ H). apply orb_true_r.
Qed.

Lemma mem_charAt (c : ascii) (s : string) (i : Z) :
  JsString.mem c (JsString.charAt s i) = true -> JsString.mem c s = true.
Proof.
  unfold JsString.charAt. destruct (i <? 0); [discriminate|].
  destruct (String.get (Z.to_nat i) s) as [d|] eqn:G; [|discriminate].
  simpl. rewrite orb_false_r. intros E.
  apply Ascii.eqb_eq in E. subst d. eapply mem_get; eauto.
Qed.

(** A character outside the alphabet and outside the accumulator is not
    in the result of the loop. *)
Lemma loop_avoids (c : ascii) (n : nat) :
  JsString.mem c char = false ->
  forall code w,
    JsString.mem c code = false ->
    JsString.mem c (fst (generateShortLink_loop rnd n code w)) = false.
Proof.
  intros Hc. induction n as [|n IH]; intros code w Hcode; simpl.
  - exact Hcode.
  - unfold bind, Math_random. apply IH.
    rewrite mem_append, Hcode. simpl.
    destruct (JsString.mem c (JsString.charAt char _)) eqn:E; [|reflexivity].
    apply mem_charAt in E. congruence.
Qed.

(** The loop reads the world only through the cursor, which it advances
    by one per iteration. *)
Lemma loop_run (n : nat) :
  forall code w,
    generateShortLink_loop rnd n code w =
    (fst (generateShortLink_loop rnd n code (mkWorld empty_db (drawn w) [])),
     mkWorld (db w) (drawn w + n) (log w)).
Proof.
  induction n as [|n IH]; intros code w; simpl.
  - unfold ret. simpl. rewrite Nat.add_0_r. now destruct w.
  - unfold bind, Math_random. simpl.
    rewrite IH. simpl.
    rewrite (IH _ (mkWorld empty_db (S (drawn w)) [])). simpl.
    f_equal. f_equal. lia.
Qed.

Lemma generateShortLink_run (w : World) :
  generateShortLink rnd w =
  (code_at rnd (drawn w), mkWorld (db w) (drawn w + 4) (log w)).
Proof. unfold generateShortLink, code_at. apply loop_run. Qed.

Lemma length_append (s t : string) :
  String.length (s ++ t) = (String.length s + String.length t)%nat.
Proof. induction s; simpl; congruence. Qed.

Lemma get_in_range (s : string) (n : nat) :
  (n < String.length s)%nat -> exists c, String.get n s = Some c.
Proof.
  revert n. induction s as [|d s IH]; intros [|n]; simpl; try lia; eauto.
  intros H. apply IH. lia.
Qed.

(** For a draw in [[0,1)] the index is a position of the alphabet. *)
Lemma index_in_range (r : Q) :
  (0 <= r)%Q -> (r < 1)%Q ->
  0 <= Qfloor (r * inject_Z (Z.of_nat (String.length char))) < 61.
Proof.
  intros H0 H1. change (Z.of_nat (String.length char)) with 61.
  split.
  - change 0 with (Qfloor 0). apply Qfloor_resp_le.
    apply Qmult_le_0_compat; [exact H0 | discriminate].
  - apply Z.lt_nge. intros Hge.
    assert (L : (inject_Z 61 <= r * inject_Z 61)%Q).
    { eapply Qle_trans; [|apply Qfloor_le].
      rewrite <- Zle_Qle. exact Hge. }
    assert (U : (r * inject_Z 61 < 1 * inject_Z 61)%Q).
    { apply Qmult_lt_compat_r; [reflexivity | exact H1]. }
    rewrite Qmult_1_l in U.
    exact (Qlt_irrefl _ (Qle_lt_trans _ _ _ L U)).
Qed.

Lemma charAt_length (i : Z) :
  0 <= i < 61 -> String.length (JsString.charAt char i) = 1%nat.
Proof.
  intros H. unfold JsString.charAt.
  destruct (i <? 0) eqn:E; [apply Z.ltb_lt in E; lia|].
  destruct (get_in_range char (Z.to_nat i)) as [c ->]; [|reflexivity].
  change (String.length char) with 61%nat. lia.
Qed.

Lemma loop_length (n : nat) :
  (forall i, (0 <= rnd i)%Q /\ (rnd i < 1)%Q) ->
  forall code w,
    String.length (fst (generateShortLink_loop rnd n code w)) =
    (String.length code + n)%nat.
Proof.
  intros Hr. induction n as [|n IH]; intros code w; simpl.
  - lia.
  - unfold bind, Math_random. rewrite IH, length_append.
    rewrite charAt_length; [lia|].
    apply index_in_range; apply Hr.
Qed.

(** With draws in [[0,1)], as [Math.random()] gives them, a code has
    four characters. *)
Lemma generateShortLink_length (w : World) :
  (forall i, (0 <= rnd i)%Q /\ (rnd i < 1)%Q) ->
  String.length (fst (generateShortLink rnd w)) = 4%nat.
Proof. intros Hr. unfold generateShortLink. now rewrite loop_length. Qed.

End GeneratorFacts.

(** C2: every code [generateShortLink] returns is made of characters of
    its alphabet, but the alphabet written in the source has 61 symbols,
    not 62: the uppercase letter V is missing from it, so no code ever
    contains a V, whatever [Math.random()] returns. *)
Theorem generateShortLink_never_V :
  String.length char = 61%nat /\
  JsString.mem "V" char = false /\
  forall (rnd : nat -> Q) (w : World),
    JsString.mem "V" (fst (generateShortLink rnd w)) = false.
Proof.
  split; [reflexivity|]. split; [reflexivity|].
  intros rnd w. unfold generateShortLink.
  apply loop_avoids; reflexivity.
Qed.

(** The draws that would select V in a 62-symbol alphabet select U. *)
Example generateShortLink_high :
  fst (generateShortLink Sample.high Sample.start) = "UUUU".
Proof. reflexivity. Qed.

(* ================================================================== *)
(** * The link allocator *)

Lemma existsb_find {A : Type} (f : A -> bool) (l : list A) :
  existsb f l = match find f l with Some _ => true | None => false end.
Proof.
  induction l as [|a l IH]; simpl; [reflexivity|].
  destruct (f a); [reflexivity | exact IH].
Qed.

Section AllocatorFacts.

Variable rnd : nat -> Q.
Variable isURL : string -> bool.

(** What one run of the allocator does on a request that passes the URL
    check: the calls it makes, in order, and the response it sends. *)
Lemma linkControllerCreate_run (original : string) (user : option Z)
    (w : World) :
  invalid_url isURL (Some original) = false ->
  linkControllerCreate rnd isURL (mkCreateBody (Some original) user) w =
  let q := EvLinksFindOne (ByOriginalAndUser original user) in
  match find (link_matches (ByOriginalAndUser original user))
             (links (db w)) with
  | Some _ =>
      (mkResponse 400 false (BError "Link already exists for this user"),
       logged w [q])
  | None =>
    match user with
    | None =>
        (mkResponse 400 false (BError "User ID is required"), logged w [q])
    | Some u =>
        let c1 := code_at rnd (drawn w) in
        let c2 := code_at rnd (drawn w + 4) in
        if short_link_taken c1 (db w) then
          let (created, w') :=
            LinksModel_create original c2 u
              (mkWorld (db w) (drawn w + 8)
                 (log w ++ [q; EvGenerateShortLink c1;
                            EvLinksFindOne (ByShortLink c1);
                            EvGenerateShortLink c2])) in
          (create_response created, w')
        else
          let (created, w') :=
            LinksModel_create original c1 u
              (mkWorld (db w) (drawn w + 4)
                 (log w ++ [q; EvGenerateShortLink c1;
                            EvLinksFindOne (ByShortLink c1)])) in
          (create_response created, w')
    end
  end.
Proof.
  intros Hurl. unfold linkControllerCreate. cbn [req_original_link req_id_user].
  rewrite Hurl. cbv zeta.
  unfold bind at 1. unfold LinksModel_findOne at 1.
  unfold bind at 1. unfold emit at 1. unfold bind at 1. unfold get_db at 1.
  unfold ret at 1. cbn [db drawn log links].
  destruct (find _ (links (db w))) as [l|]; [reflexivity|].
  destruct user as [u|]; [|reflexivity].
  unfold bind at 1. rewrite generateShortLink_run.
  unfold bind at 1. unfold emit at 1.
  unfold bind at 1. unfold LinksModel_findOne at 1.
  unfold bind at 1. unfold emit at 1. unfold bind at 1. unfold get_db at 1.
  unfold ret at 1. cbn [db drawn log links].
  unfold short_link_taken. rewrite existsb_find.
  change (fun l : Link => String.eqb (short_link l) (code_at rnd (drawn w)))
    with (link_matches (ByShortLink (code_at rnd (drawn w)))).
  destruct (find _ (links (db w))) as [l|].
  - unfold bind at 1. unfold bind at 1. rewrite generateShortLink_run.
    unfold bind at 1. unfold emit at 1. unfold ret at 1.
    cbn [db drawn log links].
    rewrite <- !app_assoc. cbn [app].
    replace (drawn w + 4 + 4)%nat with (drawn w + 8)%nat by lia.
    unfold bind at 1.
    destruct (LinksModel_create _ _ _ _) as [[e|l'] w']; reflexivity.
  - unfold bind at 1. unfold ret at 1.
    rewrite <- !app_assoc. cbn [app].
    unfold bind at 1.
    destruct (LinksModel_create _ _ _ _) as [[e|l'] w']; reflexivity.
Qed.

(** The insert, run. *)
Lemma LinksModel_create_run (o s : string) (u : Z) (w : World) :
  LinksModel_create o s u w =
  let w1 := logged w [EvLinksCreate o s u] in
  if short_link_taken s (db w) then (inl UniqueViolation, w1)
  else if negb (user_exists u (db w)) then (inl ForeignKeyViolation, w1)
  else
    let l := mkLink (next_id_links (db w)) o s u in
    (inr l,
     mkWorld (mkDB (users (db w)) (links (db w) ++ [l]) (visits (db w))
                   (next_id_links (db w) + 1)
                   (next_id_links_visited (db w)))
             (drawn w) (log w ++ [EvLinksCreate o s u])).
Proof.
  unfold LinksModel_create, bind, emit, get_db, put_db, ret, logged. simpl.
  destruct (short_link_taken s (db w)); [reflexivity|].
  destruct (user_exists u (db w)); reflexivity.
Qed.

End AllocatorFacts.

(** C1: when the first candidate collides with a stored short link, the
    allocator draws exactly one replacement (eight random draws in all),
    and its next and last call is the insert of that replacement: the
    replacement is not looked up, whether it is taken or not, and the
    response is the one the insert decides. *)
Theorem linkControllerCreate_single_regeneration
    (rnd : nat -> Q) (isURL : string -> bool)
    (original : string) (user : Z) (w : World) :
  invalid_url isURL (Some original) = false ->
  find (link_matches (ByOriginalAndUser original (Some user)))
       (links (db w)) = None ->
  short_link_taken (code_at rnd (drawn w)) (db w) = true ->
  let c1 := code_at rnd (drawn w) in
  let c2 := code_at rnd (drawn w + 4) in
  let before_insert :=
    mkWorld (db w) (drawn w + 8)
      (log w ++ [EvLinksFindOne (ByOriginalAndUser original (Some user));
                 EvGenerateShortLink c1;
                 EvLinksFindOne (ByShortLink c1);
                 EvGenerateShortLink c2]) in
  let run := linkControllerCreate rnd isURL
               (mkCreateBody (Some original) (Some user)) w in
  let insert := LinksModel_create original c2 user before_insert in
  fst run = create_response (fst insert) /\
  snd run = snd insert /\
  drawn (snd run) = (drawn w + 8)%nat /\
  log (snd run) = (log before_insert ++ [EvLinksCreate original c2 user])%list.
Proof.
  intros Hurl Hdup Htaken. cbv zeta.
  rewrite (linkControllerCreate_run rnd isURL original (Some user) w Hurl).
  cbv zeta. rewrite Hdup, Htaken.
  rewrite LinksModel_create_run. cbv zeta. simpl db.
  destruct (short_link_taken (code_at rnd (drawn w + 4)) (db w));
    [repeat split|].
  destruct (user_exists user (db w)); repeat split.
Qed.

Section AllocatorOutcomes.

Variable rnd : nat -> Q.
Variable isURL : string -> bool.

Lemma find_null_user (original : string) (ls : list Link) :
  find (link_matches (ByOriginalAndUser original None)) ls = None.
Proof.
  induction ls as [|l ls IH]; simpl; [reflexivity|].
  rewrite andb_false_r. exact IH.
Qed.

Lemma find_app_none {A : Type} (f : A -> bool) (l : list A) (a : A) :
  find f l = None -> find f (l ++ [a]) = if f a then Some a else None.
Proof.
  induction l as [|b l IH]; simpl; [reflexivity|].
  destruct (f b); [discriminate | exact IH].
Qed.

Lemma existsb_snoc {A : Type} (f : A -> bool) (l : list A) (a : A) :
  existsb f (l ++ [a]) = existsb f l || f a.
Proof. rewrite existsb_app. simpl. now rewrite orb_false_r. Qed.

(** A request without a string in [original_link], or with one that fails
    the URL check, is answered 400 before anything else happens. *)
Lemma linkControllerCreate_invalid (req : CreateBody) (w : World) :
  invalid_url isURL (req_original_link req) = true ->
  linkControllerCreate rnd isURL req w =
  (mkResponse 400 false (BError "Invalid URL"), w).
Proof.
  unfold linkControllerCreate. destruct (req_original_link req) as [o|].
  - intros ->. reflexivity.
  - reflexivity.
Qed.

(** What a 201 of the allocator means for the store. *)
Lemma linkControllerCreate_created (original : string) (u : Z) (w : World) :
  status (fst (linkControllerCreate rnd isURL
                 (mkCreateBody (Some original) (Some u)) w)) = 201 ->
  invalid_url isURL (Some original) = false /\
  find (link_matches (ByOriginalAndUser original (Some u)))
       (links (db w)) = None /\
  user_exists u (db w) = true /\
  exists l,
    fst (linkControllerCreate rnd isURL
           (mkCreateBody (Some original) (Some u)) w) =
      mkResponse 201 true (BLink l "New short link created") /\
    original_link l = original /\ link_id_user l = u /\
    short_link l = final_candidate rnd (drawn w) (db w) /\
    short_link_taken (short_link l) (db w) = false /\
    users (db (snd (linkControllerCreate rnd isURL
                      (mkCreateBody (Some original) (Some u)) w))) =
      users (db w) /\
    links (db (snd (linkControllerCreate rnd isURL
                      (mkCreateBody (Some original) (Some u)) w))) =
      (links (db w) ++ [l])%list.
Proof.
  destruct (invalid_url isURL (Some original)) eqn:Hurl.
  { rewrite linkControllerCreate_invalid by exact Hurl. discriminate. }
  rewrite (linkControllerCreate_run rnd isURL original (Some u) w Hurl).
  cbv zeta. unfold final_candidate.
  destruct (find _ (links (db w))) as [l0|]; [discriminate|].
  destruct (short_link_taken (code_at rnd (drawn w)) (db w));
    rewrite LinksModel_create_run; cbv zeta; cbn [db];
    match goal with
    | |- context [short_link_taken ?c (db w)] =>
        destruct (short_link_taken c (db w)) eqn:Hc
    end; try discriminate;
    destruct (user_exists u (db w)); try discriminate;
    intros _; repeat split; eexists; repeat split; cbn; auto.
Qed.

End AllocatorOutcomes.

(** C1, at a concrete input: every draw is 0, so both candidates are
    [aaaa], which Ana already owns; Bob's request draws twice and goes
    to the insert. *)
Lemma linkControllerCreate_single_regeneration_witness :
  invalid_url Sample.isURL (Some Sample.page) = false /\
  find (link_matches (ByOriginalAndUser Sample.page (Some 2)))
       (links (db Sample.busy)) = None /\
  short_link_taken (code_at Sample.zeros (drawn Sample.busy))
                   (db Sample.busy) = true /\
  let run := linkControllerCreate Sample.zeros Sample.isURL
               (mkCreateBody (Some Sample.page) (Some 2)) Sample.busy in
  let before_insert :=
    mkWorld (db Sample.busy) 8
      (log Sample.busy ++
       [EvLinksFindOne (ByOriginalAndUser Sample.page (Some 2));
        EvGenerateShortLink "aaaa";
        EvLinksFindOne (ByShortLink "aaaa");
        EvGenerateShortLink "aaaa"]) in
  let insert := LinksModel_create Sample.page "aaaa" 2 before_insert in
  fst run = create_response (fst insert) /\
  snd run = snd insert /\
  drawn (snd run) = 8%nat /\
  log (snd run) =
    (log before_insert ++ [EvLinksCreate Sample.page "aaaa" 2])%list.
Proof.
  split; [reflexivity|]. split; [reflexivity|]. split; [reflexivity|].
  apply (linkControllerCreate_single_regeneration
           Sample.zeros Sample.isURL Sample.page 2 Sample.busy);
    reflexivity.
Defined.

(** A second collision is not noticed by the allocator: the insert is
    refused by the unique index, the answer is a 500 and the store is as
    before. *)
Lemma linkControllerCreate_double_collision
    (rnd : nat -> Q) (isURL : string -> bool)
    (original : string) (user : Z) (w : World) :
  invalid_url isURL (Some original) = false ->
  find (link_matches (ByOriginalAndUser original (Some user)))
       (links (db w)) = None ->
  short_link_taken (code_at rnd (drawn w)) (db w) = true ->
  short_link_taken (code_at rnd (drawn w + 4)) (db w) = true ->
  fst (linkControllerCreate rnd isURL
         (mkCreateBody (Some original) (Some user)) w) =
    mkResponse 500 false (BError "Internal server error") /\
  db (snd (linkControllerCreate rnd isURL
             (mkCreateBody (Some original) (Some user)) w)) = db w.
Proof.
  intros Hurl Hdup H1 H2.
  rewrite (linkControllerCreate_run rnd isURL original (Some user) w Hurl).
  cbv zeta. rewrite Hdup, H1, LinksModel_create_run. cbv zeta. cbn [db].
  rewrite H2. split; reflexivity.
Qed.

(** C5, as the code has it: once an allocation of [(original, u)] has
    succeeded, allocating the same pair again is answered 400 "Link
    already exists for this user" and the store is left as it is. The
    same URL for another existing user who does not hold it is never
    refused as a duplicate: it is answered 201, with a new link whose code
    differs from every stored one, when the final candidate is free, and
    500 with the store unchanged when the final candidate is taken. *)
Theorem duplicate_prevention_is_per_user
    (rnd : nat -> Q) (isURL : string -> bool)
    (original : string) (u : Z) (w : World) :
  let first := linkControllerCreate rnd isURL
                 (mkCreateBody (Some original) (Some u)) w in
  let d1 := db (snd first) in
  status (fst first) = 201 ->
  (forall k lg,
     linkControllerCreate rnd isURL
       (mkCreateBody (Some original) (Some u)) (mkWorld d1 k lg) =
     (mkResponse 400 false (BError "Link already exists for this user"),
      mkWorld d1 k
        (lg ++ [EvLinksFindOne (ByOriginalAndUser original (Some u))])))
  /\
  (forall u' k lg,
     u' <> u ->
     user_exists u' d1 = true ->
     find (link_matches (ByOriginalAndUser original (Some u')))
          (links (db w)) = None ->
     let second := linkControllerCreate rnd isURL
                     (mkCreateBody (Some original) (Some u'))
                     (mkWorld d1 k lg) in
     let c := final_candidate rnd k d1 in
     if short_link_taken c d1
     then fst second = mkResponse 500 false (BError "Internal server error")
          /\ db (snd second) = d1
     else exists l,
          fst second = mkResponse 201 true (BLink l "New short link created")
          /\ links (db (snd second)) = (links d1 ++ [l])%list
          /\ original_link l = original
          /\ link_id_user l = u'
          /\ short_link l = c
          /\ forall l1, In l1 (links d1) -> short_link l1 <> short_link l).
Proof.
  intros first d1 H201.
  destruct (linkControllerCreate_created rnd isURL original u w H201)
    as (Hurl & Hdup & Hu & l & Hresp & Ho & Hlu & Hs & Hfree & Husers & Hlinks).
  fold first in Hresp, Husers, Hlinks. fold d1 in Husers, Hlinks.
  split.
  - intros k lg.
    rewrite (linkControllerCreate_run rnd isURL original (Some u) _ Hurl).
    cbv zeta. cbn [db drawn log]. rewrite Hlinks.
    rewrite (find_app_none _ _ l Hdup).
    cbn [link_matches]. rewrite Ho, Hlu, String.eqb_refl, Z.eqb_refl.
    reflexivity.
  - intros u' k lg Hne Hu' Hdup' second c.
    assert (Hfind : find (link_matches (ByOriginalAndUser original (Some u')))
                         (links d1) = None).
    { rewrite Hlinks, (find_app_none _ _ l Hdup').
      cbn [link_matches]. rewrite Hlu.
      destruct (u =? u') eqn:E; [apply Z.eqb_eq in E; congruence|].
      now rewrite andb_false_r. }
    unfold second.
    rewrite (linkControllerCreate_run rnd isURL original (Some u') _ Hurl).
    cbv zeta. cbn [db drawn log]. rewrite Hfind.
    unfold c, final_candidate.
    destruct (short_link_taken (code_at rnd k) d1);
      rewrite LinksModel_create_run; cbv zeta; cbn [db drawn log];
      match goal with
      | |- context [short_link_taken ?x d1] =>
          destruct (short_link_taken x d1) eqn:Hc
      end; try (split; reflexivity);
      rewrite Hu'; cbn [negb fst snd db links];
      eexists; repeat split; cbn [short_link];
      intros l1 Hin Heq;
      unfold short_link_taken in Hc;
      (assert (T : existsb
                     (fun l0 : Link => String.eqb (short_link l0) (short_link l1))
                     (links d1) = true)
         by (apply existsb_exists; exists l1; split;
             [exact Hin | apply String.eqb_refl]));
      rewrite Heq in T; congruence.
Qed.

(** C5, at a concrete input: Ana allocates the page, then Ana again and
    Bob, with draws that give Bob a free code. *)
Lemma duplicate_prevention_is_per_user_witness :
  let rnd := fun n : nat => (Z.of_nat n # 100)%Q in
  let first := linkControllerCreate rnd Sample.isURL
                 (mkCreateBody (Some Sample.page) (Some 1)) Sample.start in
  let d1 := db (snd first) in
  status (fst first) = 201 /\
  fst (linkControllerCreate rnd Sample.isURL
         (mkCreateBody (Some Sample.page) (Some 1)) (mkWorld d1 4 [])) =
    mkResponse 400 false (BError "Link already exists for this user") /\
  status (fst (linkControllerCreate rnd Sample.isURL
                 (mkCreateBody (Some Sample.page) (Some 2))
                 (mkWorld d1 4 []))) = 201.
Proof.
  intros rnd first d1.
  assert (H201 : status (fst first) = 201) by reflexivity.
  destruct (duplicate_prevention_is_per_user
              rnd Sample.isURL Sample.page 1 Sample.start H201)
    as [Hsame Hother].
  split; [exact H201|]. split.
  - fold first in Hsame. fold d1 in Hsame. now rewrite Hsame.
  - specialize (Hother 2 4%nat []).
    fold first in Hother. fold d1 in Hother.
    assert (Hfree : short_link_taken (final_candidate rnd 4 d1) d1 = false)
      by reflexivity.
    cbv zeta in Hother. rewrite Hfree in Hother.
    destruct Hother as (l & -> & _); [discriminate | reflexivity | reflexivity|].
    reflexivity.
Defined.

(** C5 as stated fails when the replacement collides too: with every draw
    equal to 0 both of Bob's candidates are the code Ana just received;
    the insert is refused and Bob is answered 500, although he is a
    different user asking for the same URL. *)
Lemma same_url_other_user_can_fail :
  let first := linkControllerCreate Sample.zeros Sample.isURL
                 (mkCreateBody (Some Sample.page) (Some 1)) Sample.start in
  let second := linkControllerCreate Sample.zeros Sample.isURL
                  (mkCreateBody (Some Sample.page) (Some 2)) (snd first) in
  status (fst first) = 201 /\
  user_exists 2 (db (snd first)) = true /\
  fst second = mkResponse 500 false (BError "Internal server error") /\
  links (db (snd second)) = links (db (snd first)).
Proof. repeat split. Qed.

(** C6: a request with a valid URL and no user identifier is answered
    400 "User ID is required", but only after the duplicate query has
    been sent to the store with the missing identifier: the query is the
    one call in the log. *)
Theorem linkControllerCreate_missing_user_queries_first
    (rnd : nat -> Q) (isURL : string -> bool) (original : string) (w : World) :
  invalid_url isURL (Some original) = false ->
  linkControllerCreate rnd isURL (mkCreateBody (Some original) None) w =
  (mkResponse 400 false (BError "User ID is required"),
   logged w [EvLinksFindOne (ByOriginalAndUser original None)]).
Proof.
  intros Hurl.
  rewrite (linkControllerCreate_run rnd isURL original None w Hurl).
  cbv zeta. now rewrite find_null_user.
Qed.

(** C6, at a concrete input. *)
Lemma linkControllerCreate_missing_user_queries_first_witness :
  invalid_url Sample.isURL (Some Sample.page) = false /\
  linkControllerCreate Sample.zeros Sample.isURL
    (mkCreateBody (Some Sample.page) None) Sample.start =
  (mkResponse 400 false (BError "User ID is required"),
   logged Sample.start [EvLinksFindOne (ByOriginalAndUser Sample.page None)]).
Proof.
  split; [reflexivity|].
  apply (linkControllerCreate_missing_user_queries_first
           Sample.zeros Sample.isURL Sample.page Sample.start).
  reflexivity.
Defined.

(* ================================================================== *)
(** * Uniqueness of the short links *)

Lemma not_taken_not_in (s : string) (d : DB) :
  short_link_taken s d = false -> ~ In s (map short_link (links d)).
Proof.
  unfold short_link_taken. intros H Hin.
  apply in_map_iff in Hin. destruct Hin as (l & Hl & Hin).
  assert (T : existsb (fun l0 : Link => String.eqb (short_link l0) s)
                      (links d) = true).
  { apply existsb_exists. exists l. split; [exact Hin|].
    rewrite Hl. apply String.eqb_refl. }
  congruence.
Qed.

Lemma NoDup_snoc {A : Type} (l : list A) (a : A) :
  NoDup l -> ~ In a l -> NoDup (l ++ [a]).
Proof.
  intros Hl Ha. induction Hl as [|b l Hb Hl IH]; simpl.
  - constructor; [intros []|constructor].
  - constructor.
    + rewrite in_app_iff. intros [H|[H|[]]]; [exact (Hb H)|].
      subst. apply Ha. now left.
    + apply IH. intros H. apply Ha. now right.
Qed.

(** Dropping rows keeps the remaining short links distinct. *)
Lemma unique_after_filter (keep : Link -> bool) (ls : list Link) :
  NoDup (map short_link ls) -> NoDup (map short_link (filter keep ls)).
Proof.
  intros Hls. induction ls as [|row ls IH]; [constructor|].
  simpl in Hls. apply NoDup_cons_iff in Hls. destruct Hls as [Hrow Hls].
  simpl. destruct (keep row); [|exact (IH Hls)].
  simpl. apply NoDup_cons_iff. split; [|exact (IH Hls)].
  rewrite in_map_iff. intros (other & Hcode & Hother).
  apply filter_In in Hother. apply Hrow.
  rewrite in_map_iff. exists other. tauto.
Qed.

(** An insert leaves the links as they are or appends one whose code was
    free. *)
Lemma LinksModel_create_links (o s : string) (u : Z) (w : World) :
  links (db (snd (LinksModel_create o s u w))) = links (db w) \/
  exists l,
    links (db (snd (LinksModel_create o s u w))) = (links (db w) ++ [l])%list /\
    short_link_taken (short_link l) (db w) = false.
Proof.
  rewrite LinksModel_create_run. cbv zeta.
  destruct (short_link_taken s (db w)) eqn:Hs; [now left|].
  destruct (user_exists u (db w)); [|now left].
  right. eexists. split; [reflexivity | exact Hs].
Qed.

(** So does a whole run of the allocator, on any request. *)
Lemma linkControllerCreate_links
    (rnd : nat -> Q) (isURL : string -> bool) (req : CreateBody) (w : World) :
  links (db (snd (linkControllerCreate rnd isURL req w))) = links (db w) \/
  exists l,
    links (db (snd (linkControllerCreate rnd isURL req w))) =
      (links (db w) ++ [l])%list /\
    short_link_taken (short_link l) (db w) = false.
Proof.
  destruct (invalid_url isURL (req_original_link req)) eqn:Hurl.
  { rewrite linkControllerCreate_invalid by exact Hurl. now left. }
  destruct req as [[original|] user]; [|discriminate].
  cbn [req_original_link] in Hurl.
  rewrite (linkControllerCreate_run rnd isURL original user w Hurl).
  cbv zeta.
  destruct (find _ (links (db w))); [now left|].
  destruct user as [u|]; [|now left].
  destruct (short_link_taken (code_at rnd (drawn w)) (db w));
    match goal with
    | |- context [LinksModel_create ?o ?s ?v ?w0] =>
        pose proof (LinksModel_create_links o s v w0) as H;
        destruct (LinksModel_create o s v w0) as [created w']
    end; exact H.
Qed.

(** Recording a visit does not touch the links. *)
Lemma linkVisitedControllerCreate_links
    (req : LinkVisitedControllerPost.VisitBody) (w : World) :
  links (db (snd (LinkVisitedControllerPost.linkVisitedControllerCreate req w)))
  = links (db w).
Proof.
  unfold LinkVisitedControllerPost.linkVisitedControllerCreate.
  destruct (LinkVisitedControllerPost.truthy_id _) as [uid|]; [|reflexivity].
  unfold bind, UsersModel_findOne_id, LinksModel_findOne,
    LinksVisitedModel_create, emit, get_db, put_db, ret. cbn.
  destruct (find _ (users (db w))); [|reflexivity].
  destruct (LinkVisitedControllerPost.truthy_id _) as [lid|]; [|reflexivity].
  cbn. destruct (find _ (links (db w))); [|reflexivity].
  cbn. destruct (negb (visit_texts_fit _ _ _ _ _)); [reflexivity|].
  destruct (negb _ || negb _); reflexivity.
Qed.

Lemma unique_after_append (d : DB) (ls : list Link) :
  unique_short_links d ->
  (ls = links d \/
   exists l, ls = (links d ++ [l])%list /\
             short_link_taken (short_link l) d = false) ->
  NoDup (map short_link ls).
Proof.
  unfold unique_short_links. intros Hd [->|(l & -> & Hfree)]; [exact Hd|].
  rewrite map_app. simpl. apply NoDup_snoc; [exact Hd|].
  now apply not_taken_not_in.
Qed.

(** Every operation keeps the short links distinct. *)
Lemma step_preserves_unique (d d' : DB) :
  step d d' -> unique_short_links d -> unique_short_links d'.
Proof.
  intros Hstep Hd. destruct Hstep; unfold unique_short_links.
  - apply (unique_after_append d); [exact Hd|].
    exact (linkControllerCreate_links rnd isURL req (mkWorld d k lg)).
  - apply (unique_after_append d); [exact Hd|].
    exact (LinksModel_create_links o s u (mkWorld d k lg)).
  - cbn [link_update links]. rewrite map_map.
    erewrite map_ext; [exact Hd|].
    intros l. now destruct (id_links l =? i).
  - cbn [link_destroy links]. now apply unique_after_filter.
  - exact Hd.
  - cbn [user_destroy links]. now apply unique_after_filter.
  - rewrite linkVisitedControllerCreate_links. exact Hd.
  - exact Hd.
Qed.

(** C3: in every state of the store reachable from the empty tables, by
    runs of the allocator (single regeneration included), bare inserts,
    updates of the original URL, deletions of links and users with their
    cascades, and visit operations, no two links share their short
    link. *)
Theorem short_link_unique_in_reachable_states (d : DB) :
  reachable d -> unique_short_links d.
Proof.
  induction 1 as [|d d' _ IH Hstep].
  - constructor.
  - exact (step_preserves_unique d d' Hstep IH).
Qed.

(** C3, at a concrete state: the store after Ana's allocation and an
    allocation of Bob whose candidates both collide. *)
Lemma short_link_unique_in_reachable_states_witness :
  let first := linkControllerCreate Sample.zeros Sample.isURL
                 (mkCreateBody (Some Sample.page) (Some 1))
                 (mkWorld (user_insert Sample.bob
                             (user_insert Sample.ana empty_db)) 0 []) in
  let second := linkControllerCreate Sample.zeros Sample.isURL
                  (mkCreateBody (Some Sample.page) (Some 2))
                  (mkWorld (db (snd first)) 4 []) in
  unique_short_links (db (snd second)).
Proof.
  intros first second.
  apply (short_link_unique_in_reachable_states (db (snd second))).
  apply (reach_step (db (snd first))); [|apply step_linkControllerCreate].
  apply (reach_step (user_insert Sample.bob (user_insert Sample.ana empty_db)));
    [|apply step_linkControllerCreate].
  apply (reach_step (user_insert Sample.ana empty_db));
    [|apply step_user_insert].
  apply (reach_step empty_db); [apply reach_empty | apply step_user_insert].
Defined.

(* ================================================================== *)
(** * The lookup resolver *)

Module ResolverFacts.
Import Regex LinksControllerGet.

(** A match consumes at least [minlen r] characters. *)
Lemma rmatch_minlen (r : regex) :
  forall s rest,
    In rest (rmatch r s) ->
    (minlen r + String.length rest <= String.length s)%nat.
Proof.
  induction r as [|c|lo hi|r1 IH1 r2 IH2|r1 IH1 r2 IH2|r1 IH1|n r1 IH1];
    intros s rest Hin; simpl in Hin |- *.
  - destruct Hin as [<-|[]]. lia.
  - destruct s as [|d s]; [destruct Hin|].
    destruct (Ascii.eqb c d); [|destruct Hin].
    destruct Hin as [<-|[]]. simpl. lia.
  - destruct s as [|d s]; [destruct Hin|].
    destruct (in_range lo hi d); [|destruct Hin].
    destruct Hin as [<-|[]]. simpl. lia.
  - apply in_flat_map in Hin. destruct Hin as (mid & Hmid & Hrest).
    apply IH1 in Hmid. apply IH2 in Hrest. lia.
  - apply in_app_iff in Hin. destruct Hin as [H|H].
    + apply IH1 in H. lia.
    + apply IH2 in H. lia.
  - apply in_app_iff in Hin. destruct Hin as [H|[<-|[]]].
    + apply IH1 in H. lia.
    + lia.
  - revert s Hin. induction n as [|n IHn]; intros s Hin.
    + destruct Hin as [<-|[]]. simpl. lia.
    + apply in_flat_map in Hin. destruct Hin as (mid & Hmid & Hrest).
      apply IH1 in Hmid. apply IHn in Hrest. simpl. lia.
Qed.

(** A string shorter than the shortest prefix is left as it is. *)
Lemma replace_prefix_short (s : string) :
  (String.length s < 22)%nat -> replace_prefix regex_domain s = s.
Proof.
  intros Hlen. unfold replace_prefix.
  destruct (rmatch regex_domain s) as [|rest rs] eqn:E; [reflexivity|].
  assert (Hin : In rest (rmatch regex_domain s)) by (rewrite E; now left).
  apply rmatch_minlen in Hin.
  change (minlen regex_domain) with 22%nat in Hin. lia.
Qed.

Lemma replace_prefix_https (s : string) :
  replace_prefix regex_domain ("https://linkcurter.com/" ++ s) = s.
Proof. reflexivity. Qed.

Lemma replace_prefix_http (s : string) :
  replace_prefix regex_domain ("http://linkcurter.com/" ++ s) = s.
Proof. reflexivity. Qed.

Lemma linksControllerOriginalLinkGet_run (param : string) (w : World) :
  linksControllerOriginalLinkGet param w =
  let s := replace_prefix regex_domain param in
  (match find (link_matches (ByShortLink s)) (links (db w)) with
   | Some l => mkResponse 200 true (BOriginal (original_link l))
   | None => mkResponse 404 false (BError "Short link not found")
   end,
   logged w [EvLinksFindOne (ByShortLink s)]).
Proof.
  unfold linksControllerOriginalLinkGet, bind, LinksModel_findOne, emit,
    get_db, ret, logged. cbn.
  destruct (find _ (links (db w))); reflexivity.
Qed.

End ResolverFacts.

(** C7: for a short code [s] (four characters), the resolver gives the
    same result for [s], for [s] behind the https form of the domain and
    for [s] behind the http form: the first link, in table order, whose
    short link is exactly [s], answered 200 with its original URL, or a
    404 when there is none. *)
Theorem lookup_ignores_domain_prefix (s : string) (w : World) :
  String.length s = 4%nat ->
  let plain := LinksControllerGet.linksControllerOriginalLinkGet s w in
  LinksControllerGet.linksControllerOriginalLinkGet
    ("https://linkcurter.com/" ++ s) w = plain /\
  LinksControllerGet.linksControllerOriginalLinkGet
    ("http://linkcurter.com/" ++ s) w = plain /\
  plain =
    (match find (fun l => String.eqb (short_link l) s) (links (db w)) with
     | Some l => mkResponse 200 true (BOriginal (original_link l))
     | None => mkResponse 404 false (BError "Short link not found")
     end,
     logged w [EvLinksFindOne (ByShortLink s)]).
Proof.
  intros Hlen plain. unfold plain.
  rewrite !ResolverFacts.linksControllerOriginalLinkGet_run. cbv zeta.
  rewrite ResolverFacts.replace_prefix_https, ResolverFacts.replace_prefix_http.
  rewrite ResolverFacts.replace_prefix_short by lia.
  repeat split.
Qed.

(** C7, at a concrete input: the code of Ana's link. *)
Lemma lookup_ignores_domain_prefix_witness :
  String.length "aaaa" = 4%nat /\
  LinksControllerGet.linksControllerOriginalLinkGet
    "https://linkcurter.com/aaaa" Sample.busy =
  LinksControllerGet.linksControllerOriginalLinkGet "aaaa" Sample.busy /\
  fst (LinksControllerGet.linksControllerOriginalLinkGet "aaaa" Sample.busy) =
  mkResponse 200 true (BOriginal "https://example.com/other").
Proof.
  split; [reflexivity|].
  destruct (lookup_ignores_domain_prefix "aaaa" Sample.busy eq_refl)
    as (Hhttps & _ & Hplain).
  split; [exact Hhttps|].
  cbv zeta in Hplain. now rewrite Hplain.
Defined.

(** The match is case-sensitive: [AAAA] is not Ana's [aaaa]. *)
Example lookup_is_case_sensitive :
  fst (LinksControllerGet.linksControllerOriginalLinkGet "AAAA" Sample.busy) =
  mkResponse 404 false (BError "Short link not found").
Proof. reflexivity. Qed.

(* ================================================================== *)
(** * Recording a visit *)




(** A well-formed address is stored as it came. *)
Example visit_with_valid_ip_keeps_it :
  let req := LinkVisitedControllerPost.mkVisitBody
               None None (Some "192.168.1.10") None None (Some 2) (Some 1) in
  fst (LinkVisitedControllerPost.linkVisitedControllerCreate req Sample.busy) =
  mkResponse 201 true
    (BVisit (mkVisit 1 None None (Some "192.168.1.10") None None 2 1)
            "New visited link created").
Proof. reflexivity. Qed.

(* ================================================================== *)
(** * The access guard *)

Section GuardFacts.

Variable jwt_verify : string -> string + string.

(** For a required role that is not empty the guard follows the rule of
    the specification: it lets the request through exactly when the rule
    permits the role of the authenticated user. *)
Lemma protectRoute_nonempty_role
    (required : string) (authorization : option string) (d : DB) :
  required <> "" ->
  protectRoute jwt_verify required authorization d = Next <->
  spec_permits required (authenticated_role jwt_verify authorization d) = true.
Proof.
  intros Hrole. apply String.eqb_neq in Hrole.
  unfold protectRoute, authenticated_role, spec_permits, unauthorized.
  rewrite Hrole. cbn [orb].
  destruct authorization as [header|].
  - destruct (JsString.truthy header).
    + destruct (jwt_verify _) as [claim|message].
      * destruct (find _ (users d)) as [user|]; cbn [option_map].
        -- unfold role_of.
           destruct (String.eqb required "user"),
             (String.eqb required "admin"),
             (String.eqb (role user) "user"),
             (String.eqb (role user) "admin");
             cbn; split; intros H; try reflexivity; discriminate.
        -- rewrite !andb_false_r. split; discriminate.
      * rewrite !andb_false_r. split; discriminate.
    + rewrite !andb_false_r. split; discriminate.
  - rewrite !andb_false_r. split; discriminate.
Qed.

(** An admin passes a guard that requires [user]. *)
Lemma protectRoute_admin_passes_user
    (header claim : string) (user : User) (d : DB) :
  JsString.truthy header = true ->
  jwt_verify (JsString.substring_from 7 header) = inl claim ->
  find (fun u => String.eqb (email u) claim) (users d) = Some user ->
  role user = "admin" ->
  protectRoute jwt_verify "user" (Some header) d = Next.
Proof.
  intros Ht Hv Hf Hr. unfold protectRoute, role_of.
  now rewrite Ht, Hv, Hf, Hr.
Qed.

(** A user is rejected by a guard that requires [admin]. *)
Lemma protectRoute_user_fails_admin
    (header claim : string) (user : User) (d : DB) :
  JsString.truthy header = true ->
  jwt_verify (JsString.substring_from 7 header) = inl claim ->
  find (fun u => String.eqb (email u) claim) (users d) = Some user ->
  role user = "user" ->
  protectRoute jwt_verify "admin" (Some header) d = unauthorized.
Proof.
  intros Ht Hv Hf Hr. unfold protectRoute, role_of.
  now rewrite Ht, Hv, Hf, Hr.
Qed.

(** Without a credential only the empty role passes. *)
Lemma protectRoute_no_credential (role : string) (d : DB) :
  protectRoute jwt_verify role None d =
  if String.eqb role "" then Next else unauthorized.
Proof. reflexivity. Qed.

End GuardFacts.

(** C8: with an empty required role, a request that carries a valid
    credential of an existing user is answered 401 "Unauthorized user",
    where the rule permits it; the same guard lets a request without any
    credential through. *)
Theorem protectRoute_empty_role_rejects_credential
    (jwt_verify : string -> string + string)
    (header claim : string) (user : User) (d : DB) :
  JsString.truthy header = true ->
  jwt_verify (JsString.substring_from 7 header) = inl claim ->
  find (fun u => String.eqb (email u) claim) (users d) = Some user ->
  spec_permits "" (authenticated_role jwt_verify (Some header) d) = true /\
  protectRoute jwt_verify "" (Some header) d =
    Reply (mkResponse 401 false (BError "Unauthorized user")) /\
  protectRoute jwt_verify "" None d = Next.
Proof.
  intros Ht Hv Hf. split; [reflexivity|]. split; [|reflexivity].
  unfold protectRoute. now rewrite Ht, Hv, Hf.
Qed.

(** C8, at a concrete input: Ana's token on a route that requires no
    role. *)
Lemma protectRoute_empty_role_rejects_credential_witness :
  JsString.truthy "Bearer token-of-ana" = true /\
  Sample.jwt_verify (JsString.substring_from 7 "Bearer token-of-ana") =
    inl "ana@example.com" /\
  find (fun u => String.eqb (email u) "ana@example.com")
       (users Sample.two_users) = Some Sample.ana /\
  protectRoute Sample.jwt_verify "" (Some "Bearer token-of-ana")
    Sample.two_users =
    Reply (mkResponse 401 false (BError "Unauthorized user")).
Proof.
  split; [reflexivity|]. split; [reflexivity|]. split; [reflexivity|].
  apply (protectRoute_empty_role_rejects_credential Sample.jwt_verify
           "Bearer token-of-ana" "ana@example.com" Sample.ana
           Sample.two_users); reflexivity.
Defined.

(** C9, as the code has it: a credential that verifies but whose email
    names no user is answered with the error "User not found" and status
    400, whatever role the route requires. *)
Theorem protectRoute_unknown_user_is_400
    (jwt_verify : string -> string + string)
    (role header claim : string) (d : DB) :
  JsString.truthy header = true ->
  jwt_verify (JsString.substring_from 7 header) = inl claim ->
  find (fun u => String.eqb (email u) claim) (users d) = None ->
  protectRoute jwt_verify role (Some header) d =
    Reply (mkResponse 400 false (BError "User not found")).
Proof.
  intros Ht Hv Hf. unfold protectRoute. now rewrite Ht, Hv, Hf.
Qed.

(** C9, at a concrete input. *)
Lemma protectRoute_unknown_user_is_400_witness :
  JsString.truthy "Bearer token-of-nobody" = true /\
  Sample.jwt_verify (JsString.substring_from 7 "Bearer token-of-nobody") =
    inl "nobody@example.com" /\
  find (fun u => String.eqb (email u) "nobody@example.com")
       (users Sample.two_users) = None /\
  protectRoute Sample.jwt_verify "user" (Some "Bearer token-of-nobody")
    Sample.two_users =
    Reply (mkResponse 400 false (BError "User not found")).
Proof.
  split; [reflexivity|]. split; [reflexivity|]. split; [reflexivity|].
  apply (protectRoute_unknown_user_is_400 Sample.jwt_verify "user"
           "Bearer token-of-nobody" "nobody@example.com" Sample.two_users);
    reflexivity.
Defined.

(** C9 as stated fails: the status sent with "User not found" is not
    401. *)
Lemma unknown_user_is_not_401 :
  exists r,
    protectRoute Sample.jwt_verify "user" (Some "Bearer token-of-nobody")
      Sample.two_users = Reply r /\
    body r = BError "User not found" /\
    status r <> 401.
Proof.
  eexists. split; [reflexivity|]. split; [reflexivity | discriminate].
Qed.

(* ================================================================== *)
(** * The routes of the links *)

Module RouteFacts.
Import LinksRouteGet.

(** The guarded sibling: the same kind of query below [/links/all] asks
    for a credential. *)
Lemma params_all_is_guarded
    (jwt_verify : string -> string + string) (d : DB) :
  dispatch jwt_verify linksRouteGet
    ["api"; "v1"; "links"; "all"; "short_link"; "aaaa"] None d =
  Rejected (mkResponse 401 false (BError "Unauthorized user")).
Proof. reflexivity. Qed.

(** The lookup by identifier asks for a credential too. *)
Lemma get_id_is_guarded
    (jwt_verify : string -> string + string) (d : DB) :
  dispatch jwt_verify linksRouteGet ["api"; "v1"; "links"; "7"] None d =
  Rejected (mkResponse 401 false (BError "Unauthorized user")).
Proof. reflexivity. Qed.

End RouteFacts.

(** C4: a GET of [/api/v1/links/:attribute/:data] reaches
    [linksControllerGetParams], whose first statement is the query,
    whatever the [authorization] header is, and also without one: the
    route is mounted without [protectRoute], so the guard is not
    consulted. (The attribute is any segment that is not taken by the
    routes [/links/all/:id] and [/links/original/:shortLink] declared
    before.) *)
Theorem links_by_attribute_is_not_guarded
    (jwt_verify : string -> string + string)
    (attribute data : string) (authorization : option string) (d : DB) :
  JsString.truthy attribute = true ->
  JsString.truthy data = true ->
  LinksRouteGet.lowercase attribute <> "all" ->
  LinksRouteGet.lowercase attribute <> "original" ->
  LinksRouteGet.dispatch jwt_verify LinksRouteGet.linksRouteGet
    ["api"; "v1"; "links"; attribute; data] authorization d =
  LinksRouteGet.Invoked LinksRouteGet.linksControllerGetParams
    [("attribute", attribute); ("data", data)].
Proof.
  intros Ha Hd Hall Horig.
  assert (Eall : String.eqb "all" (LinksRouteGet.lowercase attribute) = false).
  { apply String.eqb_neq. congruence. }
  assert (Eorig : String.eqb "original" (LinksRouteGet.lowercase attribute)
                  = false).
  { apply String.eqb_neq. congruence. }
  unfold LinksRouteGet.linksRouteGet, LinksRouteGet.api.
  cbn -[LinksRouteGet.lowercase String.eqb JsString.truthy].
  change (LinksRouteGet.lowercase "api") with "api".
  change (LinksRouteGet.lowercase "v1") with "v1".
  change (LinksRouteGet.lowercase "links") with "links".
  change (LinksRouteGet.lowercase "all") with "all".
  change (LinksRouteGet.lowercase "original") with "original".
  change (LinksRouteGet.lowercase "date") with "date".
  change (LinksRouteGet.lowercase "count") with "count".
  rewrite Eall, Eorig, Ha, Hd.
  reflexivity.
Qed.

(** C4, at a concrete input: no header at all. *)
Lemma links_by_attribute_is_not_guarded_witness :
  JsString.truthy "short_link" = true /\
  JsString.truthy "aaaa" = true /\
  LinksRouteGet.lowercase "short_link" <> "all" /\
  LinksRouteGet.lowercase "short_link" <> "original" /\
  LinksRouteGet.dispatch Sample.jwt_verify LinksRouteGet.linksRouteGet
    ["api"; "v1"; "links"; "short_link"; "aaaa"] None Sample.one_link =
  LinksRouteGet.Invoked LinksRouteGet.linksControllerGetParams
    [("attribute", "short_link"); ("data", "aaaa")].
Proof.
  split; [reflexivity|]. split; [reflexivity|].
  split; [discriminate|]. split; [discriminate|].
  apply (links_by_attribute_is_not_guarded Sample.jwt_verify
           "short_link" "aaaa" None Sample.one_link);
    solve [reflexivity | discriminate].
Defined.

(* ================================================================== *)
(** * Dates *)

Module ChangeFormatDateFacts.
Import ChangeFormatDate.

Lemma split_dash_nonempty (s : string) : split_dash s <> [].
Proof.
  destruct s as [|c s]; simpl; [discriminate|].
  destruct (Ascii.eqb c "-"); [discriminate|].
  destruct (split_dash s); discriminate.
Qed.

(** A text without a dash is one piece. *)
Lemma split_dash_dashless (s : string) :
  dashless s -> split_dash s = [s].
Proof.
  unfold dashless. induction s as [|c s IH]; [reflexivity|].
  intros H. cbn [JsString.mem] in H.
  apply orb_false_elim in H. destruct H as [Hc Hs].
  cbn [split_dash]. rewrite Ascii.eqb_sym, Hc, (IH Hs). reflexivity.
Qed.

(** A dashless text, a dash, and more: the text is the first piece. *)
Lemma split_dash_cons (s rest : string) :
  dashless s -> split_dash (s ++ "-" ++ rest) = s :: split_dash rest.
Proof.
  unfold dashless. change ("-" ++ rest) with (String "-" rest).
  induction s as [|c s IH]; [reflexivity|].
  intros H. cbn [JsString.mem] in H.
  apply orb_false_elim in H. destruct H as [Hc Hs].
  cbn [split_dash String.append].
  rewrite Ascii.eqb_sym, Hc, (IH Hs). reflexivity.
Qed.

Lemma split_dash_three (a b c : string) :
  dashless a -> dashless b -> dashless c ->
  split_dash (a ++ "-" ++ b ++ "-" ++ c) = [a; b; c].
Proof.
  intros Ha Hb Hc.
  now rewrite (split_dash_cons a _ Ha), (split_dash_cons b _ Hb),
    (split_dash_dashless c Hc).
Qed.

End ChangeFormatDateFacts.

(** X1: on a date of three dash-free parts [day-month-year] the function
    returns [year-month-day], and applying it to its own result gives the
    date back. *)
Theorem changeFormatDate_swaps_and_undoes (day month year : string) :
  ChangeFormatDate.dashless day ->
  ChangeFormatDate.dashless month ->
  ChangeFormatDate.dashless year ->
  ChangeFormatDate.changeFormatDate (day ++ "-" ++ month ++ "-" ++ year) =
    year ++ "-" ++ month ++ "-" ++ day /\
  ChangeFormatDate.changeFormatDate
    (ChangeFormatDate.changeFormatDate (day ++ "-" ++ month ++ "-" ++ year)) =
    day ++ "-" ++ month ++ "-" ++ year.
Proof.
  intros Hd Hm Hy.
  assert (E : forall a b c,
             ChangeFormatDate.dashless a -> ChangeFormatDate.dashless b ->
             ChangeFormatDate.dashless c ->
             ChangeFormatDate.changeFormatDate (a ++ "-" ++ b ++ "-" ++ c) =
             c ++ "-" ++ b ++ "-" ++ a).
  { intros a b c Ha Hb Hc. unfold ChangeFormatDate.changeFormatDate.
    now rewrite (ChangeFormatDateFacts.split_dash_three a b c Ha Hb Hc). }
  split.
  - now apply E.
  - rewrite (E day month year Hd Hm Hy). now apply E.
Qed.

Lemma changeFormatDate_swaps_and_undoes_witness :
  ChangeFormatDate.dashless "24" /\
  ChangeFormatDate.dashless "12" /\
  ChangeFormatDate.dashless "2025" /\
  ChangeFormatDate.changeFormatDate "24-12-2025" = "2025-12-24" /\
  ChangeFormatDate.changeFormatDate
    (ChangeFormatDate.changeFormatDate "24-12-2025") = "24-12-2025".
Proof.
  split; [reflexivity|]. split; [reflexivity|]. split; [reflexivity|].
  apply (changeFormatDate_swaps_and_undoes "24" "12" "2025"); reflexivity.
Defined.

(** X2: the parts are not checked. A text without any dash comes back
    behind two [undefined]; with a single dash, behind one; and whatever
    follows a third dash is dropped. *)
Theorem changeFormatDate_malformed (a b c rest : string) :
  ChangeFormatDate.dashless a ->
  ChangeFormatDate.dashless b ->
  ChangeFormatDate.dashless c ->
  ChangeFormatDate.changeFormatDate a = "undefined-undefined-" ++ a /\
  ChangeFormatDate.changeFormatDate (a ++ "-" ++ b) =
    "undefined-" ++ b ++ "-" ++ a /\
  ChangeFormatDate.changeFormatDate
    (a ++ "-" ++ b ++ "-" ++ c ++ "-" ++ rest) =
    c ++ "-" ++ b ++ "-" ++ a.
Proof.
  intros Ha Hb Hc. unfold ChangeFormatDate.changeFormatDate.
  repeat split.
  - now rewrite (ChangeFormatDateFacts.split_dash_dashless a Ha).
  - now rewrite (ChangeFormatDateFacts.split_dash_cons a _ Ha),
      (ChangeFormatDateFacts.split_dash_dashless b Hb).
  - now rewrite (ChangeFormatDateFacts.split_dash_cons a _ Ha),
      (ChangeFormatDateFacts.split_dash_cons b _ Hb),
      (ChangeFormatDateFacts.split_dash_cons c _ Hc).
Qed.

Lemma changeFormatDate_malformed_witness :
  ChangeFormatDate.dashless "24" /\
  ChangeFormatDate.dashless "12" /\
  ChangeFormatDate.dashless "2025" /\
  ChangeFormatDate.changeFormatDate "24" = "undefined-undefined-24" /\
  ChangeFormatDate.changeFormatDate "24-12" = "undefined-12-24" /\
  ChangeFormatDate.changeFormatDate "24-12-2025-T10:00" = "2025-12-24".
Proof.
  split; [reflexivity|]. split; [reflexivity|]. split; [reflexivity|].
  apply (changeFormatDate_malformed "24" "12" "2025" "T10:00"); reflexivity.
Defined.

(* ================================================================== *)
(** * The addresses [isValidIp] accepts *)

Module LangFacts.
Import Regex.

Lemma string_app_assoc (a b c : string) : (a ++ b) ++ c = a ++ (b ++ c).
Proof. induction a as [|x a IH]; simpl; congruence. Qed.

Lemma string_app_nil (a : string) : a ++ "" = a.
Proof. induction a as [|x a IH]; simpl; congruence. Qed.

Lemma in_range_seq (lo hi d : ascii) :
  in_range lo hi d = true <->
  In d (map ascii_of_nat
          (seq (nat_of_ascii lo) (S (nat_of_ascii hi) - nat_of_ascii lo))).
Proof.
  unfold in_range. rewrite andb_true_iff, !Nat.leb_le, in_map_iff. split.
  - intros [Hlo Hhi]. exists (nat_of_ascii d). split.
    + apply ascii_nat_embedding.
    + apply in_seq. lia.
  - intros (k & <- & Hk). apply in_seq in Hk.
    pose proof (nat_ascii_bounded hi) as Hb.
    rewrite nat_ascii_embedding by lia. lia.
Qed.

Lemma lang_range (lo hi : ascii) (p : string) :
  In p (lang (Range lo hi)) <->
  exists d, in_range lo hi d = true /\ p = String d "".
Proof.
  cbn [lang]. rewrite in_map_iff. split.
  - intros (k & <- & Hk). exists (ascii_of_nat k). split; [|reflexivity].
    apply in_range_seq. apply in_map. exact Hk.
  - intros (d & Hd & ->). apply in_range_seq in Hd.
    apply in_map_iff in Hd. destruct Hd as (k & <- & Hk).
    exists k. split; [reflexivity | exact Hk].
Qed.

Lemma in_products (xs ys : list string) (p : string) :
  In p (flat_map (fun a => map (String.append a) ys) xs) <->
  exists a b, In a xs /\ In b ys /\ p = a ++ b.
Proof.
  rewrite in_flat_map. split.
  - intros (a & Ha & Hp). apply in_map_iff in Hp.
    destruct Hp as (b & <- & Hb). eauto.
  - intros (a & b & Ha & Hb & ->). exists a. split; [exact Ha|].
    apply in_map. exact Hb.
Qed.

Lemma lang_seq (r1 r2 : regex) (p : string) :
  In p (lang (Seq r1 r2)) <->
  exists a b, In a (lang r1) /\ In b (lang r2) /\ p = a ++ b.
Proof. cbn [lang]. apply in_products. Qed.

Lemma lang_rep_S (n : nat) (r : regex) (p : string) :
  In p (lang (Rep (S n) r)) <->
  exists a b, In a (lang r) /\ In b (lang (Rep n r)) /\ p = a ++ b.
Proof. cbn [lang]. apply in_products. Qed.

Lemma lang_rep_O (r : regex) (p : string) :
  In p (lang (Rep 0 r)) <-> p = "".
Proof. cbn [lang In]. intuition. Qed.

Lemma rmatch_rep_S (n : nat) (r : regex) (s : string) :
  rmatch (Rep (S n) r) s = flat_map (rmatch (Rep n r)) (rmatch r s).
Proof. reflexivity. Qed.

(** What a match removes from the front is a text of the language. *)
Lemma rmatch_in_lang (r : regex) :
  forall s rest,
    In rest (rmatch r s) -> exists pre, In pre (lang r) /\ s = pre ++ rest.
Proof.
  induction r as [|c|lo hi|r1 IH1 r2 IH2|r1 IH1 r2 IH2|r1 IH1|n r1 IH1];
    intros s rest Hin.
  - destruct Hin as [<-|[]]. exists "". split; [now left | reflexivity].
  - cbn [rmatch] in Hin. destruct s as [|d s]; [destruct Hin|].
    destruct (Ascii.eqb_spec c d) as [<-|]; [|destruct Hin].
    destruct Hin as [<-|[]]. exists (String c ""). split; [now left | reflexivity].
  - cbn [rmatch] in Hin. destruct s as [|d s]; [destruct Hin|].
    destruct (in_range lo hi d) eqn:Hd; [|destruct Hin].
    destruct Hin as [<-|[]]. exists (String d ""). split; [|reflexivity].
    apply lang_range. eauto.
  - cbn [rmatch] in Hin. apply in_flat_map in Hin.
    destruct Hin as (mid & Hmid & Hrest).
    apply IH1 in Hmid. destruct Hmid as (a & Ha & ->).
    apply IH2 in Hrest. destruct Hrest as (b & Hb & ->).
    exists (a ++ b). split; [|now rewrite string_app_assoc].
    apply lang_seq. eauto.
  - cbn [rmatch] in Hin. apply in_app_iff in Hin. destruct Hin as [H|H].
    + apply IH1 in H. destruct H as (a & Ha & ->).
      exists a. split; [|reflexivity]. cbn [lang]. apply in_app_iff. now left.
    + apply IH2 in H. destruct H as (a & Ha & ->).
      exists a. split; [|reflexivity]. cbn [lang]. apply in_app_iff. now right.
  - cbn [rmatch] in Hin. apply in_app_iff in Hin. destruct Hin as [H|[<-|[]]].
    + apply IH1 in H. destruct H as (a & Ha & ->).
      exists a. split; [|reflexivity]. cbn [lang]. apply in_app_iff. now left.
    + exists "". split; [|reflexivity]. cbn [lang]. apply in_app_iff.
      right. now left.
  - revert s Hin. induction n as [|n IHn]; intros s Hin.
    + destruct Hin as [<-|[]]. exists "". split; [now left | reflexivity].
    + rewrite rmatch_rep_S in Hin. apply in_flat_map in Hin.
      destruct Hin as (mid & Hmid & Hrest).
      apply IH1 in Hmid. destruct Hmid as (a & Ha & ->).
      apply IHn in Hrest. destruct Hrest as (b & Hb & ->).
      exists (a ++ b). split; [|now rewrite string_app_assoc].
      apply lang_rep_S. eauto.
Qed.

(** A text of the language, followed by anything, is matched and the rest
    is left. *)
Lemma lang_in_rmatch (r : regex) :
  forall pre rest, In pre (lang r) -> In rest (rmatch r (pre ++ rest)).
Proof.
  induction r as [|c|lo hi|r1 IH1 r2 IH2|r1 IH1 r2 IH2|r1 IH1|n r1 IH1];
    intros pre rest Hin.
  - destruct Hin as [<-|[]]. now left.
  - destruct Hin as [<-|[]]. cbn. rewrite Ascii.eqb_refl. now left.
  - apply lang_range in Hin. destruct Hin as (d & Hd & ->).
    cbn. rewrite Hd. now left.
  - apply lang_seq in Hin. destruct Hin as (a & b & Ha & Hb & ->).
    cbn [rmatch]. apply in_flat_map. exists (b ++ rest). split.
    + rewrite string_app_assoc. now apply IH1.
    + now apply IH2.
  - cbn [lang] in Hin. cbn [rmatch]. apply in_app_iff.
    apply in_app_iff in Hin. destruct Hin as [H|H]; [left | right]; auto.
  - cbn [lang] in Hin. cbn [rmatch]. apply in_app_iff.
    apply in_app_iff in Hin. destruct Hin as [H|[<-|[]]].
    + left. auto.
    + right. now left.
  - revert pre Hin. induction n as [|n IHn]; intros pre Hin.
    + apply lang_rep_O in Hin. subst pre. now left.
    + apply lang_rep_S in Hin. destruct Hin as (a & b & Ha & Hb & ->).
      rewrite rmatch_rep_S. apply in_flat_map. exists (b ++ rest). split.
      * rewrite string_app_assoc. now apply IH1.
      * now apply IHn.
Qed.

(** The anchored test is membership in the language. *)
Lemma test_anchored_lang (r : regex) (s : string) :
  test_anchored r s = true <-> In s (lang r).
Proof.
  unfold test_anchored. rewrite existsb_exists. split.
  - intros (rest & Hin & Hempty). destruct rest; [|discriminate].
    apply rmatch_in_lang in Hin. destruct Hin as (pre & Hpre & ->).
    now rewrite string_app_nil.
  - intros Hin. exists "". split; [|reflexivity].
    rewrite <- (string_app_nil s). now apply lang_in_rmatch.
Qed.

End LangFacts.

Module IpFacts.
Import Regex IpVerification LangFacts.

Lemma in_decimals (p : string) :
  In p decimals <-> exists n, (n <= 255)%nat /\ p = decimal n.
Proof.
  unfold decimals. rewrite in_map_iff. split.
  - intros (n & <- & Hn). apply in_seq in Hn. exists n. split; [lia | reflexivity].
  - intros (n & Hn & ->). exists n. split; [reflexivity|]. apply in_seq. lia.
Qed.

Lemma included (xs ys : list string) :
  forallb (fun x => existsb (String.eqb x) ys) xs = true ->
  forall x, In x xs -> In x ys.
Proof.
  intros H x Hx. rewrite forallb_forall in H. specialize (H x Hx).
  apply existsb_exists in H. destruct H as (y & Hy & E).
  apply String.eqb_eq in E. now subst.
Qed.

(** The octet of the expression matches the numerals of 0 to 255 and
    nothing else. *)
Lemma lang_octet (p : string) :
  In p (lang octet) <-> exists n, (n <= 255)%nat /\ p = decimal n.
Proof.
  rewrite <- in_decimals. split; apply included; vm_compute; reflexivity.
Qed.

Lemma lang_dot_octet (p : string) :
  In p (lang (Seq (Lit ".") octet)) <->
  exists n, (n <= 255)%nat /\ p = String "." (decimal n).
Proof.
  rewrite lang_seq. split.
  - intros (a & b & Ha & Hb & ->). destruct Ha as [<-|[]].
    apply lang_octet in Hb. destruct Hb as (n & Hn & ->). eauto.
  - intros (n & Hn & ->). exists ".", (decimal n).
    split; [now left|]. split; [|reflexivity]. apply lang_octet. eauto.
Qed.

Lemma all_chars_append (f : ascii -> bool) (a b : string) :
  all_chars f (a ++ b) = all_chars f a && all_chars f b.
Proof.
  induction a as [|c a IH]; simpl; [reflexivity|].
  now rewrite IH, andb_assoc.
Qed.

Lemma all_chars_mem (f : ascii -> bool) (s : string) (c : ascii) :
  all_chars f s = true -> JsString.mem c s = true -> f c = true.
Proof.
  induction s as [|d s IH]; simpl; [discriminate|].
  rewrite andb_true_iff, orb_true_iff. intros [Hd Hs] [E|Hm].
  - apply Ascii.eqb_eq in E. now subst.
  - auto.
Qed.

(** A numeral of 0 to 255 is one to three digits. *)
Lemma decimal_shape (n : nat) :
  (n <= 255)%nat ->
  all_chars digit_or_dot (decimal n) = true /\
  (1 <= String.length (decimal n) <= 3)%nat.
Proof.
  intros Hn.
  assert (H : forallb (fun p => all_chars digit_or_dot p &&
                                (1 <=? String.length p)%nat &&
                                (String.length p <=? 3)%nat) decimals = true)
    by (vm_compute; reflexivity).
  rewrite forallb_forall in H.
  specialize (H (decimal n)). 
  rewrite !andb_true_iff, !Nat.leb_le in H.
  assert (Hin : In (decimal n) decimals) by (apply in_decimals; eauto).
  specialize (H Hin). tauto.
Qed.

(** An accepted text is a dotted quad. *)
Lemma accepted_is_quad (s : string) :
  isValidIp (Some s) = true ->
  exists a b c d : nat,
    (a <= 255 /\ b <= 255 /\ c <= 255 /\ d <= 255)%nat /\
    s = dotted_quad a b c d.
Proof.
  unfold isValidIp, to_text, regex_ip, dotted_quad.
  rewrite test_anchored_lang, lang_seq.
  intros (p0 & rest & H0 & Hrest & ->).
  apply lang_octet in H0. destruct H0 as (a & Ha & ->).
  apply lang_rep_S in Hrest.
  destruct Hrest as (p1 & rest1 & H1 & Hrest1 & ->).
  apply lang_rep_S in Hrest1.
  destruct Hrest1 as (p2 & rest2 & H2 & Hrest2 & ->).
  apply lang_rep_S in Hrest2.
  destruct Hrest2 as (p3 & rest3 & H3 & Hrest3 & ->).
  apply lang_rep_O in Hrest3. subst rest3.
  apply lang_dot_octet in H1, H2, H3.
  destruct H1 as (b & Hb & ->). destruct H2 as (c & Hc & ->).
  destruct H3 as (d & Hd & ->).
  exists a, b, c, d. split; [tauto|].
  cbn [String.append]. now rewrite string_app_nil.
Qed.

(** A dotted quad is accepted. *)
Lemma quad_is_accepted (a b c d : nat) :
  (a <= 255 /\ b <= 255 /\ c <= 255 /\ d <= 255)%nat ->
  isValidIp (Some (dotted_quad a b c d)) = true.
Proof.
  intros (Ha & Hb & Hc & Hd).
  unfold isValidIp, to_text, regex_ip, dotted_quad.
  rewrite test_anchored_lang, lang_seq.
  exists (decimal a),
    (String "." (decimal b) ++ String "." (decimal c) ++
     String "." (decimal d) ++ "").
  split; [apply lang_octet; eauto|]. split.
  - apply lang_rep_S.
    exists (String "." (decimal b)),
      (String "." (decimal c) ++ String "." (decimal d) ++ "").
    split; [apply lang_dot_octet; eauto|]. split; [|reflexivity].
    apply lang_rep_S.
    exists (String "." (decimal c)), (String "." (decimal d) ++ "").
    split; [apply lang_dot_octet; eauto|]. split; [|reflexivity].
    apply lang_rep_S.
    exists (String "." (decimal d)), "".
    split; [apply lang_dot_octet; eauto|]. split; [|reflexivity].
    now apply lang_rep_O.
  - cbn [String.append]. now rewrite string_app_nil.
Qed.

(** A dotted quad is digits and dots. *)
Lemma quad_chars (a b c d : nat) :
  (a <= 255 /\ b <= 255 /\ c <= 255 /\ d <= 255)%nat ->
  all_chars digit_or_dot (dotted_quad a b c d) = true.
Proof.
  intros (Ha & Hb & Hc & Hd).
  destruct (decimal_shape a Ha) as [Ca _].
  destruct (decimal_shape b Hb) as [Cb _].
  destruct (decimal_shape c Hc) as [Cc _].
  destruct (decimal_shape d Hd) as [Cd _].
  unfold dotted_quad.
  rewrite !all_chars_append, Ca, Cb, Cc, Cd. reflexivity.
Qed.

(** An accepted text has at most 15 characters. *)
Lemma accepted_length (s : string) :
  isValidIp (Some s) = true -> (String.length s <= 15)%nat.
Proof.
  intros H. apply accepted_is_quad in H.
  destruct H as (a & b & c & d & (Ha & Hb & Hc & Hd) & ->).
  destruct (decimal_shape a Ha) as [_ La].
  destruct (decimal_shape b Hb) as [_ Lb].
  destruct (decimal_shape c Hc) as [_ Lc].
  destruct (decimal_shape d Hd) as [_ Ld].
  unfold dotted_quad. rewrite !length_append. cbn [String.length]. lia.
Qed.

(** A text with a character that is neither a digit nor a dot is
    refused. *)
Lemma other_char_refused (s : string) (c : ascii) :
  JsString.mem c s = true -> digit_or_dot c = false ->
  isValidIp (Some s) = false.
Proof.
  intros Hm Hc. destruct (isValidIp (Some s)) eqn:E; [|reflexivity].
  apply accepted_is_quad in E.
  destruct E as (a & b & c' & d & Hb & ->).
  pose proof (all_chars_mem _ _ c (quad_chars a b c' d Hb) Hm). congruence.
Qed.

End IpFacts.

(** X3: [isValidIp] accepts exactly the dotted quads [a.b.c.d] of four
    numbers from 0 to 255 written as plain decimal numerals (no sign, no
    leading zero, no space). *)
Theorem isValidIp_iff_dotted_quad (s : string) :
  IpVerification.isValidIp (Some s) = true <->
  exists a b c d : nat,
    (a <= 255 /\ b <= 255 /\ c <= 255 /\ d <= 255)%nat /\
    s = dotted_quad a b c d.
Proof.
  split.
  - apply IpFacts.accepted_is_quad.
  - intros (a & b & c & d & Hb & ->). now apply IpFacts.quad_is_accepted.
Qed.

(** X4: every text [isValidIp] accepts is made of digits and dots only and
    has 7 to 15 characters; so a text with a colon (an IPv6 address), a
    space or a letter is refused, and so is a missing value. *)
Theorem isValidIp_refuses_other_characters (s : string) :
  IpVerification.isValidIp (Some s) = true ->
  (forall c, JsString.mem c s = true -> digit_or_dot c = true) /\
  (7 <= String.length s <= 15)%nat /\
  IpVerification.isValidIp None = false.
Proof.
  intros H. apply IpFacts.accepted_is_quad in H.
  destruct H as (a & b & c & d & (Ha & Hb & Hc & Hd) & ->).
  destruct (IpFacts.decimal_shape a Ha) as [Ca La].
  destruct (IpFacts.decimal_shape b Hb) as [Cb Lb].
  destruct (IpFacts.decimal_shape c Hc) as [Cc Lc].
  destruct (IpFacts.decimal_shape d Hd) as [Cd Ld].
  unfold dotted_quad. split; [|split; [|reflexivity]].
  - intros ch. apply IpFacts.all_chars_mem.
    rewrite !IpFacts.all_chars_append, Ca, Cb, Cc, Cd. reflexivity.
  - rewrite !length_append. cbn [String.length]. lia.
Qed.

Lemma isValidIp_refuses_other_characters_witness :
  IpVerification.isValidIp (Some "192.168.1.10") = true /\
  (forall c, JsString.mem c "192.168.1.10" = true -> digit_or_dot c = true) /\
  (7 <= String.length "192.168.1.10" <= 15)%nat.
Proof.
  split; [reflexivity|].
  destruct (isValidIp_refuses_other_characters "192.168.1.10" eq_refl)
    as (Hc & Hl & _).
  split; [exact Hc | exact Hl].
Defined.

(* ================================================================== *)
(** * Recording a visit, in full *)

Module VisitFacts.
Import LinkVisitedControllerPost.

Lemma find_exists_user (u : Z) (d : DB) (r : User) :
  find (fun x => id_user x =? u) (users d) = Some r ->
  user_exists u d = true.
Proof. intros H. unfold user_exists. now rewrite existsb_find, H. Qed.

Lemma find_exists_link (i : Z) (d : DB) (l : Link) :
  find (link_matches (ByIdLinks i)) (links d) = Some l ->
  link_exists i d = true.
Proof.
  intros H. unfold link_exists. rewrite existsb_find.
  change (link_matches (ByIdLinks i)) with (fun l : Link => id_links l =? i) in H.
  now rewrite H.
Qed.

(** The address the controller passes to the insert always fits its
    column. *)
Lemma stored_ip_fits (v : option string) :
  fits 45 (if IpVerification.isValidIp v then v else None) = true.
Proof.
  destruct (IpVerification.isValidIp v) eqn:E; [|reflexivity].
  destruct v as [s|]; [|reflexivity].
  apply IpFacts.accepted_length in E. cbn [fits]. apply Nat.leb_le. lia.
Qed.

Lemma texts_fit_of_request (req : VisitBody) :
  visit_texts_fit (req_so req) (req_web_navigator req)
    (if IpVerification.isValidIp (req_ip req) then req_ip req else None)
    (req_country req) (req_city req) = metadata_fits req.
Proof.
  unfold visit_texts_fit, metadata_fits. rewrite stored_ip_fits.
  now rewrite andb_true_r.
Qed.

(** The whole behaviour of the controller: the checks in their order, the
    calls made before each answer, and the single insert, refused when a
    text does not fit its column. *)
Lemma linkVisitedControllerCreate_run (req : VisitBody) (w : World) :
  linkVisitedControllerCreate req w =
  match truthy_id (req_id_user req) with
  | None => (mkResponse 400 false (BError "id_user is required"), w)
  | Some u =>
    match find (fun x => id_user x =? u) (users (db w)) with
    | None => (mkResponse 400 false (BError "User does not exist"),
               logged w [EvUsersFindOne u])
    | Some _ =>
      match truthy_id (req_id_links req) with
      | None => (mkResponse 400 false (BError "id_links is required"),
                 logged w [EvUsersFindOne u])
      | Some i =>
        match find (link_matches (ByIdLinks i)) (links (db w)) with
        | None => (mkResponse 400 false (BError "Link does not exist"),
                   logged w [EvUsersFindOne u; EvLinksFindOne (ByIdLinks i)])
        | Some _ =>
            let v := visit_of req (db w) u i in
            let calls := [EvUsersFindOne u; EvLinksFindOne (ByIdLinks i);
                          EvLinksVisitedCreate (ip v) u i] in
            if metadata_fits req then
              (mkResponse 201 true (BVisit v "New visited link created"),
               mkWorld (with_new_visit (db w) v) (drawn w) (log w ++ calls))
            else
              (mkResponse 500 false (BRaw DataTooLong), logged w calls)
        end
      end
    end
  end.
Proof.
  unfold linkVisitedControllerCreate.
  destruct (truthy_id (req_id_user req)) as [u|]; [|reflexivity].
  unfold bind at 1. unfold UsersModel_findOne_id.
  unfold bind, emit, get_db, ret. cbn [db drawn log fst snd].
  destruct (find _ (users (db w))) as [r|] eqn:Fu; [|reflexivity].
  destruct (truthy_id (req_id_links req)) as [i|]; [|reflexivity].
  unfold LinksModel_findOne, bind, emit, get_db, ret.
  cbn [db drawn log fst snd].
  destruct (find (link_matches (ByIdLinks i)) (links (db w))) as [l|] eqn:Fl;
    [|unfold logged; cbn [db drawn log]; now rewrite <- app_assoc].
  unfold LinksVisitedModel_create, bind, emit, get_db, put_db, ret.
  cbn -[user_exists link_exists link_matches IpVerification.isValidIp
        visit_texts_fit].
  rewrite texts_fit_of_request.
  rewrite (find_exists_user u (db w) r Fu), (find_exists_link i (db w) l Fl).
  unfold visit_of, with_new_visit, logged.
  destruct (metadata_fits req);
    cbn -[IpVerification.isValidIp]; rewrite <- !app_assoc; reflexivity.
Qed.

End VisitFacts.

(** X5: for a request whose texts fit the columns declared for them,
    the visit controller answers 201 or 400 and nothing else: the insert
    is not refused, because the user and the link were looked up first.
    It changes the store only with a 201, and then by one visit, with the
    next key, appended to the visits; users and links stay as they
    are. *)
Theorem linkVisitedControllerCreate_outcomes
    (req : LinkVisitedControllerPost.VisitBody) (w : World) :
  metadata_fits req = true ->
  let run := LinkVisitedControllerPost.linkVisitedControllerCreate req w in
  (status (fst run) = 400 /\ db (snd run) = db w) \/
  (status (fst run) = 201 /\
   exists u i,
     fst run = mkResponse 201 true
                 (BVisit (visit_of req (db w) u i) "New visited link created") /\
     user_exists u (db w) = true /\ link_exists i (db w) = true /\
     users (db (snd run)) = users (db w) /\
     links (db (snd run)) = links (db w) /\
     visits (db (snd run)) =
       (visits (db w) ++ [visit_of req (db w) u i])%list /\
     next_id_links_visited (db (snd run)) = next_id_links_visited (db w) + 1).
Proof.
  intros Hfit. cbv zeta. rewrite VisitFacts.linkVisitedControllerCreate_run.
  destruct (LinkVisitedControllerPost.truthy_id _) as [u|]; [|now left].
  destruct (find _ (users (db w))) as [r|] eqn:Fu; [|now left].
  destruct (LinkVisitedControllerPost.truthy_id _) as [i|]; [|now left].
  destruct (find _ (links (db w))) as [l|] eqn:Fl; [|now left].
  cbv zeta. rewrite Hfit.
  right. split; [reflexivity|]. exists u, i.
  cbn [fst snd db users links visits next_id_links_visited with_new_visit].
  repeat split.
  - exact (VisitFacts.find_exists_user u (db w) r Fu).
  - exact (VisitFacts.find_exists_link i (db w) l Fl).
Qed.

Lemma linkVisitedControllerCreate_outcomes_witness :
  let req := LinkVisitedControllerPost.mkVisitBody
               (Some "Linux") None (Some "10.0.0.7") None None
               (Some 2) (Some 1) in
  let run := LinkVisitedControllerPost.linkVisitedControllerCreate
               req Sample.busy in
  metadata_fits req = true /\
  status (fst run) = 201 /\
  visits (db (snd run)) =
    [mkVisit 1 (Some "Linux") None (Some "10.0.0.7") None None 2 1].
Proof.
  intros req run. split; [reflexivity|].
  destruct (linkVisitedControllerCreate_outcomes req Sample.busy eq_refl)
    as [[H _] | [H _]].
  - discriminate H.
  - split; [exact H | reflexivity].
Defined.

(** X6: a well-formed address, a dotted quad of numbers up to 255, is
    stored exactly as it was sent (the other texts of the request fitting
    their columns). *)
Theorem visit_keeps_dotted_quad
    (req : LinkVisitedControllerPost.VisitBody) (w : World)
    (a b c d : nat) (uid lid : Z) :
  (a <= 255 /\ b <= 255 /\ c <= 255 /\ d <= 255)%nat ->
  LinkVisitedControllerPost.req_ip req = Some (dotted_quad a b c d) ->
  metadata_fits req = true ->
  LinkVisitedControllerPost.req_id_user req = Some uid -> uid <> 0 ->
  user_exists uid (db w) = true ->
  LinkVisitedControllerPost.req_id_links req = Some lid -> lid <> 0 ->
  link_exists lid (db w) = true ->
  exists v,
    fst (LinkVisitedControllerPost.linkVisitedControllerCreate req w) =
      mkResponse 201 true (BVisit v "New visited link created") /\
    ip v = Some (dotted_quad a b c d) /\
    In v (visits (db (snd (LinkVisitedControllerPost.linkVisitedControllerCreate
                             req w)))).
Proof.
  intros Hb Hip Hfit Hu Hu0 Hue Hl Hl0 Hle.
  assert (Hvalid : IpVerification.isValidIp
                     (LinkVisitedControllerPost.req_ip req) = true).
  { rewrite Hip. now apply IpFacts.quad_is_accepted. }
  rewrite VisitFacts.linkVisitedControllerCreate_run.
  rewrite Hu, Hl. cbn [LinkVisitedControllerPost.truthy_id].
  apply Z.eqb_neq in Hu0, Hl0. rewrite Hu0, Hl0.
  unfold user_exists in Hue. rewrite existsb_find in Hue.
  destruct (find _ (users (db w))) as [r|]; [|discriminate].
  unfold link_exists in Hle. rewrite existsb_find in Hle.
  change (fun l : Link => id_links l =? lid)
    with (link_matches (ByIdLinks lid)) in Hle.
  destruct (find _ (links (db w))) as [l|]; [|discriminate].
  cbv zeta. rewrite Hfit. eexists. split; [reflexivity|]. split.
  - unfold visit_of. cbn [ip]. now rewrite Hvalid.
  - cbn [snd db visits with_new_visit]. apply in_app_iff. right. now left.
Qed.

Lemma visit_keeps_dotted_quad_witness :
  let req := LinkVisitedControllerPost.mkVisitBody
               None None (Some "10.0.0.255") None None (Some 2) (Some 1) in
  dotted_quad 10 0 0 255 = "10.0.0.255" /\
  exists v,
    fst (LinkVisitedControllerPost.linkVisitedControllerCreate
           req Sample.busy) =
      mkResponse 201 true (BVisit v "New visited link created") /\
    ip v = Some "10.0.0.255".
Proof.
  intros req. split; [reflexivity|].
  destruct (visit_keeps_dotted_quad req Sample.busy 10 0 0 255 2 1)
    as (v & Hr & Hip & _);
    try solve [reflexivity | discriminate | cbn; lia].
  exists v. split; [exact Hr | exact Hip].
Defined.

(** X7: an address with a colon in it, as every IPv6 address has, is not
    recorded: the visit is created with no address (the other texts of
    the request fitting their columns). *)
Theorem visit_drops_ipv6_address
    (req : LinkVisitedControllerPost.VisitBody) (w : World)
    (address : string) (uid lid : Z) :
  LinkVisitedControllerPost.req_ip req = Some address ->
  JsString.mem ":" address = true ->
  metadata_fits req = true ->
  LinkVisitedControllerPost.req_id_user req = Some uid -> uid <> 0 ->
  user_exists uid (db w) = true ->
  LinkVisitedControllerPost.req_id_links req = Some lid -> lid <> 0 ->
  link_exists lid (db w) = true ->
  exists v,
    fst (LinkVisitedControllerPost.linkVisitedControllerCreate req w) =
      mkResponse 201 true (BVisit v "New visited link created") /\
    ip v = None /\
    visits (db (snd (LinkVisitedControllerPost.linkVisitedControllerCreate
                       req w))) = (visits (db w) ++ [v])%list.
Proof.
  intros Hip Hcolon Hfit Hu Hu0 Hue Hl Hl0 Hle.
  assert (Hinvalid : IpVerification.isValidIp
                       (LinkVisitedControllerPost.req_ip req) = false).
  { rewrite Hip.
    now apply (IpFacts.other_char_refused address ":"%char). }
  rewrite VisitFacts.linkVisitedControllerCreate_run.
  rewrite Hu, Hl. cbn [LinkVisitedControllerPost.truthy_id].
  apply Z.eqb_neq in Hu0, Hl0. rewrite Hu0, Hl0.
  unfold user_exists in Hue. rewrite existsb_find in Hue.
  destruct (find _ (users (db w))) as [r|]; [|discriminate].
  unfold link_exists in Hle. rewrite existsb_find in Hle.
  change (fun l : Link => id_links l =? lid)
    with (link_matches (ByIdLinks lid)) in Hle.
  destruct (find _ (links (db w))) as [l|]; [|discriminate].
  cbv zeta. rewrite Hfit. eexists. split; [reflexivity|]. split.
  - unfold visit_of. cbn [ip]. now rewrite Hinvalid.
  - reflexivity.
Qed.

Lemma visit_drops_ipv6_address_witness :
  let req := LinkVisitedControllerPost.mkVisitBody
               None None (Some "2001:db8::1") None None (Some 2) (Some 1) in
  JsString.mem ":" "2001:db8::1" = true /\
  exists v,
    fst (LinkVisitedControllerPost.linkVisitedControllerCreate
           req Sample.busy) =
      mkResponse 201 true (BVisit v "New visited link created") /\
    ip v = None.
Proof.
  intros req. split; [reflexivity|].
  destruct (visit_drops_ipv6_address req Sample.busy "2001:db8::1" 2 1)
    as (v & Hr & Hip & _);
    try solve [reflexivity | discriminate].
  exists v. split; [exact Hr | exact Hip].
Defined.

(** X8: the user is checked before the link. A request without
    [id_user], or with [id_user] 0, is answered "id_user is required"
    and the store is not even queried; with an [id_user] that names no
    user it is answered "User does not exist" after that one query,
    whatever [id_links] is. *)
Theorem visit_checks_user_first
    (req : LinkVisitedControllerPost.VisitBody) (w : World) :
  (LinkVisitedControllerPost.req_id_user req = None \/
   LinkVisitedControllerPost.req_id_user req = Some 0 ->
   LinkVisitedControllerPost.linkVisitedControllerCreate req w =
   (mkResponse 400 false (BError "id_user is required"), w)) /\
  (forall u,
     LinkVisitedControllerPost.req_id_user req = Some u -> u <> 0 ->
     user_exists u (db w) = false ->
     LinkVisitedControllerPost.linkVisitedControllerCreate req w =
     (mkResponse 400 false (BError "User does not exist"),
      logged w [EvUsersFindOne u])).
Proof.
  split.
  - intros H. rewrite VisitFacts.linkVisitedControllerCreate_run.
    destruct H as [-> | ->]; reflexivity.
  - intros u Hu Hu0 Hne. rewrite VisitFacts.linkVisitedControllerCreate_run.
    rewrite Hu. cbn [LinkVisitedControllerPost.truthy_id].
    apply Z.eqb_neq in Hu0. rewrite Hu0.
    unfold user_exists in Hne. rewrite existsb_find in Hne.
    destruct (find _ (users (db w))); [discriminate | reflexivity].
Qed.

Lemma visit_checks_user_first_witness :
  LinkVisitedControllerPost.linkVisitedControllerCreate
    (LinkVisitedControllerPost.mkVisitBody
       None None None None None (Some 0) None) Sample.busy =
  (mkResponse 400 false (BError "id_user is required"), Sample.busy) /\
  LinkVisitedControllerPost.linkVisitedControllerCreate
    (LinkVisitedControllerPost.mkVisitBody
       None None None None None (Some 9) None) Sample.busy =
  (mkResponse 400 false (BError "User does not exist"),
   logged Sample.busy [EvUsersFindOne 9]).
Proof.
  split.
  - apply (visit_checks_user_first
             (LinkVisitedControllerPost.mkVisitBody
                None None None None None (Some 0) None) Sample.busy).
    now right.
  - apply (visit_checks_user_first
             (LinkVisitedControllerPost.mkVisitBody
                None None None None None (Some 9) None) Sample.busy);
      solve [reflexivity | discriminate].
Defined.

(* ================================================================== *)
(** * Updating and deleting a link *)

Module MutationFacts.

Lemma links_of_link_update (i : Z) (o : string) (d : DB) :
  links (link_update i o d) =
  map (fun l => if id_links l =? i then with_original o l else l) (links d).
Proof. reflexivity. Qed.

Lemma update_keeps (A : Type) (g : Link -> A) (i : Z) (o : string) (d : DB) :
  (forall l, g (with_original o l) = g l) ->
  map g (links (link_update i o d)) = map g (links d).
Proof.
  intros Hg. rewrite links_of_link_update, map_map.
  apply map_ext. intros l. destruct (id_links l =? i); [apply Hg | reflexivity].
Qed.

Lemma find_in_map {A : Type} (p : A -> bool) (f : A -> A) (ls : list A) :
  (forall a, p (f a) = p a) ->
  find p (map f ls) = option_map f (find p ls).
Proof.
  intros Hp. induction ls as [|a ls IH]; [reflexivity|].
  cbn [map find]. rewrite Hp. destruct (p a); [reflexivity | exact IH].
Qed.

(** With distinct short links, the row found for a stored row's code is
    that row. *)
Lemma find_by_own_code (ls : list Link) (l : Link) :
  NoDup (map short_link ls) -> In l ls ->
  find (link_matches (ByShortLink (short_link l))) ls = Some l.
Proof.
  induction ls as [|a ls IH]; intros Hnd Hin; [destruct Hin|].
  cbn [map] in Hnd. apply NoDup_cons_iff in Hnd. destruct Hnd as [Ha Hnd].
  cbn [find link_matches].
  destruct (String.eqb_spec (short_link a) (short_link l)) as [E|E].
  - destruct Hin as [->|Hin]; [reflexivity|].
    exfalso. apply Ha. rewrite E. now apply in_map.
  - destruct Hin as [->|Hin]; [congruence|]. now apply IH.
Qed.

Lemma find_none_iff {A : Type} (p : A -> bool) (ls : list A) :
  find p ls = None <-> forall a, In a ls -> p a = false.
Proof.
  split.
  - intros H a Ha. exact (find_none p ls H a Ha).
  - intros H. induction ls as [|a ls IH]; [reflexivity|].
    cbn [find]. rewrite (H a (or_introl eq_refl)).
    apply IH. intros b Hb. apply H. now right.
Qed.

(** The resolver on a code of four characters. *)
Lemma resolver_on_code (s : string) (w : World) :
  String.length s = 4%nat ->
  fst (LinksControllerGet.linksControllerOriginalLinkGet s w) =
  match find (link_matches (ByShortLink s)) (links (db w)) with
  | Some l => mkResponse 200 true (BOriginal (original_link l))
  | None => mkResponse 404 false (BError "Short link not found")
  end.
Proof.
  intros Hlen. rewrite ResolverFacts.linksControllerOriginalLinkGet_run.
  cbv zeta. rewrite ResolverFacts.replace_prefix_short by lia. reflexivity.
Qed.

End MutationFacts.

(** X9: the update controller changes nothing but original URLs. It
    answers 200 only for a valid URL and a stored key; with any other
    answer the store is as before; and in every case the users, the
    visits, the counters and each link's key, short link and owner are
    unchanged. *)
Theorem linkControllerPutID_changes_only_urls
    (isURL : string -> bool) (req : PutRequest) (d : DB) :
  let run := linkControllerPutID isURL req d in
  (status (fst run) = 200 ->
   invalid_url isURL (put_original_link req) = false /\
   link_exists (put_id_links req) d = true) /\
  (status (fst run) <> 200 -> snd run = d) /\
  users (snd run) = users d /\
  visits (snd run) = visits d /\
  next_id_links (snd run) = next_id_links d /\
  map id_links (links (snd run)) = map id_links (links d) /\
  map short_link (links (snd run)) = map short_link (links d) /\
  map link_id_user (links (snd run)) = map link_id_user (links d).
Proof.
  cbv zeta. unfold linkControllerPutID.
  destruct (put_original_link req) as [o|];
    [|repeat split; try reflexivity; discriminate].
  destruct (invalid_url isURL (Some o)) eqn:Hurl;
    [repeat split; try reflexivity; discriminate|].
  destruct (find _ (links d)) as [l|] eqn:F;
    [|repeat split; try reflexivity; discriminate].
  cbn [fst snd status]. split; [|split; [congruence|]].
  { intros _. split; [reflexivity|].
    exact (VisitFacts.find_exists_link _ _ _ F). }
  repeat split; now apply MutationFacts.update_keeps.
Qed.

(** X10: update, then look up. When short links are distinct and the
    link with the given key has a four-character code, a valid new URL
    that fits the column ([STRING(2048)]) is answered 200 and the
    resolver, asked for that code, returns the new URL from then on. *)
Theorem put_then_lookup_returns_new_url
    (isURL : string -> bool) (req : PutRequest) (d : DB)
    (o : string) (l : Link) :
  unique_short_links d ->
  put_original_link req = Some o ->
  invalid_url isURL (Some o) = false ->
  (String.length o <= 2048)%nat ->
  In l (links d) -> id_links l = put_id_links req ->
  String.length (short_link l) = 4%nat ->
  status (fst (linkControllerPutID isURL req d)) = 200 /\
  forall k lg,
    fst (LinksControllerGet.linksControllerOriginalLinkGet (short_link l)
           (mkWorld (snd (linkControllerPutID isURL req d)) k lg)) =
    mkResponse 200 true (BOriginal o).
Proof.
  intros Huniq Ho Hurl Hfit Hin Hid Hlen. unfold linkControllerPutID.
  rewrite Ho, Hurl.
  destruct (find _ (links d)) as [l0|] eqn:F.
  - split; [reflexivity|]. intros k lg.
    rewrite MutationFacts.resolver_on_code by exact Hlen.
    cbn [snd db]. rewrite MutationFacts.links_of_link_update.
    rewrite MutationFacts.find_in_map
      by (intros a; destruct (id_links a =? id_links l0); reflexivity).
    rewrite (MutationFacts.find_by_own_code _ l Huniq Hin).
    cbn [option_map].
    apply find_some in F. destruct F as [_ F]. cbn [link_matches] in F.
    apply Z.eqb_eq in F. rewrite Hid, <- F, Z.eqb_refl. reflexivity.
  - exfalso. rewrite MutationFacts.find_none_iff in F.
    specialize (F l Hin). cbn [link_matches] in F.
    rewrite Hid, Z.eqb_refl in F. discriminate.
Qed.

Lemma put_then_lookup_returns_new_url_witness :
  let req := mkPutRequest "2" 2 (Some Sample.page) in
  let after := snd (linkControllerPutID Sample.isURL req
                      (mkDB [Sample.ana]
                            [mkLink 2 "https://example.com/old" "bbbb" 1]
                            [] 3 1)) in
  fst (LinksControllerGet.linksControllerOriginalLinkGet "bbbb"
         (mkWorld after 0 [])) =
  mkResponse 200 true (BOriginal Sample.page).
Proof.
  intros req after.
  assert (Hu : unique_short_links
                 (mkDB [Sample.ana]
                       [mkLink 2 "https://example.com/old" "bbbb" 1] [] 3 1)).
  { unfold unique_short_links. cbn. constructor; [intros [] | constructor]. }
  assert (Hfit : (String.length Sample.page <= 2048)%nat) by (cbn; lia).
  destruct (put_then_lookup_returns_new_url Sample.isURL req
              (mkDB [Sample.ana]
                    [mkLink 2 "https://example.com/old" "bbbb" 1] [] 3 1)
              Sample.page (mkLink 2 "https://example.com/old" "bbbb" 1)
              Hu eq_refl eq_refl Hfit (or_introl eq_refl) eq_refl eq_refl)
    as [_ H].
  exact (H 0%nat []).
Defined.

(** X11: the update does not apply the rule of the allocator that a user
    holds a URL once. If a user owns two links, putting the URL of the
    first on the second is answered 200, and afterwards two links with
    different keys, the same owner and the same URL are stored. *)
Theorem put_can_duplicate_a_url
    (isURL : string -> bool) (d : DB) (l1 l2 : Link) (id : string) :
  In l1 (links d) -> In l2 (links d) ->
  id_links l1 <> id_links l2 ->
  link_id_user l1 = link_id_user l2 ->
  invalid_url isURL (Some (original_link l1)) = false ->
  let run := linkControllerPutID isURL
               (mkPutRequest id (id_links l2) (Some (original_link l1))) d in
  status (fst run) = 200 /\
  exists a b,
    In a (links (snd run)) /\ In b (links (snd run)) /\
    id_links a <> id_links b /\
    link_id_user a = link_id_user b /\
    original_link a = original_link b.
Proof.
  intros H1 H2 Hne Hu Hurl. cbv zeta. unfold linkControllerPutID.
  cbn [put_original_link put_id_links put_params_id]. rewrite Hurl.
  destruct (find _ (links d)) as [l0|] eqn:F.
  - split; [reflexivity|].
    apply find_some in F. destruct F as [_ F]. cbn [link_matches] in F.
    apply Z.eqb_eq in F.
    exists l1, (with_original (original_link l1) l2).
    cbn [snd]. rewrite MutationFacts.links_of_link_update, F.
    split; [|split; [|split; [exact Hne | split; [exact Hu | reflexivity]]]].
    + apply in_map_iff. exists l1. split; [|exact H1].
      destruct (id_links l1 =? id_links l2) eqn:E; [|reflexivity].
      apply Z.eqb_eq in E. congruence.
    + apply in_map_iff. exists l2. split; [|exact H2].
      now rewrite Z.eqb_refl.
  - exfalso. rewrite MutationFacts.find_none_iff in F.
    specialize (F l2 H2). cbn [link_matches] in F.
    rewrite Z.eqb_refl in F. discriminate.
Qed.

Lemma put_can_duplicate_a_url_witness :
  let l1 := mkLink 1 "https://example.com/page" "aaaa" 1 in
  let l2 := mkLink 2 "https://example.com/old" "bbbb" 1 in
  let run := linkControllerPutID Sample.isURL
               (mkPutRequest "2" 2 (Some "https://example.com/page"))
               (mkDB [Sample.ana] [l1; l2] [] 3 1) in
  status (fst run) = 200 /\
  links (snd run) = [l1; mkLink 2 "https://example.com/page" "bbbb" 1].
Proof.
  intros l1 l2 run.
  assert (Hne : id_links l1 <> id_links l2) by discriminate.
  destruct (put_can_duplicate_a_url Sample.isURL
              (mkDB [Sample.ana] [l1; l2] [] 3 1) l1 l2 "2"
              (or_introl eq_refl) (or_intror (or_introl eq_refl))
              Hne eq_refl eq_refl) as [H _].
  split; [exact H | reflexivity].
Defined.

Module DeleteFacts.

Lemma links_of_link_destroy (i : Z) (d : DB) (l : Link) :
  In l (links (link_destroy i d)) <-> In l (links d) /\ id_links l <> i.
Proof.
  cbn [link_destroy links]. rewrite filter_In, negb_true_iff, Z.eqb_neq.
  reflexivity.
Qed.

Lemma visits_of_link_destroy (i : Z) (d : DB) (v : Visit) :
  In v (visits (link_destroy i d)) <-> In v (visits d) /\ visit_id_links v <> i.
Proof.
  cbn [link_destroy visits]. rewrite filter_In, negb_true_iff, Z.eqb_neq.
  reflexivity.
Qed.

Lemma link_exists_iff (i : Z) (d : DB) :
  link_exists i d = true <-> exists l, In l (links d) /\ id_links l = i.
Proof.
  unfold link_exists. rewrite existsb_exists.
  split; intros (l & Hl & E); exists l; split; auto;
    now apply Z.eqb_eq.
Qed.

Lemma destroyed_key_is_gone (i : Z) (d : DB) :
  link_exists i (link_destroy i d) = false.
Proof.
  destruct (link_exists i (link_destroy i d)) eqn:E; [|reflexivity].
  apply link_exists_iff in E. destruct E as (l & Hl & Hi).
  apply links_of_link_destroy in Hl. tauto.
Qed.

End DeleteFacts.

(** X12: the delete controller never adds anything and changes the store
    only with a 200. A text that is not a number is answered 400 "ID has
    to be a number" with the store untouched; the users are never
    changed; the links and visits afterwards were all there before. *)
Theorem linkControllerDeleteID_only_removes
    (Number_isNaN : string -> bool) (key_of_text : string -> option Z)
    (id : string) (d : DB) :
  let run := linkControllerDeleteID Number_isNaN key_of_text id d in
  (Number_isNaN id = true ->
   run = (mkDeleteResponse 400 false (DeleteError "ID has to be a number"), d))
  /\
  (delete_status (fst run) <> 200 -> snd run = d) /\
  users (snd run) = users d /\
  (forall l, In l (links (snd run)) -> In l (links d)) /\
  (forall v, In v (visits (snd run)) -> In v (visits d)).
Proof.
  cbv zeta. unfold linkControllerDeleteID.
  destruct (Number_isNaN id); [repeat split; auto|].
  split; [discriminate|].
  destruct (match key_of_text id with
            | Some key => find (link_matches (ByIdLinks key)) (links d)
            | None => None
            end) as [l|]; [|repeat split; auto].
  cbn [fst snd delete_status]. split; [congruence|].
  split; [reflexivity|]. split.
  - intros l' H. now apply DeleteFacts.links_of_link_destroy in H.
  - intros v H. now apply DeleteFacts.visits_of_link_destroy in H.
Qed.

(** X13: deleting a stored link. For a numeric text that the store reads
    as the key [i] of a stored link, the answer is 200 with the deleted
    row; afterwards no link has the key [i] and no visit refers to it,
    while every other link and every visit of another link is still
    there. *)
Theorem linkControllerDeleteID_removes_link_and_visits
    (Number_isNaN : string -> bool) (key_of_text : string -> option Z)
    (id : string) (i : Z) (d : DB) :
  Number_isNaN id = false ->
  key_of_text id = Some i ->
  link_exists i d = true ->
  let run := linkControllerDeleteID Number_isNaN key_of_text id d in
  (exists l, fst run = mkDeleteResponse 200 true (Deleted l "Link deleted") /\
             In l (links d) /\ id_links l = i) /\
  link_exists i (snd run) = false /\
  (forall l, In l (links (snd run)) <-> In l (links d) /\ id_links l <> i) /\
  (forall v, In v (visits (snd run)) <->
             In v (visits d) /\ visit_id_links v <> i).
Proof.
  intros Hnum Hkey Hex. cbv zeta. unfold linkControllerDeleteID.
  rewrite Hnum, Hkey.
  unfold link_exists in Hex. rewrite existsb_find in Hex.
  change (fun l : Link => id_links l =? i)
    with (link_matches (ByIdLinks i)) in Hex.
  destruct (find (link_matches (ByIdLinks i)) (links d)) as [l|] eqn:F;
    [|discriminate].
  apply find_some in F. destruct F as [Hin F]. cbn [link_matches] in F.
  apply Z.eqb_eq in F. cbn [fst snd]. rewrite F.
  split; [exists l; auto|].
  split; [apply DeleteFacts.destroyed_key_is_gone|].
  split; [apply DeleteFacts.links_of_link_destroy
         | apply DeleteFacts.visits_of_link_destroy].
Qed.

Lemma linkControllerDeleteID_removes_link_and_visits_witness :
  let run := linkControllerDeleteID Scenario.Number_isNaN Scenario.key_of_text
               "1" Scenario.three_links in
  Scenario.Number_isNaN "1" = false /\
  Scenario.key_of_text "1" = Some 1 /\
  link_exists 1 Scenario.three_links = true /\
  link_exists 1 (snd run) = false /\
  map id_links (links (snd run)) = [2; 3] /\
  visits (snd run) = [].
Proof.
  intros run.
  split; [reflexivity|]. split; [reflexivity|]. split; [reflexivity|].
  destruct (linkControllerDeleteID_removes_link_and_visits
              Scenario.Number_isNaN Scenario.key_of_text "1" 1
              Scenario.three_links eq_refl eq_refl eq_refl)
    as (_ & Hgone & _).
  split; [exact Hgone|]. split; reflexivity.
Defined.

(** X14: delete, then look up. When short links are distinct, after the
    deletion of a link with a four-character code the resolver answers
    404 for that code. *)
Theorem delete_then_lookup_is_404
    (Number_isNaN : string -> bool) (key_of_text : string -> option Z)
    (id : string) (d : DB) (l : Link) :
  unique_short_links d ->
  Number_isNaN id = false ->
  key_of_text id = Some (id_links l) ->
  In l (links d) ->
  String.length (short_link l) = 4%nat ->
  delete_status
    (fst (linkControllerDeleteID Number_isNaN key_of_text id d)) = 200 /\
  forall k lg,
    fst (LinksControllerGet.linksControllerOriginalLinkGet (short_link l)
           (mkWorld (snd (linkControllerDeleteID Number_isNaN key_of_text id d))
                    k lg)) =
    mkResponse 404 false (BError "Short link not found").
Proof.
  intros Huniq Hnum Hkey Hin Hlen. unfold linkControllerDeleteID.
  rewrite Hnum, Hkey.
  destruct (find (link_matches (ByIdLinks (id_links l))) (links d))
    as [l0|] eqn:F.
  - split; [reflexivity|]. intros k lg.
    rewrite MutationFacts.resolver_on_code by exact Hlen. cbn [snd db].
    apply find_some in F. destruct F as [_ F]. cbn [link_matches] in F.
    apply Z.eqb_eq in F. rewrite F.
    destruct (find _ (links (link_destroy (id_links l) d))) as [l'|] eqn:F';
      [|reflexivity].
    exfalso. apply find_some in F'. destruct F' as [Hin' Hcode].
    cbn [link_matches] in Hcode. apply String.eqb_eq in Hcode.
    apply DeleteFacts.links_of_link_destroy in Hin'. destruct Hin' as [Hin' Hid].
    pose proof (MutationFacts.find_by_own_code _ l Huniq Hin) as E1.
    pose proof (MutationFacts.find_by_own_code _ l' Huniq Hin') as E2.
    rewrite Hcode in E2. congruence.
  - exfalso. rewrite MutationFacts.find_none_iff in F.
    specialize (F l Hin). cbn [link_matches] in F.
    rewrite Z.eqb_refl in F. discriminate.
Qed.

Lemma delete_then_lookup_is_404_witness :
  let l := mkLink 2 "https://example.com/page" "bbbb" 1 in
  let after := snd (linkControllerDeleteID Scenario.Number_isNaN
                      Scenario.key_of_text "2" Scenario.three_links) in
  fst (LinksControllerGet.linksControllerOriginalLinkGet "bbbb"
         (mkWorld Scenario.three_links 0 [])) =
    mkResponse 200 true (BOriginal "https://example.com/page") /\
  fst (LinksControllerGet.linksControllerOriginalLinkGet "bbbb"
         (mkWorld after 0 [])) =
    mkResponse 404 false (BError "Short link not found").
Proof.
  intros l after. split; [reflexivity|].
  assert (Hu : unique_short_links Scenario.three_links).
  { unfold unique_short_links. cbn.
    repeat (constructor; [cbn; intuition discriminate|]). constructor. }
  destruct (delete_then_lookup_is_404 Scenario.Number_isNaN
              Scenario.key_of_text "2" Scenario.three_links l
              Hu eq_refl eq_refl (or_intror (or_introl eq_refl)) eq_refl)
    as [_ H].
  exact (H 0%nat []).
Defined.

(* ================================================================== *)
(** * Integrity of the reachable stores *)

Module IntegrityFacts.

Lemma LinksModel_create_effect (o s : string) (u : Z) (w : World) :
  db (snd (LinksModel_create o s u w)) = db w \/
  (short_link_taken s (db w) = false /\ user_exists u (db w) = true /\
   db (snd (LinksModel_create o s u w)) = with_new_link (db w) o s u).
Proof.
  rewrite LinksModel_create_run. cbv zeta.
  destruct (short_link_taken s (db w)); [now left|].
  destruct (user_exists u (db w)); [|now left].
  right. repeat split.
Qed.

Lemma linkControllerCreate_effect
    (rnd : nat -> Q) (isURL : string -> bool) (req : CreateBody) (w : World) :
  db (snd (linkControllerCreate rnd isURL req w)) = db w \/
  exists o s u,
    short_link_taken s (db w) = false /\ user_exists u (db w) = true /\
    db (snd (linkControllerCreate rnd isURL req w)) = with_new_link (db w) o s u.
Proof.
  destruct (invalid_url isURL (req_original_link req)) eqn:Hurl.
  { rewrite linkControllerCreate_invalid by exact Hurl. now left. }
  destruct req as [[original|] user]; [|discriminate].
  cbn [req_original_link] in Hurl.
  rewrite (linkControllerCreate_run rnd isURL original user w Hurl).
  cbv zeta.
  destruct (find _ (links (db w))); [now left|].
  destruct user as [u|]; [|now left].
  destruct (short_link_taken (code_at rnd (drawn w)) (db w));
    match goal with
    | |- context [LinksModel_create ?o ?s ?v ?w0] =>
        pose proof (LinksModel_create_effect o s v w0) as H;
        destruct (LinksModel_create o s v w0) as [created w'];
        cbn [snd db] in H |- *;
        destruct H as [H|(H1 & H2 & H3)];
        [now left | right; exists o, s, v; auto]
    end.
Qed.

Lemma linkVisitedControllerCreate_effect
    (req : LinkVisitedControllerPost.VisitBody) (w : World) :
  db (snd (LinkVisitedControllerPost.linkVisitedControllerCreate req w)) = db w
  \/
  exists v,
    user_exists (visit_id_user v) (db w) = true /\
    link_exists (visit_id_links v) (db w) = true /\
    db (snd (LinkVisitedControllerPost.linkVisitedControllerCreate req w)) =
      with_new_visit (db w) v.
Proof.
  rewrite VisitFacts.linkVisitedControllerCreate_run.
  destruct (LinkVisitedControllerPost.truthy_id _) as [u|]; [|now left].
  destruct (find _ (users (db w))) as [r|] eqn:Fu; [|now left].
  destruct (LinkVisitedControllerPost.truthy_id _) as [i|]; [|now left].
  destruct (find _ (links (db w))) as [l|] eqn:Fl; [|now left].
  cbv zeta. destruct (metadata_fits req); [|now left].
  right. exists (visit_of req (db w) u i). cbn [snd db visit_id_user
    visit_id_links visit_of].
  split; [exact (VisitFacts.find_exists_user u (db w) r Fu)|].
  split; [exact (VisitFacts.find_exists_link i (db w) l Fl) | reflexivity].
Qed.

Lemma user_exists_iff (u : Z) (d : DB) :
  user_exists u d = true <-> exists r, In r (users d) /\ id_user r = u.
Proof.
  unfold user_exists. rewrite existsb_exists.
  split; intros (r & Hr & E); exists r; split; auto; now apply Z.eqb_eq.
Qed.

Lemma user_exists_same_users (u : Z) (d d' : DB) :
  users d' = users d -> user_exists u d' = user_exists u d.
Proof. unfold user_exists. now intros ->. Qed.

Lemma link_exists_in_keys (i : Z) (d : DB) :
  link_exists i d = true <-> In i (map id_links (links d)).
Proof.
  rewrite DeleteFacts.link_exists_iff, in_map_iff.
  split; intros (l & A & B); exists l; tauto.
Qed.

Lemma link_exists_same_keys (i : Z) (d d' : DB) :
  map id_links (links d') = map id_links (links d) ->
  link_exists i d' = link_exists i d.
Proof.
  intros E. apply eq_true_iff_eq. rewrite !link_exists_in_keys. now rewrite E.
Qed.

(** A step keeps the references. *)
Lemma step_keeps_references (d d' : DB) :
  step d d' -> references_hold d -> references_hold d'.
Proof.
  intros Hstep [HL HV].
  assert (Hnew : forall o s u,
             user_exists u d = true ->
             references_hold (with_new_link d o s u)).
  { intros o s u Hu. split.
    - intros l Hl. cbn [with_new_link links] in Hl.
      apply in_app_iff in Hl.
      rewrite (user_exists_same_users _ d) by reflexivity.
      destruct Hl as [Hl|[<-|[]]]; [now apply HL | exact Hu].
    - intros v Hv. destruct (HV v Hv) as [A B].
      rewrite (user_exists_same_users _ d) by reflexivity.
      split; [exact A|].
      apply link_exists_in_keys. cbn [with_new_link links].
      rewrite map_app. apply in_app_iff. left.
      now apply link_exists_in_keys. }
  destruct Hstep.
  - destruct (linkControllerCreate_effect rnd isURL req (mkWorld d k lg))
      as [E|(o & s & u & _ & Hu & E)]; cbn [db] in E; rewrite E.
    + now split.
    + now apply Hnew.
  - destruct (LinksModel_create_effect o s u (mkWorld d k lg))
      as [E|(_ & Hu & E)]; cbn [db] in E; rewrite E.
    + now split.
    + now apply Hnew.
  - split.
    + intros l Hl. rewrite MutationFacts.links_of_link_update in Hl.
      apply in_map_iff in Hl. destruct Hl as (l0 & <- & Hl0).
      rewrite (user_exists_same_users _ d) by reflexivity.
      destruct (id_links l0 =? i); exact (HL l0 Hl0).
    + intros v Hv. destruct (HV v Hv) as [A B].
      rewrite (user_exists_same_users _ d) by reflexivity.
      rewrite (link_exists_same_keys _ d); [tauto|].
      now apply MutationFacts.update_keeps.
  - split.
    + intros l Hl. apply DeleteFacts.links_of_link_destroy in Hl.
      rewrite (user_exists_same_users _ d) by reflexivity.
      apply HL. tauto.
    + intros v Hv. apply DeleteFacts.visits_of_link_destroy in Hv.
      destruct Hv as [Hv Hne]. destruct (HV v Hv) as [A B].
      rewrite (user_exists_same_users _ d) by reflexivity.
      split; [exact A|].
      apply DeleteFacts.link_exists_iff in B. destruct B as (l & Hl & Hid).
      apply DeleteFacts.link_exists_iff. exists l. split; [|exact Hid].
      apply DeleteFacts.links_of_link_destroy. split; [exact Hl | congruence].
  - assert (Hmono : forall u, user_exists u d = true ->
                              user_exists u (user_insert r d) = true).
    { intros u Hu. apply user_exists_iff in Hu. destruct Hu as (x & Hx & E).
      apply user_exists_iff. exists x. split; [|exact E].
      cbn [user_insert users]. apply in_app_iff. now left. }
    split.
    + intros l Hl. apply Hmono. now apply HL.
    + intros v Hv. destruct (HV v Hv) as [A B]. split; [now apply Hmono|].
      exact B.
  - assert (Hkeep : forall x, x <> u -> user_exists x d = true ->
                              user_exists x (user_destroy u d) = true).
    { intros x Hx Hu. apply user_exists_iff in Hu. destruct Hu as (r & Hr & E).
      apply user_exists_iff. exists r. split; [|exact E].
      cbn [user_destroy users]. apply filter_In. split; [exact Hr|].
      apply negb_true_iff, Z.eqb_neq. congruence. }
    split.
    + intros l Hl. cbn [user_destroy links] in Hl.
      apply filter_In in Hl. destruct Hl as [Hl Hne].
      apply negb_true_iff, Z.eqb_neq in Hne. apply Hkeep; [exact Hne|].
      now apply HL.
    + intros v Hv. cbn [user_destroy visits] in Hv.
      apply filter_In in Hv. destruct Hv as [Hv Hc].
      apply andb_true_iff in Hc. destruct Hc as [Hne Hlink].
      apply negb_true_iff, Z.eqb_neq in Hne. destruct (HV v Hv) as [A _].
      split; [now apply Hkeep|].
      unfold link_exists. cbn [user_destroy links]. exact Hlink.
  - destruct (linkVisitedControllerCreate_effect req (mkWorld d k lg))
      as [E|(v & Hu & Hl & E)]; cbn [db] in E; rewrite E.
    + now split.
    + split.
      * intros l Hin. exact (HL l Hin).
      * intros v' Hv'. cbn [with_new_visit visits] in Hv'.
        apply in_app_iff in Hv'.
        destruct Hv' as [Hv'|[<-|[]]]; [exact (HV v' Hv') | split; assumption].
  - split.
    + exact HL.
    + intros v Hv. cbn [visit_destroy visits] in Hv.
      apply filter_In in Hv. destruct Hv as [Hv _]. exact (HV v Hv).
Qed.

(** Dropping rows keeps the remaining keys distinct. *)
Lemma keys_after_filter (keep : Link -> bool) (ls : list Link) :
  NoDup (map id_links ls) -> NoDup (map id_links (filter keep ls)).
Proof.
  intros Hls. induction ls as [|row ls IH]; [constructor|].
  cbn [map] in Hls. apply NoDup_cons_iff in Hls. destruct Hls as [Hrow Hls].
  cbn [filter]. destruct (keep row); [|exact (IH Hls)].
  cbn [map]. apply NoDup_cons_iff. split; [|exact (IH Hls)].
  rewrite in_map_iff. intros (other & Hkey & Hother).
  apply filter_In in Hother. apply Hrow.
  rewrite in_map_iff. exists other. tauto.
Qed.

(** A step keeps the keys of the links distinct and below the counter. *)
Lemma step_keeps_keys (d d' : DB) :
  step d d' -> link_keys_fresh d -> link_keys_fresh d'.
Proof.
  intros Hstep [HN HB].
  assert (Hnew : forall o s u, link_keys_fresh (with_new_link d o s u)).
  { intros o s u. split; cbn [with_new_link links next_id_links].
    - rewrite map_app. cbn [map id_links]. apply NoDup_snoc; [exact HN|].
      intros Hin. apply in_map_iff in Hin. destruct Hin as (l & E & Hl).
      specialize (HB l Hl). lia.
    - intros l Hl. apply in_app_iff in Hl.
      destruct Hl as [Hl|[<-|[]]]; [specialize (HB l Hl); lia | cbn; lia]. }
  assert (Hsub : forall ls n,
             (forall l, In l ls -> In l (links d)) ->
             NoDup (map id_links ls) -> n = next_id_links d ->
             NoDup (map id_links ls) /\ forall l, In l ls -> id_links l < n).
  { intros ls n Hin Hnd ->. split; [exact Hnd|]. intros l Hl. auto. }
  destruct Hstep.
  - destruct (linkControllerCreate_effect rnd isURL req (mkWorld d k lg))
      as [E|(o & s & u & _ & _ & E)]; cbn [db] in E; rewrite E;
      [now split | apply Hnew].
  - destruct (LinksModel_create_effect o s u (mkWorld d k lg))
      as [E|(_ & _ & E)]; cbn [db] in E; rewrite E;
      [now split | apply Hnew].
  - split.
    + rewrite MutationFacts.update_keeps by reflexivity. exact HN.
    + intros l Hl. rewrite MutationFacts.links_of_link_update in Hl.
      apply in_map_iff in Hl. destruct Hl as (l0 & <- & Hl0).
      cbn [next_id_links link_update].
      destruct (id_links l0 =? i); exact (HB l0 Hl0).
  - apply Hsub; [|now apply keys_after_filter | reflexivity].
    intros l Hl. cbn [link_destroy links] in Hl. now apply filter_In in Hl.
  - now split.
  - apply Hsub; [|now apply keys_after_filter | reflexivity].
    intros l Hl. cbn [user_destroy links] in Hl. now apply filter_In in Hl.
  - destruct (linkVisitedControllerCreate_effect req (mkWorld d k lg))
      as [E|(v & _ & _ & E)]; cbn [db] in E; rewrite E; now split.
  - now split.
Qed.

End IntegrityFacts.

(** X15: referential integrity. In every store reachable from the empty
    tables, each link is owned by a stored user and each visit names a
    stored user and a stored link: the inserts check their references and
    the deletions cascade. *)
Theorem references_hold_in_reachable_states (d : DB) :
  reachable d -> references_hold d.
Proof.
  induction 1 as [|d d' _ IH Hstep].
  - split; intros x [].
  - exact (IntegrityFacts.step_keeps_references d d' Hstep IH).
Qed.

(** X16: in every store reachable from the empty tables, the keys of the
    links are pairwise distinct and smaller than the next key to be
    given. *)
Theorem link_keys_fresh_in_reachable_states (d : DB) :
  reachable d -> link_keys_fresh d.
Proof.
  induction 1 as [|d d' _ IH Hstep].
  - split; [constructor | intros x []].
  - exact (IntegrityFacts.step_keeps_keys d d' Hstep IH).
Qed.

Lemma visited_is_reachable : reachable Scenario.visited.
Proof.
  apply (reach_step Scenario.allocated);
    [|apply step_linkVisitedControllerCreate].
  apply (reach_step Scenario.registered); [|apply step_linkControllerCreate].
  apply (reach_step (user_insert Sample.ana empty_db));
    [|apply step_user_insert].
  apply (reach_step empty_db); [apply reach_empty | apply step_user_insert].
Qed.

Lemma references_hold_in_reachable_states_witness :
  links Scenario.visited =
    [mkLink 1 "https://example.com/page" "aaaa" 1] /\
  visits Scenario.visited =
    [mkVisit 1 None None (Some "10.0.0.7") None None 2 1] /\
  references_hold Scenario.visited.
Proof.
  split; [reflexivity|]. split; [reflexivity|].
  apply (references_hold_in_reachable_states Scenario.visited).
  exact visited_is_reachable.
Defined.

Lemma link_keys_fresh_in_reachable_states_witness :
  next_id_links Scenario.visited = 2 /\ link_keys_fresh Scenario.visited.
Proof.
  split; [reflexivity|].
  apply (link_keys_fresh_in_reachable_states Scenario.visited).
  exact visited_is_reachable.
Defined.

(** X17: the update and the delete controller keep the store among the
    reachable ones: each leaves it as it is or performs one row
    operation. So whatever holds in every reachable store (distinct short
    links, distinct keys, references) still holds after them. *)
Theorem put_and_delete_stay_reachable
    (isURL : string -> bool)
    (Number_isNaN : string -> bool) (key_of_text : string -> option Z)
    (req : PutRequest) (id : string) (d : DB) :
  reachable d ->
  reachable (snd (linkControllerPutID isURL req d)) /\
  reachable (snd (linkControllerDeleteID Number_isNaN key_of_text id d)).
Proof.
  intros Hd. split.
  - unfold linkControllerPutID.
    destruct (put_original_link req) as [o|]; [|exact Hd].
    destruct (invalid_url isURL (Some o)); [exact Hd|].
    destruct (find _ (links d)) as [l|]; [|exact Hd].
    cbn [snd]. apply (reach_step d); [exact Hd | apply step_link_update].
  - unfold linkControllerDeleteID.
    destruct (Number_isNaN id); [exact Hd|].
    destruct (match key_of_text id with
              | Some key => find (link_matches (ByIdLinks key)) (links d)
              | None => None
              end) as [l|]; [|exact Hd].
    cbn [snd]. apply (reach_step d); [exact Hd | apply step_link_destroy].
Qed.

Lemma put_and_delete_stay_reachable_witness :
  links (snd (linkControllerPutID Sample.isURL
                (mkPutRequest "1" 1 (Some "https://example.com/page"))
                Scenario.visited)) = links Scenario.visited /\
  links (snd (linkControllerDeleteID Scenario.Number_isNaN
                Scenario.key_of_text "1" Scenario.visited)) = [] /\
  reachable (snd (linkControllerDeleteID Scenario.Number_isNaN
                    Scenario.key_of_text "1" Scenario.visited)).
Proof.
  split; [reflexivity|]. split; [reflexivity|].
  apply (put_and_delete_stay_reachable Sample.isURL Scenario.Number_isNaN
           Scenario.key_of_text
           (mkPutRequest "1" 1 (Some "https://example.com/page")) "1"
           Scenario.visited).
  exact visited_is_reachable.
Defined.

(* ================================================================== *)
(** * Who reaches which controller *)

Module DispatchFacts.
Import LinksRouteGet.

Section WithVerifier.

Variable jwt_verify : string -> string + string.

(** A rejection is the answer of the guard of a route of the table. *)
Lemma rejected_by (table : list Route) (segs : list string)
    (authorization : option string) (d : DB) (resp : Response) :
  dispatch jwt_verify table segs authorization d = Rejected resp ->
  exists r role,
    In r table /\ guard r = Some role /\
    protectRoute jwt_verify role authorization d = Reply resp.
Proof.
  induction table as [|r table IH]; cbn [dispatch]; [discriminate|].
  destruct (match_path (path r) segs) as [params|].
  - destruct (guard r) as [role|] eqn:G; [|discriminate].
    destruct (protectRoute jwt_verify role authorization d) eqn:E;
      [discriminate|].
    intros [= <-]. exists r, role. split; [now left|]. now split.
  - intros H. destruct (IH H) as (r' & role & Hin & Hc). exists r', role.
    split; [now right | exact Hc].
Qed.

(** The guard on a credential that names a stored user. *)
Lemma protectRoute_with_user (role header claim : string) (user : User)
    (d : DB) :
  JsString.truthy header = true ->
  jwt_verify (JsString.substring_from 7 header) = inl claim ->
  find (fun u => String.eqb (email u) claim) (users d) = Some user ->
  protectRoute jwt_verify role (Some header) d =
  if String.eqb role "user" &&
     (String.eqb (role_of user) "user" || String.eqb (role_of user) "admin")
  then Next
  else if String.eqb role "admin" && String.eqb (role_of user) "admin"
  then Next
  else unauthorized.
Proof.
  intros Ht Hv Hf. unfold protectRoute. now rewrite Ht, Hv, Hf.
Qed.

(** [dispatch] is the guard of the first matching route, then its
    controller. *)
Lemma dispatch_first_match (table : list Route) (segs : list string)
    (authorization : option string) (d : DB) :
  dispatch jwt_verify table segs authorization d =
  match first_match table segs with
  | None => NoRoute
  | Some (r, params) =>
      match guard r with
      | None => Invoked (controller r) params
      | Some role =>
          match protectRoute jwt_verify role authorization d with
          | Next => Invoked (controller r) params
          | Reply resp => Rejected resp
          end
      end
  end.
Proof.
  induction table as [|r table IH]; cbn [dispatch first_match];
    [reflexivity|].
  now destruct (match_path (path r) segs).
Qed.

End WithVerifier.

(** [first_match] returns a route of the table whose path matches, and
    no route before it does. *)
Lemma first_match_some (table : list Route) (segs : list string)
    (r : Route) (ps : list (string * string)) :
  first_match table segs = Some (r, ps) <->
  exists before after,
    table = (before ++ r :: after)%list /\
    match_path (path r) segs = Some ps /\
    forall r', In r' before -> match_path (path r') segs = None.
Proof.
  revert r ps. induction table as [|r0 table IH]; intros r ps;
    cbn [first_match].
  - split; [discriminate|]. intros ([|? ?] & after & E & _); discriminate E.
  - destruct (match_path (path r0) segs) as [ps0|] eqn:M.
    + split.
      * intros [= <- <-]. exists [], table. split; [reflexivity|].
        split; [exact M | intros ? []].
      * intros ([|r1 before] & after & E & Hm & Hnone).
        -- injection E as <- _. now rewrite M in Hm; injection Hm as <-.
        -- injection E as <- _. rewrite (Hnone r0 (or_introl eq_refl)) in M.
           discriminate M.
    + rewrite IH. split.
      * intros (before & after & -> & Hm & Hnone).
        exists (r0 :: before), after. split; [reflexivity|].
        split; [exact Hm|]. intros r' [<-|Hin]; [exact M | now apply Hnone].
      * intros ([|r1 before] & after & E & Hm & Hnone).
        -- injection E as <- _. rewrite M in Hm. discriminate Hm.
        -- injection E as _ ->. exists before, after.
           split; [reflexivity|]. split; [exact Hm|].
           intros r' Hin. apply Hnone. now right.
Qed.

Lemma first_match_none (table : list Route) (segs : list string) :
  first_match table segs = None <->
  forall r, In r table -> match_path (path r) segs = None.
Proof.
  induction table as [|r0 table IH]; cbn [first_match].
  - split; [intros _ ? [] | reflexivity].
  - destruct (match_path (path r0) segs) as [ps0|] eqn:M.
    + split; [discriminate|]. intros H.
      rewrite (H r0 (or_introl eq_refl)) in M. discriminate M.
    + rewrite IH. split.
      * intros H r [<-|Hin]; [exact M | now apply H].
      * intros H r Hin. apply H. now right.
Qed.

Lemma first_match_in (table : list Route) (segs : list string)
    (r : Route) (ps : list (string * string)) :
  first_match table segs = Some (r, ps) -> In r table.
Proof.
  intros H. apply first_match_some in H.
  destruct H as (before & after & -> & _). apply in_or_app. right. now left.
Qed.

Ltac each_route H :=
  repeat (destruct H as [H|H]; [subst|]); [..|destruct H].

End DispatchFacts.

(** X18: the public surface of the link reads. A GET without an
    [authorization] header is handled by the first route of
    [linksRouteGet] whose path matches it, if there is one. When that
    route is the resolver or the search by attribute, the two mounted
    without a guard, its controller is invoked with the parameters of
    the path; when it is any other route of the table, the request is
    answered 401 "Unauthorized user" and no controller runs. *)
Theorem links_get_without_credential
    (jwt_verify : string -> string + string) (segs : list string) (d : DB) :
  LinksRouteGet.dispatch jwt_verify LinksRouteGet.linksRouteGet segs None d =
  match first_match LinksRouteGet.linksRouteGet segs with
  | None => LinksRouteGet.NoRoute
  | Some (r, params) =>
      match LinksRouteGet.controller r with
      | LinksRouteGet.linksControllerOriginalLinkGet
      | LinksRouteGet.linksControllerGetParams =>
          LinksRouteGet.Invoked (LinksRouteGet.controller r) params
      | _ =>
          LinksRouteGet.Rejected
            (mkResponse 401 false (BError "Unauthorized user"))
      end
  end.
Proof.
  rewrite DispatchFacts.dispatch_first_match.
  destruct (first_match _ _) as [[r ps]|] eqn:E; [|reflexivity].
  apply DispatchFacts.first_match_in in E.
  unfold LinksRouteGet.linksRouteGet in E. cbn [In] in E.
  DispatchFacts.each_route E; reflexivity.
Qed.

Lemma links_get_without_credential_witness :
  LinksRouteGet.dispatch Sample.jwt_verify LinksRouteGet.linksRouteGet
    ["api"; "v1"; "links"; "original"; "abcd"] None Sample.two_users =
  LinksRouteGet.Invoked LinksRouteGet.linksControllerOriginalLinkGet
    [("shortLink", "abcd")] /\
  LinksRouteGet.dispatch Sample.jwt_verify LinksRouteGet.linksRouteGet
    ["api"; "v1"; "links"; "7"] None Sample.two_users =
  LinksRouteGet.Rejected (mkResponse 401 false (BError "Unauthorized user")).
Proof.
  split.
  - exact (eq_trans
             (links_get_without_credential Sample.jwt_verify
                ["api"; "v1"; "links"; "original"; "abcd"] Sample.two_users)
             eq_refl).
  - exact (eq_trans
             (links_get_without_credential Sample.jwt_verify
                ["api"; "v1"; "links"; "7"] Sample.two_users)
             eq_refl).
Defined.

(** X19: a valid credential of a stored user whose role is [admin] is
    never rejected on a route of [linksRouteGet]. *)
Theorem links_get_admin_is_never_rejected
    (jwt_verify : string -> string + string) (segs : list string)
    (header claim : string) (user : User) (d : DB) :
  JsString.truthy header = true ->
  jwt_verify (JsString.substring_from 7 header) = inl claim ->
  find (fun u => String.eqb (email u) claim) (users d) = Some user ->
  role user = "admin" ->
  forall r,
    LinksRouteGet.dispatch jwt_verify LinksRouteGet.linksRouteGet
      segs (Some header) d <> LinksRouteGet.Rejected r.
Proof.
  intros Ht Hv Hf Hrole r E.
  apply DispatchFacts.rejected_by in E.
  destruct E as (rt & role & Hin & Hg & Hp).
  rewrite (DispatchFacts.protectRoute_with_user jwt_verify role header claim
             user d Ht Hv Hf) in Hp.
  unfold role_of in Hp. rewrite Hrole in Hp.
  unfold LinksRouteGet.linksRouteGet in Hin. cbn [In] in Hin.
  DispatchFacts.each_route Hin; cbn in Hg; try discriminate;
    injection Hg as <-; cbn in Hp; discriminate.
Qed.

Lemma links_get_admin_is_never_rejected_witness :
  Sample.jwt_verify (JsString.substring_from 7 "Bearer token-of-ana") =
    inl "ana@example.com" /\
  LinksRouteGet.dispatch Sample.jwt_verify LinksRouteGet.linksRouteGet
    ["api"; "v1"; "links"] (Some "Bearer token-of-ana")
    (mkDB [mkUser 1 "ana@example.com" "admin"] [] [] 1 1) <>
  LinksRouteGet.Rejected (mkResponse 401 false (BError "Unauthorized user")).
Proof.
  split; [reflexivity|].
  apply (links_get_admin_is_never_rejected Sample.jwt_verify
           ["api"; "v1"; "links"] "Bearer token-of-ana" "ana@example.com"
           (mkUser 1 "ana@example.com" "admin")
           (mkDB [mkUser 1 "ana@example.com" "admin"] [] [] 1 1));
    reflexivity.
Defined.

(** X20: a valid credential of a stored user whose role is [user] opens
    every route of [linksRouteGet] except the three that list or count
    all links. The request is handled by the first route whose path
    matches it, if there is one: on the list of the links, the list of
    all links and the count of all links it is answered 401
    "Unauthorized user" and no controller runs; on every other route of
    the table the controller is invoked with the parameters of the
    path. *)
Theorem links_get_user_is_kept_from_admin_routes
    (jwt_verify : string -> string + string) (segs : list string)
    (header claim : string) (user : User) (d : DB) :
  JsString.truthy header = true ->
  jwt_verify (JsString.substring_from 7 header) = inl claim ->
  find (fun u => String.eqb (email u) claim) (users d) = Some user ->
  role user = "user" ->
  LinksRouteGet.dispatch jwt_verify LinksRouteGet.linksRouteGet
    segs (Some header) d =
  match first_match LinksRouteGet.linksRouteGet segs with
  | None => LinksRouteGet.NoRoute
  | Some (r, params) =>
      match LinksRouteGet.controller r with
      | LinksRouteGet.linksControllerGet
      | LinksRouteGet.linksControllerAllGet
      | LinksRouteGet.linkControllerGetCountAll =>
          LinksRouteGet.Rejected
            (mkResponse 401 false (BError "Unauthorized user"))
      | _ => LinksRouteGet.Invoked (LinksRouteGet.controller r) params
      end
  end.
Proof.
  intros Ht Hv Hf Hrole.
  rewrite DispatchFacts.dispatch_first_match.
  destruct (first_match _ _) as [[r ps]|] eqn:E; [|reflexivity].
  apply DispatchFacts.first_match_in in E.
  unfold LinksRouteGet.linksRouteGet in E. cbn [In] in E.
  DispatchFacts.each_route E;
    cbn [LinksRouteGet.guard LinksRouteGet.controller];
    try rewrite (DispatchFacts.protectRoute_with_user jwt_verify _ header
                   claim user d Ht Hv Hf);
    unfold role_of; try rewrite Hrole; reflexivity.
Qed.

Lemma links_get_user_is_kept_from_admin_routes_witness :
  LinksRouteGet.dispatch Sample.jwt_verify LinksRouteGet.linksRouteGet
    ["api"; "v1"; "links"] (Some "Bearer token-of-ana") Sample.two_users =
  LinksRouteGet.Rejected (mkResponse 401 false (BError "Unauthorized user")) /\
  LinksRouteGet.dispatch Sample.jwt_verify LinksRouteGet.linksRouteGet
    ["api"; "v1"; "links"; "7"] (Some "Bearer token-of-ana") Sample.two_users =
  LinksRouteGet.Invoked LinksRouteGet.linksControllerGetID [("id", "7")].
Proof.
  split.
  - exact (eq_trans
             (links_get_user_is_kept_from_admin_routes Sample.jwt_verify
                ["api"; "v1"; "links"] "Bearer token-of-ana"
                "ana@example.com" Sample.ana Sample.two_users
                eq_refl eq_refl eq_refl eq_refl)
             eq_refl).
  - exact (eq_trans
             (links_get_user_is_kept_from_admin_routes Sample.jwt_verify
                ["api"; "v1"; "links"; "7"] "Bearer token-of-ana"
                "ana@example.com" Sample.ana Sample.two_users
                eq_refl eq_refl eq_refl eq_refl)
             eq_refl).
Defined.

(* ================================================================== *)
(** * The guard and the routes that change links *)

Module GuardedFacts.

Lemma substring_from_append (p t : string) :
  JsString.substring_from (String.length p) (p ++ t) = t.
Proof.
  induction p as [|c p IH]; cbn; [now destruct t | exact IH].
Qed.

Lemma truthy_append (p t : string) :
  JsString.truthy p = true -> JsString.truthy (p ++ t) = true.
Proof. destruct p; [discriminate | reflexivity]. Qed.

End GuardedFacts.

(** X21: the guard does not look at the scheme of the header. It drops
    the first seven characters, whatever they are, and verifies the rest:
    any seven characters followed by a token are treated like [Bearer ]
    followed by that token. *)
Theorem protectRoute_ignores_the_scheme
    (jwt_verify : string -> string + string)
    (role scheme token : string) (d : DB) :
  String.length scheme = 7%nat ->
  protectRoute jwt_verify role (Some (scheme ++ token)) d =
  protectRoute jwt_verify role (Some ("Bearer " ++ token)) d.
Proof.
  intros Hlen.
  assert (Ht : JsString.truthy (scheme ++ token) = true).
  { apply GuardedFacts.truthy_append. destruct scheme; [discriminate | reflexivity]. }
  assert (Hs : JsString.substring_from 7 (scheme ++ token) = token).
  { rewrite <- Hlen. apply GuardedFacts.substring_from_append. }
  unfold protectRoute. rewrite Ht, Hs. reflexivity.
Qed.

Lemma protectRoute_ignores_the_scheme_witness :
  String.length "Basic: " = 7%nat /\
  protectRoute Sample.jwt_verify "user" (Some "Basic: token-of-ana")
    Sample.two_users = Next.
Proof.
  split; [reflexivity|].
  exact (eq_trans
           (protectRoute_ignores_the_scheme Sample.jwt_verify "user"
              "Basic: " "token-of-ana" Sample.two_users eq_refl)
           eq_refl).
Defined.

(** X22: without an [authorization] header the three routes that change
    links answer 401 "Unauthorized user" and change nothing: no link is
    created, updated or deleted, no code is drawn and no query is
    made. *)
Theorem link_mutations_need_a_credential
    (jwt_verify : string -> string + string)
    (rnd : nat -> Q) (isURL : string -> bool)
    (Number_isNaN : string -> bool) (key_of_text : string -> option Z)
    (create : CreateBody) (put : PutRequest) (id : string) (w : World) :
  post_createLinks jwt_verify rnd isURL None create w =
    (mkResponse 401 false (BError "Unauthorized user"), w) /\
  put_links jwt_verify isURL None put (db w) =
    (mkResponse 401 false (BError "Unauthorized user"), db w) /\
  delete_links jwt_verify Number_isNaN key_of_text None id (db w) =
    (DeleteRejected (mkResponse 401 false (BError "Unauthorized user")), db w).
Proof. repeat split. Qed.

(** X23: the allocator does not tie the owner to the credential. A
    request that carries a valid credential of one stored user and names
    another stored user as [id_user] is handled as that user's own
    request would be: with a valid new URL that fits the column
    ([STRING(2048)]) and a free final candidate it creates a link owned
    by the user named in the body. *)
Theorem create_for_another_user
    (jwt_verify : string -> string + string)
    (rnd : nat -> Q) (isURL : string -> bool)
    (header claim original : string) (caller : User) (owner : Z) (w : World) :
  JsString.truthy header = true ->
  jwt_verify (JsString.substring_from 7 header) = inl claim ->
  find (fun u => String.eqb (email u) claim) (users (db w)) = Some caller ->
  role caller = "user" \/ role caller = "admin" ->
  owner <> id_user caller ->
  user_exists owner (db w) = true ->
  invalid_url isURL (Some original) = false ->
  (String.length original <= 2048)%nat ->
  find (link_matches (ByOriginalAndUser original (Some owner)))
       (links (db w)) = None ->
  short_link_taken (final_candidate rnd (drawn w) (db w)) (db w) = false ->
  let run := post_createLinks jwt_verify rnd isURL (Some header)
               (mkCreateBody (Some original) (Some owner)) w in
  exists l,
    fst run = mkResponse 201 true (BLink l "New short link created") /\
    link_id_user l = owner /\ original_link l = original /\
    links (db (snd run)) = (links (db w) ++ [l])%list.
Proof.
  intros Ht Hv Hf Hrole Hne Hown Hurl Hfit Hdup Hfree. cbv zeta.
  unfold post_createLinks.
  rewrite (DispatchFacts.protectRoute_with_user jwt_verify "user" header claim
             caller (db w) Ht Hv Hf).
  unfold role_of.
  assert (Hpass : String.eqb "user" "user" &&
                  (String.eqb (role caller) "user" ||
                   String.eqb (role caller) "admin") = true).
  { destruct Hrole as [-> | ->]; reflexivity. }
  rewrite Hpass.
  rewrite (linkControllerCreate_run rnd isURL original (Some owner) w Hurl).
  cbv zeta. rewrite Hdup. unfold final_candidate in Hfree.
  destruct (short_link_taken (code_at rnd (drawn w)) (db w));
    rewrite LinksModel_create_run; cbv zeta; cbn [db drawn log];
    rewrite Hfree, Hown; cbn [negb fst snd db links];
    eexists; repeat split.
Qed.

Lemma create_for_another_user_witness :
  let run := post_createLinks Sample.jwt_verify Sample.zeros Sample.isURL
               (Some "Bearer token-of-ana")
               (mkCreateBody (Some Sample.page) (Some 2)) Sample.start in
  id_user Sample.ana = 1 /\
  exists l,
    fst run = mkResponse 201 true (BLink l "New short link created") /\
    link_id_user l = 2.
Proof.
  intros run. split; [reflexivity|].
  assert (Hne : 2 <> id_user Sample.ana) by discriminate.
  assert (Hfit : (String.length Sample.page <= 2048)%nat) by (cbn; lia).
  destruct (create_for_another_user Sample.jwt_verify Sample.zeros
              Sample.isURL "Bearer token-of-ana" "ana@example.com"
              Sample.page Sample.ana 2 Sample.start
              eq_refl eq_refl eq_refl (or_introl eq_refl) Hne
              eq_refl eq_refl Hfit eq_refl eq_refl)
    as (l & Hr & Ho & _).
  exists l. split; [exact Hr | exact Ho].
Defined.

(** X24: the update and delete routes do not check who owns the link. A
    valid credential of any stored user of role [user] is enough to
    delete a link of another user (answer 200, no link with that key
    left) and to replace its URL by a valid one that fits the column
    ([STRING(2048)]) (answer 200). *)
Theorem any_user_can_change_any_link
    (jwt_verify : string -> string + string) (isURL : string -> bool)
    (Number_isNaN : string -> bool) (key_of_text : string -> option Z)
    (header claim id original : string) (caller : User) (l : Link) (d : DB) :
  JsString.truthy header = true ->
  jwt_verify (JsString.substring_from 7 header) = inl claim ->
  find (fun u => String.eqb (email u) claim) (users d) = Some caller ->
  role caller = "user" ->
  In l (links d) -> link_id_user l <> id_user caller ->
  Number_isNaN id = false -> key_of_text id = Some (id_links l) ->
  invalid_url isURL (Some original) = false ->
  (String.length original <= 2048)%nat ->
  (exists l0,
     fst (delete_links jwt_verify Number_isNaN key_of_text (Some header) id d)
     = DeleteHandled (mkDeleteResponse 200 true (Deleted l0 "Link deleted")))
  /\
  link_exists (id_links l)
    (snd (delete_links jwt_verify Number_isNaN key_of_text (Some header) id d))
  = false /\
  status (fst (put_links jwt_verify isURL (Some header)
                 (mkPutRequest id (id_links l) (Some original)) d)) = 200.
Proof.
  intros Ht Hv Hf Hrole Hin Hother Hnum Hkey Hurl Hfit.
  assert (Hnext : protectRoute jwt_verify "user" (Some header) d = Next).
  { rewrite (DispatchFacts.protectRoute_with_user jwt_verify "user" header
               claim caller d Ht Hv Hf).
    unfold role_of. now rewrite Hrole. }
  assert (Hfound : exists l0,
             find (link_matches (ByIdLinks (id_links l))) (links d) = Some l0 /\
             id_links l0 = id_links l).
  { destruct (find (link_matches (ByIdLinks (id_links l))) (links d))
      as [l0|] eqn:F.
    - exists l0. split; [reflexivity|]. apply find_some in F.
      destruct F as [_ F]. cbn [link_matches] in F. now apply Z.eqb_eq in F.
    - exfalso. rewrite MutationFacts.find_none_iff in F.
      specialize (F l Hin). cbn [link_matches] in F.
      rewrite Z.eqb_refl in F. discriminate. }
  destruct Hfound as (l0 & F & Hid).
  unfold delete_links, put_links, linkControllerDeleteID, linkControllerPutID.
  rewrite Hnext, Hnum, Hkey.
  cbn [put_original_link put_id_links]. rewrite Hurl, F. cbn [fst snd status].
  split; [eauto|]. split; [|reflexivity].
  rewrite Hid. apply DeleteFacts.destroyed_key_is_gone.
Qed.

Lemma any_user_can_change_any_link_witness :
  let bobs := mkLink 3 "https://example.com/page" "cccc" 2 in
  In bobs (links Scenario.three_links) /\
  link_id_user bobs <> id_user Sample.ana /\
  link_exists 3
    (snd (delete_links Sample.jwt_verify Scenario.Number_isNaN
            Scenario.key_of_text (Some "Bearer token-of-ana") "3"
            Scenario.three_links)) = false.
Proof.
  intros bobs.
  assert (Hin : In bobs (links Scenario.three_links))
    by (right; right; now left).
  assert (Hne : link_id_user bobs <> id_user Sample.ana) by discriminate.
  assert (Hfit : (String.length Sample.page <= 2048)%nat) by (cbn; lia).
  split; [exact Hin|]. split; [exact Hne|].
  destruct (any_user_can_change_any_link Sample.jwt_verify Sample.isURL
              Scenario.Number_isNaN Scenario.key_of_text
              "Bearer token-of-ana" "ana@example.com" "3" Sample.page
              Sample.ana bobs Scenario.three_links
              eq_refl eq_refl eq_refl eq_refl Hin Hne eq_refl eq_refl eq_refl
              Hfit)
    as (_ & Hgone & _).
  exact Hgone.
Defined.

(* ================================================================== *)
(** * What an allocation leaves behind *)

Module AllocationFacts.

Lemma code_at_length (rnd : nat -> Q) (k : nat) :
  (forall i, (0 <= rnd i)%Q /\ (rnd i < 1)%Q) ->
  String.length (code_at rnd k) = 4%nat.
Proof. intros Hr. unfold code_at. now apply generateShortLink_length. Qed.

Lemma code_at_alphabet (rnd : nat -> Q) (k : nat) (c : ascii) :
  JsString.mem c (code_at rnd k) = true -> JsString.mem c char = true.
Proof.
  intros Hc. destruct (JsString.mem c char) eqn:E; [reflexivity|].
  unfold code_at, generateShortLink in Hc.
  rewrite (loop_avoids rnd c 4 E "" _ eq_refl) in Hc. discriminate.
Qed.

Lemma final_candidate_cases (rnd : nat -> Q) (k : nat) (d : DB) :
  final_candidate rnd k d = code_at rnd k \/
  final_candidate rnd k d = code_at rnd (k + 4).
Proof.
  unfold final_candidate. destruct (short_link_taken _ d); auto.
Qed.

Lemma cycle_in_range (i : nat) :
  (0 <= Scenario.cycle i)%Q /\ (Scenario.cycle i < 1)%Q.
Proof.
  unfold Scenario.cycle, Qle, Qlt. cbn [Qnum Qden].
  pose proof (Nat.mod_upper_bound i 100). lia.
Qed.

End AllocationFacts.

(** X25: allocate, then look up. After a 201 of the allocator (with
    draws in [0,1), as [Math.random()] gives them), the resolver asked
    for the short link of the answer returns the submitted URL, with or
    without the domain in front. *)
Theorem create_then_lookup_returns_url
    (rnd : nat -> Q) (isURL : string -> bool)
    (original : string) (u : Z) (w : World) :
  (forall i, (0 <= rnd i)%Q /\ (rnd i < 1)%Q) ->
  let run := linkControllerCreate rnd isURL
               (mkCreateBody (Some original) (Some u)) w in
  status (fst run) = 201 ->
  exists l,
    fst run = mkResponse 201 true (BLink l "New short link created") /\
    forall k lg,
      fst (LinksControllerGet.linksControllerOriginalLinkGet (short_link l)
             (mkWorld (db (snd run)) k lg)) =
        mkResponse 200 true (BOriginal original) /\
      fst (LinksControllerGet.linksControllerOriginalLinkGet
             ("https://linkcurter.com/" ++ short_link l)
             (mkWorld (db (snd run)) k lg)) =
        mkResponse 200 true (BOriginal original).
Proof.
  intros Hr run H201. unfold run in *.
  destruct (linkControllerCreate_created rnd isURL original u w H201)
    as (_ & _ & _ & l & Hresp & Ho & _ & Hs & Hfree & _ & Hlinks).
  exists l. split; [exact Hresp|]. intros k lg.
  assert (Hlen : String.length (short_link l) = 4%nat).
  { rewrite Hs.
    destruct (AllocationFacts.final_candidate_cases rnd (drawn w) (db w))
      as [-> | ->]; now apply AllocationFacts.code_at_length. }
  assert (Hfind : find (link_matches (ByShortLink (short_link l)))
                       (links (db (snd (linkControllerCreate rnd isURL
                          (mkCreateBody (Some original) (Some u)) w)))) =
                  Some l).
  { rewrite Hlinks. unfold short_link_taken in Hfree.
    rewrite existsb_find in Hfree.
    change (fun l0 : Link => String.eqb (short_link l0) (short_link l))
      with (link_matches (ByShortLink (short_link l))) in Hfree.
    destruct (find (link_matches (ByShortLink (short_link l))) (links (db w)))
      eqn:F; [discriminate|].
    rewrite (find_app_none _ _ l F). cbn [link_matches].
    now rewrite String.eqb_refl. }
  rewrite !ResolverFacts.linksControllerOriginalLinkGet_run. cbv zeta.
  rewrite ResolverFacts.replace_prefix_https.
  rewrite ResolverFacts.replace_prefix_short by lia.
  cbn [fst db]. rewrite Hfind, Ho. split; reflexivity.
Qed.

Lemma create_then_lookup_returns_url_witness :
  let rnd := Scenario.cycle in
  let run := linkControllerCreate rnd Sample.isURL
               (mkCreateBody (Some Sample.page) (Some 1)) Sample.start in
  fst run = mkResponse 201 true
              (BLink (mkLink 1 Sample.page "aabb" 1) "New short link created")
  /\
  fst (LinksControllerGet.linksControllerOriginalLinkGet "aabb"
         (mkWorld (db (snd run)) 4 [])) =
    mkResponse 200 true (BOriginal Sample.page).
Proof.
  intros rnd run. split; [reflexivity|].
  pose proof AllocationFacts.cycle_in_range as Hr.
  destruct (create_then_lookup_returns_url rnd Sample.isURL Sample.page 1
              Sample.start Hr eq_refl) as (l & Hresp & Hlook).
  assert (El : l = mkLink 1 Sample.page "aabb" 1).
  { assert (E : fst run = mkResponse 201 true
                            (BLink (mkLink 1 Sample.page "aabb" 1)
                                   "New short link created")) by reflexivity.
    unfold run in E. rewrite Hresp in E. now injection E. }
  subst l. exact (proj1 (Hlook 4%nat [])).
Defined.

(** X26: what a 201 of the allocator stores (with draws in [0,1)): one
    new link, appended, whose key is the next key, whose URL is the
    submitted text as it came, whose owner is the submitted user, and
    whose short link is four characters of the generator's alphabet; the
    next key grows by one, users and visits are untouched. *)
Theorem created_link_shape
    (rnd : nat -> Q) (isURL : string -> bool)
    (original : string) (u : Z) (w : World) :
  (forall i, (0 <= rnd i)%Q /\ (rnd i < 1)%Q) ->
  let run := linkControllerCreate rnd isURL
               (mkCreateBody (Some original) (Some u)) w in
  status (fst run) = 201 ->
  exists code,
    String.length code = 4%nat /\
    (forall c, JsString.mem c code = true -> JsString.mem c char = true) /\
    fst run = mkResponse 201 true
                (BLink (mkLink (next_id_links (db w)) original code u)
                       "New short link created") /\
    db (snd run) = with_new_link (db w) original code u.
Proof.
  intros Hr run H201. unfold run in *.
  destruct (invalid_url isURL (Some original)) eqn:Hurl.
  { rewrite linkControllerCreate_invalid in H201 by exact Hurl. discriminate. }
  exists (final_candidate rnd (drawn w) (db w)).
  split; [|split].
  - destruct (AllocationFacts.final_candidate_cases rnd (drawn w) (db w))
      as [-> | ->]; now apply AllocationFacts.code_at_length.
  - intros c.
    destruct (AllocationFacts.final_candidate_cases rnd (drawn w) (db w))
      as [-> | ->]; apply AllocationFacts.code_at_alphabet.
  - revert H201.
    rewrite (linkControllerCreate_run rnd isURL original (Some u) w Hurl).
    cbv zeta. unfold final_candidate.
    destruct (find _ (links (db w))); [discriminate|].
    destruct (short_link_taken (code_at rnd (drawn w)) (db w));
      rewrite LinksModel_create_run; cbv zeta; cbn [db drawn log];
      match goal with
      | |- context [short_link_taken ?x (db w)] =>
          destruct (short_link_taken x (db w))
      end; try discriminate;
      destruct (user_exists u (db w)); try discriminate;
      intros _; split; reflexivity.
Qed.

Lemma created_link_shape_witness :
  let run := linkControllerCreate Scenario.cycle Sample.isURL
               (mkCreateBody (Some Sample.page) (Some 1)) Sample.start in
  status (fst run) = 201 /\
  exists code,
    String.length code = 4%nat /\
    db (snd run) = with_new_link Sample.two_users Sample.page code 1.
Proof.
  intros run. split; [reflexivity|].
  destruct (created_link_shape Scenario.cycle Sample.isURL Sample.page 1
              Sample.start AllocationFacts.cycle_in_range eq_refl)
    as (code & Hlen & _ & _ & Hdb).
  exists code. split; [exact Hlen | exact Hdb].
Defined.

(** X27: the allocator does not look the owner up. A valid URL for an
    [id_user] that names no stored user passes the duplicate check, draws
    a code, and fails at the insert: the answer is 500 "Internal server
    error", not a 400, and the store is unchanged. *)
Theorem create_for_unknown_user_is_500
    (rnd : nat -> Q) (isURL : string -> bool)
    (original : string) (u : Z) (w : World) :
  invalid_url isURL (Some original) = false ->
  user_exists u (db w) = false ->
  find (link_matches (ByOriginalAndUser original (Some u)))
       (links (db w)) = None ->
  let run := linkControllerCreate rnd isURL
               (mkCreateBody (Some original) (Some u)) w in
  fst run = mkResponse 500 false (BError "Internal server error") /\
  db (snd run) = db w /\
  (drawn w + 4 <= drawn (snd run))%nat.
Proof.
  intros Hurl Hu Hdup. cbv zeta.
  rewrite (linkControllerCreate_run rnd isURL original (Some u) w Hurl).
  cbv zeta. rewrite Hdup.
  destruct (short_link_taken (code_at rnd (drawn w)) (db w));
    rewrite LinksModel_create_run; cbv zeta; cbn [db drawn log];
    match goal with
    | |- context [short_link_taken ?x (db w)] =>
        destruct (short_link_taken x (db w))
    end; rewrite ?Hu; cbn [negb fst snd db drawn logged];
    repeat split; lia.
Qed.

Lemma create_for_unknown_user_is_500_witness :
  user_exists 9 (db Sample.start) = false /\
  fst (linkControllerCreate Sample.zeros Sample.isURL
         (mkCreateBody (Some Sample.page) (Some 9)) Sample.start) =
  mkResponse 500 false (BError "Internal server error").
Proof.
  split; [reflexivity|].
  apply (create_for_unknown_user_is_500 Sample.zeros Sample.isURL
           Sample.page 9 Sample.start); reflexivity.
Defined.

(* ================================================================== *)
(** * The image of the generator *)

Module GeneratorImage.

Lemma mem_index (c : ascii) (s : string) :
  JsString.mem c s = true ->
  exists i, (i < String.length s)%nat /\ String.get i s = Some c.
Proof.
  induction s as [|d s IH]; cbn [JsString.mem]; [discriminate|].
  intros H. apply orb_true_iff in H. destruct H as [E|H].
  - apply Ascii.eqb_eq in E. subst d. exists 0%nat. split; [cbn; lia | reflexivity].
  - destruct (IH H) as (i & Hi & G). exists (S i). split; [cbn; lia | exact G].
Qed.

(** The draw [i/61] selects the symbol at index [i]. *)
Lemma draw_selects (i : nat) (c : ascii) :
  String.get i char = Some c ->
  JsString.charAt char
    (Qfloor ((Z.of_nat i # 61) * inject_Z (Z.of_nat (String.length char)))) =
  String c "".
Proof.
  intros G.
  assert (E : Qfloor ((Z.of_nat i # 61) *
                      inject_Z (Z.of_nat (String.length char))) = Z.of_nat i).
  { change (Z.of_nat (String.length char)) with 61.
    unfold Qfloor, Qmult, inject_Z. cbn [Qnum Qden].
    change (Z.pos (61 * 1)) with 61. apply Z.div_mul. discriminate. }
  rewrite E. unfold JsString.charAt.
  destruct (Z.of_nat i <? 0) eqn:L; [apply Z.ltb_lt in L; lia|].
  now rewrite Nat2Z.id, G.
Qed.

Lemma draw_in_range (i : nat) :
  (i < 61)%nat -> (0 <= Z.of_nat i # 61)%Q /\ (Z.of_nat i # 61 < 1)%Q.
Proof. intros H. unfold Qle, Qlt. cbn [Qnum Qden]. lia. Qed.

End GeneratorImage.

(** X28: the codes [generateShortLink] can return, over all the values
    [Math.random()] can take, are exactly the words of four characters of
    its alphabet. *)
Theorem generateShortLink_image (code : string) :
  (String.length code = 4%nat /\
   forall c, JsString.mem c code = true -> JsString.mem c char = true) <->
  exists rnd : nat -> Q,
    (forall i, (0 <= rnd i)%Q /\ (rnd i < 1)%Q) /\ code_at rnd 0 = code.
Proof.
  split.
  - intros [Hlen Hchars].
    destruct code as [|c1 [|c2 [|c3 [|c4 [|c5 rest]]]]]; try discriminate.
    destruct (GeneratorImage.mem_index c1 char) as (i1 & B1 & G1).
    { apply Hchars. cbn. now rewrite Ascii.eqb_refl. }
    destruct (GeneratorImage.mem_index c2 char) as (i2 & B2 & G2).
    { apply Hchars. cbn. now rewrite Ascii.eqb_refl, !orb_true_r. }
    destruct (GeneratorImage.mem_index c3 char) as (i3 & B3 & G3).
    { apply Hchars. cbn. now rewrite Ascii.eqb_refl, !orb_true_r. }
    destruct (GeneratorImage.mem_index c4 char) as (i4 & B4 & G4).
    { apply Hchars. cbn. now rewrite Ascii.eqb_refl, !orb_true_r. }
    change (String.length char) with 61%nat in B1, B2, B3, B4.
    exists (fun n => match n with
                     | 0%nat => Z.of_nat i1 # 61
                     | 1%nat => Z.of_nat i2 # 61
                     | 2%nat => Z.of_nat i3 # 61
                     | _ => Z.of_nat i4 # 61
                     end)%Q.
    split.
    + intros [|[|[|n]]]; now apply GeneratorImage.draw_in_range.
    + unfold code_at, generateShortLink.
      cbn [generateShortLink_loop]. unfold bind, Math_random, ret.
      cbn [drawn db log fst snd].
      rewrite (GeneratorImage.draw_selects i1 c1 G1),
        (GeneratorImage.draw_selects i2 c2 G2),
        (GeneratorImage.draw_selects i3 c3 G3),
        (GeneratorImage.draw_selects i4 c4 G4).
      reflexivity.
  - intros (rnd & Hr & <-). split.
    + now apply AllocationFacts.code_at_length.
    + intros c. apply AllocationFacts.code_at_alphabet.
Qed.

(** X29: the guard knows three required roles. For any other text,
    [Admin] or [USER] for instance, no request passes, with or without a
    credential. *)
Theorem protectRoute_unknown_role_locks_the_route
    (jwt_verify : string -> string + string)
    (role : string) (authorization : option string) (d : DB) :
  role <> "" -> role <> "user" -> role <> "admin" ->
  protectRoute jwt_verify role authorization d <> Next.
Proof.
  intros H0 H1 H2.
  apply String.eqb_neq in H0, H1, H2.
  unfold protectRoute, unauthorized. rewrite H0, H1, H2. cbn [andb].
  destruct authorization as [header|]; [|discriminate].
  destruct (JsString.truthy header); [|discriminate].
  destruct (jwt_verify _); [|discriminate].
  destruct (find _ (users d)); discriminate.
Qed.

Lemma protectRoute_unknown_role_locks_the_route_witness :
  "Admin" <> "admin" /\
  protectRoute Sample.jwt_verify "Admin" (Some "Bearer token-of-ana")
    (mkDB [mkUser 1 "ana@example.com" "admin"] [] [] 1 1) <> Next.
Proof.
  split; [discriminate|].
  apply (protectRoute_unknown_role_locks_the_route Sample.jwt_verify "Admin");
    discriminate.
Defined.
